(** * Weekly node / miner scan: a shallow embedding of
      [scripts/node_miner_weekly_scan.py] and the properties of its
      reconciliation and classification core.

    Conventions of the embedding.
    - A Python [str] is a Rocq [string]; a character is read as the code
      point of the same number (U+0000 .. U+00FF).
    - A Python [int] is a [Z]; a Python [float] is an IEEE 754 binary64
      value, written as a [spec_float] with precision 53 and [emax] 1024.
    - A Python exception is a constructor of [exn]; a function that can
      raise returns a [result].
    - [urllib.parse.urlparse] is embedded from CPython's [urllib/parse.py]
      (3.11 with the bracketed-host validation), [_checknetloc] included,
      with the NFKC normalization of the characters up to U+00FF; the
      validation of the text between square brackets
      ([_check_bracketed_host], which relies on [ipaddress] and [re]) is a
      parameter of the development.
    - [urllib.request.Request(url)] is embedded as far as it raises:
      [unwrap], [_splittag], the test of [_splittype] for a URL type, and
      the parse of the full URL for the host. *)

From Stdlib Require Import ZArith NArith Ascii String List Bool Lia.
From Stdlib Require Import SpecFloat DecimalString.
From stdpp Require Import gmap strings list sorting.

Local Open Scope string_scope.
Local Open Scope Z_scope.

(* ===================================================================== *)
(** * Exceptions *)
(* ===================================================================== *)

Inductive exn : Type :=
| ValueError
| TypeError
| OverflowError.

Inductive result (A : Type) : Type :=
| Ok (a : A)
| Raise (e : exn).

Arguments Ok {A} a.
Arguments Raise {A} e.

(** Sequencing: the first exception raised ends the computation. *)
Global Instance result_ret : MRet result := fun A a => Ok a.
Global Instance result_bind : MBind result := fun A B k m =>
  match m with
  | Ok a => k a
  | Raise e => Raise e
  end.

(* ===================================================================== *)
(** * Python string primitives *)
(* ===================================================================== *)

Module PyStr.

Definition code (c : ascii) : nat := nat_of_ascii c.

Definition between (lo hi : nat) (c : ascii) : bool :=
  (Nat.leb lo (code c) && Nat.leb (code c) hi)%bool.

(** [str.isspace], restricted to one character below U+0100. *)
Definition is_space (c : ascii) : bool :=
  (between 9 13 c || between 28 32 c
   || Nat.eqb (code c) 133 || Nat.eqb (code c) 160)%bool.

Definition is_ascii_upper (c : ascii) : bool := between 65 90 c.
Definition is_ascii_lower (c : ascii) : bool := between 97 122 c.
Definition is_ascii_alpha (c : ascii) : bool :=
  (is_ascii_upper c || is_ascii_lower c)%bool.
Definition is_ascii_digit (c : ascii) : bool := between 48 57 c.

(** [str.lower] on one character below U+0100: the ASCII capitals and the
    Latin-1 capitals U+00C0 .. U+00DE, the multiplication sign excepted. *)
Definition lower_char (c : ascii) : ascii :=
  if (is_ascii_upper c
      || (between 192 222 c && negb (Nat.eqb (code c) 215)))%bool
  then ascii_of_nat (code c + 32)
  else c.

Fixpoint lower (s : string) : string :=
  match s with
  | EmptyString => EmptyString
  | String c s' => String (lower_char c) (lower s')
  end.

Fixpoint all_chars (p : ascii -> bool) (s : string) : bool :=
  match s with
  | EmptyString => true
  | String c s' => (p c && all_chars p s')%bool
  end.

Fixpoint has_char (p : ascii -> bool) (s : string) : bool :=
  match s with
  | EmptyString => false
  | String c s' => (p c || has_char p s')%bool
  end.

Definition is_char (a : ascii) (c : ascii) : bool := Ascii.eqb c a.

(** [c in s] for a one-character [c]. *)
Definition mem_char (c : ascii) (s : string) : bool := has_char (is_char c) s.

(** [bool(s)]: a string is true when it is not empty. *)
Definition truthy (s : string) : bool :=
  match s with
  | EmptyString => false
  | String _ _ => true
  end.

(** [s.lstrip(chars)], [s.rstrip(chars)] with the stripped characters given
    as a predicate, and [s.strip()]. *)
Fixpoint lstrip_by (p : ascii -> bool) (s : string) : string :=
  match s with
  | EmptyString => EmptyString
  | String c s' => if p c then lstrip_by p s' else s
  end.

Fixpoint rstrip_by (p : ascii -> bool) (s : string) : string :=
  match s with
  | EmptyString => EmptyString
  | String c s' =>
      match rstrip_by p s' with
      | EmptyString => if p c then EmptyString else String c EmptyString
      | r => String c r
      end
  end.

Definition strip (s : string) : string :=
  rstrip_by is_space (lstrip_by is_space s).

(** [s.replace(c, "")] for every character [c] satisfying [p]. *)
Fixpoint remove_chars (p : ascii -> bool) (s : string) : string :=
  match s with
  | EmptyString => EmptyString
  | String c s' => if p c then remove_chars p s' else String c (remove_chars p s')
  end.

(** [sub in s]. *)
Fixpoint contains (sub s : string) : bool :=
  match s with
  | EmptyString => String.prefix sub EmptyString
  | String _ s' => (String.prefix sub s || contains sub s')%bool
  end.

(** The text before the first character satisfying [p], and the text from
    that character on (empty when there is none): [s[:i]] and [s[i:]] for
    [i] the first such index, or [len(s)]. *)
Fixpoint break (p : ascii -> bool) (s : string) : string * string :=
  match s with
  | EmptyString => (EmptyString, EmptyString)
  | String c s' =>
      if p c then (EmptyString, s)
      else let '(a, b) := break p s' in (String c a, b)
  end.

(** [s.partition(c)]: head, whether the separator was found, tail. *)
Definition partition (c : ascii) (s : string) : string * bool * string :=
  match break (is_char c) s with
  | (a, String _ b) => (a, true, b)
  | (a, EmptyString) => (a, false, EmptyString)
  end.

(** [s.rpartition(c)]: split at the last [c]; when there is none the whole
    string is the tail. *)
Fixpoint rsplit1 (c : ascii) (s : string) : option (string * string) :=
  match s with
  | EmptyString => None
  | String a s' =>
      match rsplit1 c s' with
      | Some (h, t) => Some (String a h, t)
      | None => if is_char c a then Some (EmptyString, s') else None
      end
  end.

Definition rpartition (c : ascii) (s : string) : string * bool * string :=
  match rsplit1 c s with
  | Some (h, t) => (h, true, t)
  | None => (EmptyString, false, s)
  end.

(** [s[n:]]. *)
Fixpoint drop (n : nat) (s : string) : string :=
  match n, s with
  | O, _ => s
  | S _, EmptyString => EmptyString
  | S n', String _ s' => drop n' s'
  end.

(** The value of a string of ASCII digits, read in base ten. *)
Definition digit_val (c : ascii) : Z := Z.of_nat (code c) - 48.

Fixpoint digits_val (acc : Z) (s : string) : Z :=
  match s with
  | EmptyString => acc
  | String c s' => digits_val (10 * acc + digit_val c) s'
  end.

(** White space [int(s)] skips around the digits. *)
Definition is_int_space (c : ascii) : bool :=
  (between 9 13 c || Nat.eqb (code c) 32
   || Nat.eqb (code c) 133 || Nat.eqb (code c) 160)%bool.

(** Digits with single underscores between them; returns the digits. *)
Fixpoint int_digits (after_digit : bool) (s : string) : option string :=
  match s with
  | EmptyString => if after_digit then Some EmptyString else None
  | String c s' =>
      if is_ascii_digit c then String c <$> int_digits true s'
      else if (is_char "_" c && after_digit)%bool then int_digits false s'
      else None
  end.

(** [sys.int_info.default_max_str_digits]. *)
Definition max_str_digits : nat := 4300.

(** [int(s)] for a [str]: [ValueError] unless [s] is, between white
    space, an optional sign and digits, at most [max_str_digits] of them. *)
Definition int_of_str (s : string) : result Z :=
  let t := rstrip_by is_int_space (lstrip_by is_int_space s) in
  let '(neg, body) :=
    match t with
    | String c b =>
        if is_char "+" c then (false, b)
        else if is_char "-" c then (true, b)
        else (false, t)
    | EmptyString => (false, t)
    end in
  match int_digits false body with
  | Some ds =>
      if Nat.leb (String.length ds) max_str_digits
      then Ok (if neg then - digits_val 0 ds else digits_val 0 ds)
      else Raise ValueError
  | None => Raise ValueError
  end.

(** [str(n)] for an [int]. *)
Definition of_Z (z : Z) : string := NilZero.string_of_int (Z.to_int z).

End PyStr.

(* ===================================================================== *)
(** * [urllib.parse.urlparse] *)
(* ===================================================================== *)

Module UrlLib.
Import PyStr.

Record ParseResult : Type := mkParse {
  scheme : string;
  netloc : string;
  path : string;
  params : string;
  query : string;
  fragment : string
}.

Definition uses_params : list string :=
  [""; "ftp"; "hdl"; "prospero"; "http"; "imap"; "https"; "shttp"; "rtsp";
   "rtspu"; "sip"; "sips"; "mms"; "sftp"; "tel"].

Definition is_scheme_char (c : ascii) : bool :=
  (is_ascii_alpha c || is_ascii_digit c
   || is_char "+" c || is_char "-" c || is_char "." c)%bool.

(** [_WHATWG_C0_CONTROL_OR_SPACE] and [_UNSAFE_URL_BYTES_TO_REMOVE]. *)
Definition is_c0_or_space (c : ascii) : bool := Nat.leb (code c) 32.
Definition is_unsafe (c : ascii) : bool :=
  (Nat.eqb (code c) 9 || Nat.eqb (code c) 13 || Nat.eqb (code c) 10)%bool.

Definition is_delim (c : ascii) : bool :=
  (is_char "/" c || is_char "?" c || is_char "#" c)%bool.

(** [_splitnetloc(url, 2)]. *)
Definition _splitnetloc2 (url : string) : string * string :=
  break is_delim (drop 2 url).

(** [_splitparams]: returns the path without its parameters. *)
Definition _splitparams (url : string) : string * string :=
  match rsplit1 "/" url with
  | Some (h, t) =>
      match break (is_char ";") t with
      | (a, String _ b) => (h ++ "/" ++ a, b)
      | (_, EmptyString) => (url, "")
      end
  | None =>
      match break (is_char ";") url with
      | (a, String _ b) => (a, b)
      | (a, EmptyString) => (a, "")
      end
  end.

Section Parse.

(** [_check_bracketed_host] accepts the text between the brackets. *)
Variable bracketed_host_ok : string -> bool.

Definition _check_bracketed_netloc (netloc : string) : result unit :=
  let '(_, _, hostname_and_port) := rpartition "@" netloc in
  let '(before_bracket, have_open_br, bracketed) :=
    partition "[" hostname_and_port in
  if have_open_br then
    if truthy before_bracket then Raise ValueError
    else
      let '(hostname, _, port) := partition "]" bracketed in
      if (truthy port && negb (String.prefix ":" port))%bool
      then Raise ValueError
      else if bracketed_host_ok hostname then Ok tt else Raise ValueError
  else
    let '(hostname, _, _) := partition ":" hostname_and_port in
    if bracketed_host_ok hostname then Ok tt else Raise ValueError.

(** [unicodedata.normalize("NFKC", c)] for a character below U+0100, as
    code points: the no-break space, the spacing accents, the ordinal
    indicators, the superscript digits, the micro sign and the fractions
    have a compatibility form, the other characters are their own normal
    form; the normal form of a string of such characters is made of the
    normal forms of its characters. *)
Definition nfkc (c : ascii) : list Z :=
  let n := Z.of_nat (code c) in
  if n =? 160 then [32]
  else if n =? 168 then [32; 776]
  else if n =? 170 then [97]
  else if n =? 175 then [32; 772]
  else if n =? 178 then [50]
  else if n =? 179 then [51]
  else if n =? 180 then [32; 769]
  else if n =? 181 then [956]
  else if n =? 184 then [32; 807]
  else if n =? 185 then [49]
  else if n =? 186 then [111]
  else if n =? 188 then [49; 8260; 52]
  else if n =? 189 then [49; 8260; 50]
  else if n =? 190 then [51; 8260; 52]
  else [n].

Definition is_ascii (c : ascii) : bool := Nat.ltb (code c) 128.

Fixpoint code_points (s : string) : list Z :=
  match s with
  | EmptyString => []
  | String c s' => Z.of_nat (code c) :: code_points s'
  end.

Fixpoint nfkc_points (s : string) : list Z :=
  match s with
  | EmptyString => []
  | String c s' => nfkc c ++ nfkc_points s'
  end.

(** The code points of [/], [?], [#], [@] and [:]. *)
Definition netloc_delimiters : list Z := [47; 63; 35; 64; 58].

(** [_checknetloc]: a network location that NFKC normalization changes
    into a text with a delimiter is refused. *)
Definition _checknetloc (netloc : string) : result unit :=
  if (negb (truthy netloc) || all_chars is_ascii netloc)%bool then Ok tt
  else
    let n :=
      remove_chars
        (fun c => (is_char "@" c || is_char ":" c || is_char "#" c || is_char "?" c)%bool)
        netloc in
    let netloc2 := nfkc_points n in
    if bool_decide (code_points n = netloc2) then Ok tt
    else if existsb (fun c => bool_decide (c ∈ netloc2)) netloc_delimiters
    then Raise ValueError
    else Ok tt.

(** [urlsplit(url)], with the default [scheme=''] and
    [allow_fragments=True]. *)
Definition urlsplit (url : string) : result ParseResult :=
  let url := lstrip_by is_c0_or_space url in
  let url := remove_chars is_unsafe url in
  let '(scheme, url) :=
    match break (is_char ":") url with
    | (String c0 pre, String _ rest) =>
        if (is_ascii_alpha c0 && all_chars is_scheme_char (String c0 pre))%bool
        then (lower (String c0 pre), rest)
        else ("", url)
    | _ => ("", url)
    end in
  '(netloc, url) ←
    (if String.prefix "//" url then
       let '(netloc, rest) := _splitnetloc2 url in
       if ((mem_char "[" netloc && negb (mem_char "]" netloc))
           || (mem_char "]" netloc && negb (mem_char "[" netloc)))%bool
       then Raise ValueError
       else if (mem_char "[" netloc && mem_char "]" netloc)%bool
       then _ ← _check_bracketed_netloc netloc; Ok (netloc, rest)
       else Ok (netloc, rest)
     else Ok ("", url));
  let '(url, fragment) :=
    match break (is_char "#") url with
    | (a, String _ b) => (a, b)
    | (a, EmptyString) => (a, "")
    end in
  let '(url, query) :=
    match break (is_char "?") url with
    | (a, String _ b) => (a, b)
    | (a, EmptyString) => (a, "")
    end in
  _ ← _checknetloc netloc;
  Ok (mkParse scheme netloc url "" query fragment).

Definition urlparse (url : string) : result ParseResult :=
  r ← urlsplit url;
  if (bool_decide (scheme r ∈ uses_params) && mem_char ";" (path r))%bool
  then
    let '(p, prm) := _splitparams (path r) in
    Ok (mkParse (scheme r) (netloc r) p prm (query r) (fragment r))
  else Ok r.

(** [_hostinfo]: host name and port text of a network location. *)
Definition _hostinfo (netloc : string) : string * option string :=
  let '(_, _, hostinfo) := rpartition "@" netloc in
  let '(_, have_open_br, bracketed) := partition "[" hostinfo in
  let '(hostname, port) :=
    if have_open_br then
      let '(hostname, _, port) := partition "]" bracketed in
      let '(_, _, port) := partition ":" port in
      (hostname, port)
    else
      let '(hostname, _, port) := partition ":" hostinfo in
      (hostname, port) in
  (hostname, if truthy port then Some port else None).

(** The [hostname] property: [None] when empty, else lower-cased up to
    a zone separator. *)
Definition hostname (r : ParseResult) : option string :=
  let h := fst (_hostinfo (netloc r)) in
  if truthy h then
    let '(h, percent, zone) := partition "%" h in
    Some (lower h ++ (if percent then "%" else "") ++ zone)
  else None.

(** The [port] property. *)
Definition port (r : ParseResult) : result (option Z) :=
  match snd (_hostinfo (netloc r)) with
  | None => Ok None
  | Some p =>
      if all_chars is_ascii_digit p then
        n ← int_of_str p;
        if (n <=? 65535)%Z then Ok (Some n) else Raise ValueError
      else Raise ValueError
  end.

(** [urllib.parse.unwrap]: white space, angle brackets and the prefix
    [URL:] around a URL are taken off. *)
Fixpoint last_char (s : string) : option ascii :=
  match s with
  | EmptyString => None
  | String c EmptyString => Some c
  | String _ s' => last_char s'
  end.

Fixpoint drop_last (s : string) : string :=
  match s with
  | EmptyString => EmptyString
  | String _ EmptyString => EmptyString
  | String c s' => String c (drop_last s')
  end.

Definition unwrap (url : string) : string :=
  let url := strip url in
  let url :=
    match url with
    | String c rest =>
        if (is_char "<" c
            && match last_char url with Some l => is_char ">" l | None => false end)%bool
        then strip (drop_last rest)
        else url
    | EmptyString => url
    end in
  if String.prefix "URL:" url then strip (drop 4 url) else url.

(** [_splittag]: the URL and the fragment after its last number sign. *)
Definition _splittag (url : string) : string * option string :=
  match rsplit1 "#" url with
  | Some (h, t) => (h, Some t)
  | None => (url, None)
  end.

(** [_splittype(url)[0] is not None]: the URL starts with one or more
    characters other than [/] and [:], followed by a colon. *)
Definition has_type (url : string) : bool :=
  match break (fun c => (is_char "/" c || is_char ":" c)%bool) url with
  | (String _ _, String c _) => is_char ":" c
  | _ => false
  end.

(** [urllib.request.Request(url)], as far as it can raise: the
    constructor unwraps the URL, splits the fragment off, raises
    [ValueError] for a URL without type, and parses the full URL for the
    host of the request. *)
Definition Request (url : string) : result unit :=
  let '(full, fragment) := _splittag (unwrap url) in
  if has_type full then
    _ ← urlparse (match fragment with
                  | Some (String c f) => full ++ "#" ++ String c f
                  | _ => full
                  end);
    Ok tt
  else Raise ValueError.

End Parse.

End UrlLib.

(* ===================================================================== *)
(** * URL normalizer and identity resolver *)
(* ===================================================================== *)

Section Normalizer.
Import PyStr UrlLib.

Variable bracketed_host_ok : string -> bool.

(** [normalize_base_url]. *)
Definition normalize_base_url (raw : string) : result string :=
  let text := strip raw in
  if negb (truthy text) then Ok ""
  else
    let text := if negb (contains "://" text) then "https://" ++ text else text in
    parsed ← urlparse bracketed_host_ok text;
    let scheme := if truthy (scheme parsed) then scheme parsed else "https" in
    let netloc := if truthy (netloc parsed) then netloc parsed else path parsed in
    Ok (rstrip_by (is_char "/") (scheme ++ "://" ++ netloc)).

(** [node_identity]. *)
Definition node_identity (url : string) : result string :=
  parsed ← urlparse bracketed_host_ok url;
  let host :=
    match hostname parsed with
    | Some h => h
    | None => if truthy (netloc parsed) then netloc parsed else url
    end in
  port ← port parsed;
  let port :=
    match port with
    | Some p => p
    | None => if String.eqb (scheme parsed) "https" then 443 else 80
    end in
  Ok (host ++ ":" ++ of_Z port).

End Normalizer.

(* ===================================================================== *)
(** * JSON payloads as Python values *)
(* ===================================================================== *)

#[local] Set Warnings "-register-all".

(** The value [json.loads] returns: [None], [bool], [int], [str], [list] or
    [dict] (entries in insertion order, keys distinct). Fractional numbers
    are outside the embedding; an [int] has at most [max_str_digits]
    digits, or [json.loads] would not have returned it. *)
Inductive JSON : Type :=
| JNull
| JBool (b : bool)
| JInt (z : Z)
| JStr (s : string)
| JList (l : list JSON)
| JDict (d : list (string * JSON)).

Abbreviation dict := (list (string * JSON)).

Module Py.
Import PyStr.

(** [d.get(k, default)]. *)
Fixpoint dict_get (k : string) (d : dict) (default : JSON) : JSON :=
  match d with
  | [] => default
  | (k', v) :: d' => if String.eqb k' k then v else dict_get k d' default
  end.

(** [bool(v)]. *)
Definition truthy (v : JSON) : bool :=
  match v with
  | JNull => false
  | JBool b => b
  | JInt z => negb (z =? 0)
  | JStr s => PyStr.truthy s
  | JList l => match l with [] => false | _ => true end
  | JDict d => match d with [] => false | _ => true end
  end.

(** [a or b]. *)
Definition or (a b : JSON) : JSON := if truthy a then a else b.

Definition squote : ascii := "'".
Definition dquote : ascii := ascii_of_nat 34.
Definition backslash : ascii := "\".

Definition hex_digit (n : nat) : ascii :=
  if Nat.ltb n 10 then ascii_of_nat (48 + n) else ascii_of_nat (87 + n).

(** One character of [repr(s)] between quotes [q]. *)
Definition repr_char (q : ascii) (c : ascii) : string :=
  if (is_char q c || is_char backslash c)%bool then String backslash (String c "")
  else if Nat.eqb (code c) 9 then String backslash "t"
  else if Nat.eqb (code c) 10 then String backslash "n"
  else if Nat.eqb (code c) 13 then String backslash "r"
  else if (Nat.ltb (code c) 32 || between 127 160 c || Nat.eqb (code c) 173)%bool
  then String backslash
         (String "x" (String (hex_digit (Nat.div (code c) 16))
                        (String (hex_digit (Nat.modulo (code c) 16)) "")))
  else String c "".

Fixpoint repr_chars (q : ascii) (s : string) : string :=
  match s with
  | EmptyString => EmptyString
  | String c s' => repr_char q c ++ repr_chars q s'
  end.

(** [repr(s)] for a [str]. *)
Definition repr_str (s : string) : string :=
  let q := if (mem_char squote s && negb (mem_char dquote s))%bool
           then dquote else squote in
  String q (repr_chars q s ++ String q "").

(** [repr(v)]. *)
Fixpoint repr (v : JSON) : string :=
  match v with
  | JNull => "None"
  | JBool true => "True"
  | JBool false => "False"
  | JInt z => of_Z z
  | JStr s => repr_str s
  | JList l =>
      "[" ++ (fix items (l : list JSON) : string :=
                match l with
                | [] => ""
                | [x] => repr x
                | x :: l' => repr x ++ ", " ++ items l'
                end) l ++ "]"
  | JDict d =>
      "{" ++ (fix items (d : dict) : string :=
                match d with
                | [] => ""
                | [(k, x)] => repr_str k ++ ": " ++ repr x
                | (k, x) :: d' => repr_str k ++ ": " ++ repr x ++ ", " ++ items d'
                end) d ++ "}"
  end.

(** [str(v)]. *)
Definition str (v : JSON) : string :=
  match v with
  | JStr s => s
  | _ => repr v
  end.

(** [int(v)]. *)
Definition int (v : JSON) : result Z :=
  match v with
  | JNull => Raise TypeError
  | JBool b => Ok (if b then 1 else 0)
  | JInt z => Ok z
  | JStr s => PyStr.int_of_str s
  | JList _ => Raise TypeError
  | JDict _ => Raise TypeError
  end.

Definition is_dict (v : JSON) : bool :=
  match v with JDict _ => true | _ => false end.

(** [[r for r in l if isinstance(r, dict)]]. *)
Fixpoint dicts_of (l : list JSON) : list dict :=
  match l with
  | [] => []
  | JDict d :: l' => d :: dicts_of l'
  | _ :: l' => dicts_of l'
  end.

End Py.

(* ===================================================================== *)
(** * Python floats *)
(* ===================================================================== *)

Module Float64.

Definition prec : Z := 53.
Definition emax : Z := 1024.

(** The binary64 value nearest to an integer (ties to even). *)
Definition nearest (z : Z) : spec_float := binary_normalize prec emax z 0 false.

(** [float(n)] for an [int]: [OverflowError] when the nearest value is
    not finite. *)
Definition of_int (z : Z) : result spec_float :=
  match nearest z with
  | S754_infinity _ => Raise OverflowError
  | f => Ok f
  end.

Definition zero : spec_float := S754_zero false.
Definition div (x y : spec_float) : spec_float := SFdiv prec emax x y.
Definition leb (x y : spec_float) : bool := SFleb x y.
Definition ltb (x y : spec_float) : bool := SFltb x y.

(** [max(a, b)]: [b] when [b > a], else [a]. *)
Definition max (a b : spec_float) : spec_float := if ltb a b then b else a.

Definition is_nan (x : spec_float) : bool :=
  match x with S754_nan => true | _ => false end.

(** The literal [3600.0]. *)
Definition f3600 : spec_float := Eval vm_compute in nearest 3600.

End Float64.

(* ===================================================================== *)
(** * Node host classifier and miner age classifier *)
(* ===================================================================== *)

(** [node_version != network_version] for a [str] on the left. *)
Definition str_ne (s : string) (v : JSON) : bool :=
  match v with
  | JStr s' => negb (String.eqb s s')
  | _ => true
  end.

(** [classify_node_host]. The network version is whatever the seed's health
    payload holds under ["version"]; the annotated case is [JStr]. *)
Definition classify_node_host (is_active online : bool)
    (node_version : string) (network_version : JSON) : bool * string :=
  if negb is_active then (false, "inactive_no_payout")
  else if negb online then (false, "investigate_offline")
  else if (Py.truthy network_version && PyStr.truthy node_version
           && str_ne node_version network_version)%bool
  then (true, "pay_weekly_and_upgrade_node")
  else (true, "pay_weekly").

Module Classification.
Record t : Type := mk {
  age_h : option spec_float;
  state : string;
  weekly_eligible : bool;
  suggested_action : string
}.
End Classification.

(** [max(0.0, (now_ts - int(last_attest_ts)) / 3600.0)]. *)
Definition miner_age_h (last_attest_ts now_ts : Z) : result spec_float :=
  d ← Float64.of_int (now_ts - last_attest_ts);
  Ok (Float64.max Float64.zero (Float64.div d Float64.f3600)).

(** [classify_miner_age]; [not last_attest_ts] holds for [None] and [0]. *)
Definition classify_miner_age (last_attest_ts : option Z) (now_ts : Z)
    (active_window_h weekly_window_h : spec_float) : result Classification.t :=
  match last_attest_ts with
  | Some ts =>
      if ts =? 0
      then Ok (Classification.mk None "unknown" false "request_status_or_upgrade")
      else
        age_h ← miner_age_h ts now_ts;
        if Float64.leb age_h active_window_h
        then Ok (Classification.mk (Some age_h) "active" true "pay_weekly")
        else if Float64.leb age_h weekly_window_h
        then Ok (Classification.mk (Some age_h) "stale_but_weekly_eligible" true
                   "pay_weekly_and_ping_health_check")
        else Ok (Classification.mk (Some age_h) "inactive" false
                   "restart_or_upgrade_miner")
  | None => Ok (Classification.mk None "unknown" false "request_status_or_upgrade")
  end.

(* ===================================================================== *)
(** * Miner aggregator *)
(* ===================================================================== *)

Module MinerRecord.
Record t : Type := mk {
  miner : string;
  last_attest : option Z;
  first_attest : JSON;
  device_family : JSON;
  device_arch : JSON;
  hardware_type : JSON;
  entropy_score : JSON;
  antiquity_multiplier : JSON;
  nodes_seen : list string
}.

Definition set_last_attest (v : option Z) (r : t) : t :=
  mk (miner r) v (first_attest r) (device_family r) (device_arch r)
     (hardware_type r) (entropy_score r) (antiquity_multiplier r) (nodes_seen r).

Definition append_node (n : string) (r : t) : t :=
  mk (miner r) (last_attest r) (first_attest r) (device_family r) (device_arch r)
     (hardware_type r) (entropy_score r) (antiquity_multiplier r)
     (nodes_seen r ++ [n]).
End MinerRecord.

(** [str(row.get("miner", "")).strip()]. *)
Definition row_miner_id (row : dict) : string :=
  PyStr.strip (Py.str (Py.dict_get "miner" row (JStr ""))).

(** [int(row.get("last_attest") or 0)]. *)
Definition row_last_attest (row : dict) : result Z :=
  Py.int (Py.or (Py.dict_get "last_attest" row JNull) (JInt 0)).

(** [existing.get("last_attest") or 0]. *)
Definition last_attest_or_0 (v : option Z) : Z :=
  match v with
  | Some z => z
  | None => 0
  end.

(** The body of the inner loop of [_aggregate_miners]. *)
Definition aggregate_row (node_url : string) (aggregate : gmap string MinerRecord.t)
    (row : dict) : result (gmap string MinerRecord.t) :=
  let miner_id := row_miner_id row in
  if negb (PyStr.truthy miner_id) then Ok aggregate
  else
    last_attest ← row_last_attest row;
    match aggregate !! miner_id with
    | None =>
        Ok (<[miner_id :=
               MinerRecord.mk miner_id
                 (if 0 <? last_attest then Some last_attest else None)
                 (Py.dict_get "first_attest" row JNull)
                 (Py.dict_get "device_family" row JNull)
                 (Py.dict_get "device_arch" row JNull)
                 (Py.dict_get "hardware_type" row JNull)
                 (Py.dict_get "entropy_score" row JNull)
                 (Py.dict_get "antiquity_multiplier" row JNull)
                 [node_url] ]> aggregate)
    | Some existing =>
        let existing :=
          if (negb (last_attest =? 0)
              && (last_attest_or_0 (MinerRecord.last_attest existing) <? last_attest))%bool
          then MinerRecord.set_last_attest (Some last_attest) existing
          else existing in
        let existing :=
          if bool_decide (node_url ∈ MinerRecord.nodes_seen existing)
          then existing
          else MinerRecord.append_node node_url existing in
        Ok (<[miner_id := existing]> aggregate)
    end.

Fixpoint aggregate_rows (node_url : string) (aggregate : gmap string MinerRecord.t)
    (rows : list dict) : result (gmap string MinerRecord.t) :=
  match rows with
  | [] => Ok aggregate
  | row :: rows' =>
      aggregate ← aggregate_row node_url aggregate row;
      aggregate_rows node_url aggregate rows'
  end.

Fixpoint aggregate_nodes (aggregate : gmap string MinerRecord.t)
    (node_miners : list (string * list dict)) : result (gmap string MinerRecord.t) :=
  match node_miners with
  | [] => Ok aggregate
  | (node_url, rows) :: rest =>
      aggregate ← aggregate_rows node_url aggregate rows;
      aggregate_nodes aggregate rest
  end.

(** [_aggregate_miners]; [node_miners] lists the entries of the dictionary
    in iteration order. *)
Definition _aggregate_miners (node_miners : list (string * list dict))
    : result (gmap string MinerRecord.t) :=
  aggregate_nodes ∅ node_miners.

(* ===================================================================== *)
(** * Report rows *)
(* ===================================================================== *)

Module NodeRow.
Record t : Type := mk {
  node_id : JSON;
  name : JSON;
  wallet : JSON;
  url : string;
  is_active : bool;
  online : bool;
  health_ok : bool;
  version : string;
  uptime_s : JSON;
  payout_eligible : bool;
  suggested_action : string;
  health_error : option string;
  miners_error : option string
}.
End NodeRow.

Module Mismatch.
Record t : Type := mk {
  node_url : string;
  node_id : JSON;
  node_version : string;
  network_version : JSON
}.
End Mismatch.

Module GapRow.
Record t : Type := mk {
  miner : string;
  state : string;
  weekly_eligible : bool;
  suggested_action : string
}.
End GapRow.

(* ===================================================================== *)
(** * Node registry reconciler *)
(* ===================================================================== *)

Section Reconciler.
Import PyStr.

Variable bracketed_host_ok : string -> bool.

  #[local] Abbreviation normalize_base_url := (normalize_base_url bracketed_host_ok).
  #[local] Abbreviation node_identity := (node_identity bracketed_host_ok).

(** The loop of [_dedupe_preserve], from a state [out], [seen]. *)
Fixpoint dedupe_loop (values : list string) (out : list string) (seen : gset string)
    : result (list string) :=
  match values with
  | [] => Ok out
  | v :: values' =>
      norm ← normalize_base_url v;
      if negb (truthy norm) then dedupe_loop values' out seen
      else
        key ← node_identity norm;
        if bool_decide (key ∈ seen) then dedupe_loop values' out seen
        else dedupe_loop values' (out ++ [norm]) ({[key]} ∪ seen)
  end.

(** [_dedupe_preserve]. *)
Definition _dedupe_preserve (values : list string) : result (list string) :=
  dedupe_loop values [] ∅.

(** The rows of the registry payload that are dictionaries. *)
Definition registry_rows_of (nodes_payload : JSON) : list dict :=
  match nodes_payload with
  | JDict d =>
      match Py.dict_get "nodes" d (JList []) with
      | JList raw_rows => Py.dicts_of raw_rows
      | _ => []
      end
  | JList l => Py.dicts_of l
  | _ => []
  end.

Fixpoint registry_map_loop (rows : list dict) (mapped : gmap string dict)
    : result (gmap string dict) :=
  match rows with
  | [] => Ok mapped
  | row :: rows' =>
      norm ← normalize_base_url (Py.str (Py.dict_get "url" row (JStr "")));
      key ← node_identity norm;
      registry_map_loop rows' (if truthy key then <[key := row]> mapped else mapped)
  end.

(** [_registry_rows_to_map]. *)
Definition _registry_rows_to_map (nodes_payload : JSON)
    : result (gmap string dict * list dict) :=
  let rows := registry_rows_of nodes_payload in
  mapped ← registry_map_loop rows ∅;
  Ok (mapped, rows).

(** [[str(r.get("url", "")).strip() for r in registry_rows if r.get("url")]]. *)
Fixpoint registry_urls (registry_rows : list dict) : list string :=
  match registry_rows with
  | [] => []
  | r :: rows' =>
      if Py.truthy (Py.dict_get "url" r JNull)
      then strip (Py.str (Py.dict_get "url" r (JStr ""))) :: registry_urls rows'
      else registry_urls rows'
  end.

(** [discovered_urls], as [build_report] assembles it. *)
Definition discovered_urls (seed : string) (registry_rows : list dict)
    (node_url : list string) : list string :=
  [seed] ++ registry_urls registry_rows ++ node_url.

(** The candidate list [node_urls] of [build_report]. *)
Definition reconcile (seed : string) (registry_rows : list dict)
    (node_url : list string) : result (list string) :=
  _dedupe_preserve (discovered_urls seed registry_rows node_url).

End Reconciler.

(* ===================================================================== *)
(** * Missing-expected-miner detector *)
(* ===================================================================== *)

(** Python orders strings by code point. *)
Definition str_le (a b : string) : Prop := String.leb a b = true.

Global Instance str_le_dec (a b : string) : Decision (str_le a b).
Proof. unfold str_le. apply _. Defined.

(** [sorted(expected - observed_miners)]. *)
Definition missing_expected (expected observed_miners : gset string) : list string :=
  merge_sort str_le (elements (expected ∖ observed_miners)).

(** The rows appended for [missing_expected]. *)
Definition missing_expected_rows (missing_expected : list string) : list GapRow.t :=
  map (fun miner_id =>
         GapRow.mk miner_id "not_visible_in_public_api" false
           "check_node_url_then_upgrade_miner")
      missing_expected.

(* ===================================================================== *)
(** * Report compiler: node scan *)
(* ===================================================================== *)

(** What one HTTP GET yields once the body went through [json.loads]: the
    decoded value, or the error code [_request_json] derives from the
    exception ([http_<status>], [url_error:<reason>], [timeout],
    [invalid_json], [error:<kind>]). *)
Inductive Response : Type :=
| RJson (v : JSON)
| RFail (code : string).

(** The values [build_report] holds when it reaches the miner rows. *)
Module Scan.
Record t : Type := mk {
  seed : string;
  network_version : JSON;
  registry_rows : list dict;
  node_urls : list string;
  node_rows : list NodeRow.t;
  node_miners : list (string * list dict);
  version_mismatch : list Mismatch.t;
  aggregate : gmap string MinerRecord.t
}.
End Scan.

Section Report.
Import PyStr.

Variable bracketed_host_ok : string -> bool.

  #[local] Abbreviation normalize_base_url := (normalize_base_url bracketed_host_ok).
  #[local] Abbreviation node_identity := (node_identity bracketed_host_ok).

(** The network: a GET of a URL answers and moves the world on. The
    request headers, the timeout and the TLS flag are those of the run. *)
Variable World : Type.
Variable http_get : string -> World -> Response * World.

(** [_request_json]: the request is built outside the [try], so that a
    URL [Request] refuses raises [ValueError]; what the GET raises is
    caught and returned as the error of a pair of payload and error. *)
Definition _request_json (url : string) (w : World)
    : result ((JSON * option string) * World) :=
  _ ← UrlLib.Request bracketed_host_ok url;
  Ok match http_get url w with
     | (RJson v, w') => ((v, None), w')
     | (RFail code, w') => ((JNull, Some code), w')
     end.

(** [fetch_json]. *)
Definition fetch_json (base_url path : string) (w : World)
    : result ((JSON * option string) * World) :=
  _request_json (rstrip_by (is_char "/") base_url ++ path) w.

(** [node_miners[node_url] = miners_list]. *)
Fixpoint dict_set {V : Type} (k : string) (v : V) (d : list (string * V))
    : list (string * V) :=
  match d with
  | [] => [(k, v)]
  | (k', v') :: d' =>
      if String.eqb k' k then (k, v) :: d' else (k', v') :: dict_set k v d'
  end.

(** [online = isinstance(health_payload, dict) and health_err is None]. *)
Definition node_online (health_payload : JSON) (health_err : option string) : bool :=
  (Py.is_dict health_payload
   && match health_err with None => true | Some _ => false end)%bool.

(** The row the scan loop appends for [node_url], with the version
    mismatch entry when there is one. *)
Definition node_row (seed : string) (network_version : JSON)
    (registry : dict) (key node_url : string)
    (health_payload : JSON) (health_err miners_err : option string)
    : NodeRow.t * option Mismatch.t :=
  let online := node_online health_payload health_err in
  let '(node_version, uptime_s) :=
    match health_payload with
    | JDict h => (Py.str (Py.dict_get "version" h (JStr "")),
                  Py.dict_get "uptime_s" h JNull)
    | _ => ("", JNull)
    end in
  let is_active :=
    Py.truthy (Py.dict_get "is_active" registry (JBool (String.eqb node_url seed))) in
  let '(payout_eligible, action) :=
    classify_node_host is_active online node_version network_version in
  (NodeRow.mk
     (Py.or (Py.dict_get "node_id" registry JNull) (JStr key))
     (Py.or (Py.dict_get "name" registry JNull) (JStr key))
     (Py.dict_get "wallet" registry JNull)
     node_url is_active online
     (match health_payload with
      | JDict h => Py.truthy (Py.dict_get "ok" h JNull)
      | _ => false
      end)
     node_version uptime_s payout_eligible action health_err miners_err,
   if String.eqb action "pay_weekly_and_upgrade_node"
   then Some (Mismatch.mk node_url (Py.dict_get "node_id" registry JNull)
                node_version network_version)
   else None).

(** The loop over [node_urls]. *)
Fixpoint scan_nodes (seed : string) (network_version : JSON)
    (registry_map : gmap string dict) (node_urls : list string)
    (node_rows : list NodeRow.t) (node_miners : list (string * list dict))
    (version_mismatch : list Mismatch.t) (w : World)
    : result (list NodeRow.t * list (string * list dict) * list Mismatch.t * World) :=
  match node_urls with
  | [] => Ok (node_rows, node_miners, version_mismatch, w)
  | node_url :: node_urls' =>
      key ← node_identity node_url;
      let registry := default [] (registry_map !! key) in
      '((health_payload, health_err), w) ← fetch_json node_url "/health" w;
      '((miners_payload, miners_err), w) ← fetch_json node_url "/api/miners" w;
      let '(row, mismatch) :=
        node_row seed network_version registry key node_url
          health_payload health_err miners_err in
      let miners_list :=
        match miners_payload with
        | JList l => Py.dicts_of l
        | _ => []
        end in
      scan_nodes seed network_version registry_map node_urls'
        (node_rows ++ [row]) (dict_set node_url miners_list node_miners)
        (version_mismatch ++ match mismatch with Some m => [m] | None => [] end) w
  end.

(** [{node_identity(n["url"]) for n in node_rows if n.get("url")}]. *)
Fixpoint scanned_keys_of (node_rows : list NodeRow.t) : result (gset string) :=
  match node_rows with
  | [] => Ok ∅
  | n :: node_rows' =>
      if truthy (NodeRow.url n) then
        key ← node_identity (NodeRow.url n);
        keys ← scanned_keys_of node_rows';
        Ok ({[key]} ∪ keys)
      else scanned_keys_of node_rows'
  end.

(** The row of a registered node without a public URL. *)
Definition missing_url_row (row : dict) : NodeRow.t :=
  NodeRow.mk
    (Py.or (Py.dict_get "node_id" row JNull) (JStr "unknown_node"))
    (Py.or (Py.dict_get "name" row JNull) (JStr "unknown_node"))
    (Py.dict_get "wallet" row JNull)
    "-"
    (Py.truthy (Py.dict_get "is_active" row (JBool false)))
    false false "-" JNull false "missing_url_or_redacted"
    (Some "missing_url") (Some "missing_url").

(** The loop over [registry_rows] that follows the scan. *)
Fixpoint missing_url_rows (registry_rows : list dict) (scanned_keys : gset string)
    (node_rows : list NodeRow.t) : result (list NodeRow.t) :=
  match registry_rows with
  | [] => Ok node_rows
  | row :: registry_rows' =>
      raw_url ← normalize_base_url (Py.str (Py.dict_get "url" row (JStr "")));
      key ← (if truthy raw_url then node_identity raw_url else Ok "");
      if (truthy raw_url && bool_decide (key ∈ scanned_keys))%bool
      then missing_url_rows registry_rows' scanned_keys node_rows
      else if negb (truthy raw_url)
      then missing_url_rows registry_rows' scanned_keys
             (node_rows ++ [missing_url_row row])
      else missing_url_rows registry_rows' scanned_keys node_rows
  end.

(** [build_report] up to the miner aggregate: the seed queries, the
    reconciliation, the node scan and the rows for nodes without URL.
    [seed_node] and [node_url] are the command-line arguments. *)
Definition build_report (seed_node : string) (node_url : list string) (w : World)
    : result (Scan.t * World) :=
  seed ← normalize_base_url seed_node;
  '((seed_health, seed_health_err), w) ← fetch_json seed "/health" w;
  let network_version :=
    match seed_health with
    | JDict h => Py.dict_get "version" h (JStr "")
    | _ => JStr ""
    end in
  '((epoch_payload, epoch_err), w) ← fetch_json seed "/epoch" w;
  '((nodes_payload, nodes_err), w) ← fetch_json seed "/api/nodes" w;
  '(registry_map, registry_rows) ← _registry_rows_to_map bracketed_host_ok nodes_payload;
  node_urls ← reconcile bracketed_host_ok seed registry_rows node_url;
  '(node_rows, node_miners, version_mismatch, w) ←
    scan_nodes seed network_version registry_map node_urls [] [] [] w;
  scanned_keys ← scanned_keys_of node_rows;
  node_rows ← missing_url_rows registry_rows scanned_keys node_rows;
  aggregate ← _aggregate_miners node_miners;
  Ok (Scan.mk seed network_version registry_rows node_urls node_rows
        node_miners version_mismatch aggregate, w).

End Report.

(* ===================================================================== *)
(** * Specification vocabulary for the aggregator *)
(* ===================================================================== *)

(** The sightings of a run in the order [_aggregate_miners] folds them,
    each with the node that reported it. *)
Definition sightings (node_miners : list (string * list dict)) : list (string * dict) :=
  flat_map (fun '(node_url, rows) => map (pair node_url) rows) node_miners.

(** The fold of [_aggregate_miners] over a list of sightings. *)
Fixpoint aggregate_sightings (aggregate : gmap string MinerRecord.t)
    (l : list (string * dict)) : result (gmap string MinerRecord.t) :=
  match l with
  | [] => Ok aggregate
  | (node_url, row) :: l' =>
      aggregate ← aggregate_row node_url aggregate row;
      aggregate_sightings aggregate l'
  end.

(** The timestamp a sighting contributes to miner [m]: its [last_attest]
    when the sighting is of [m] and the timestamp is positive. *)
Definition positive_timestamp (m : string) (s : string * dict) : option Z :=
  if String.eqb (row_miner_id (snd s)) m then
    match row_last_attest (snd s) with
    | Ok z => if 0 <? z then Some z else None
    | Raise _ => None
    end
  else None.

Definition positive_timestamps (m : string) (l : list (string * dict)) : list Z :=
  omap (positive_timestamp m) l.

(** [o] is the maximum of [ts], absent when [ts] is empty. *)
Definition is_latest (o : option Z) (ts : list Z) : Prop :=
  match o with
  | None => ts = []
  | Some z => z ∈ ts /\ Forall (fun t => t <= z) ts
  end.

(** Node [n] reported miner [m] in [l]. *)
Definition reported_by (m : string) (l : list (string * dict)) (n : string) : Prop :=
  exists row, (n, row) ∈ l /\ row_miner_id row = m.

(** The order on [last_attest] values: absent is below every timestamp. *)
Definition opt_le (a b : option Z) : Prop :=
  match a, b with
  | None, _ => True
  | Some x, Some y => x <= y
  | Some _, None => False
  end.

(** A sighting the aggregator can fold: its miner id is blank, or its
    [last_attest] converts to an integer. *)
Definition foldable (s : string * dict) : Prop :=
  row_miner_id (snd s) = "" \/ exists z, row_last_attest (snd s) = Ok z.

(** What the aggregate holds for every miner after the sightings [l]. *)
Definition aggregate_of (l : list (string * dict))
    (aggregate : gmap string MinerRecord.t) : Prop :=
  forall m,
    match aggregate !! m with
    | None => m = "" \/ forall n, ~ reported_by m l n
    | Some r =>
        MinerRecord.miner r = m /\ m <> ""
        /\ NoDup (MinerRecord.nodes_seen r)
        /\ (forall n, n ∈ MinerRecord.nodes_seen r <-> reported_by m l n)
        /\ is_latest (MinerRecord.last_attest r) (positive_timestamps m l)
    end.

(* ===================================================================== *)
(** * The reconciliation as the specification words it *)
(* ===================================================================== *)

Section ReconcileSpec.

Variable bracketed_host_ok : string -> bool.

(** "normalizes each" *)
Fixpoint normalize_each (urls : list string) : result (list string) :=
  match urls with
  | [] => Ok []
  | u :: urls' =>
      n ← normalize_base_url bracketed_host_ok u;
      ns ← normalize_each urls';
      Ok (n :: ns)
  end.

(** "drops empties" *)
Definition drop_empties (urls : list string) : list string :=
  filter (fun u => u <> "") urls.

(** Each URL with its [NodeIdentity]. *)
Fixpoint with_identity (urls : list string) : result (list (string * string)) :=
  match urls with
  | [] => Ok []
  | u :: urls' =>
      k ← node_identity bracketed_host_ok u;
      keyed ← with_identity urls';
      Ok ((k, u) :: keyed)
  end.

(** "deduplicates by identity keeping the first occurrence": an entry stays
    when no entry before it, and no identity of [earlier], has its identity. *)
Fixpoint keep_first (earlier : list string) (keyed : list (string * string))
    : list (string * string) :=
  match keyed with
  | [] => []
  | (k, u) :: keyed' =>
      if bool_decide (k ∈ earlier) then keep_first earlier keyed'
      else (k, u) :: keep_first (k :: earlier) keyed'
  end.




End ReconcileSpec.

(* ===================================================================== *)
(** * Well-formed node URLs *)
(* ===================================================================== *)

(** A character of a plain authority: no path, query or fragment
    delimiter, no square bracket, no white space or control character. *)
Definition is_plain (c : ascii) : bool :=
  negb (UrlLib.is_delim c || PyStr.is_char "[" c || PyStr.is_char "]" c
        || PyStr.is_space c || UrlLib.is_c0_or_space c).



(** A non-empty authority ([host], [host:port], [user@host], ...) of plain
    characters. *)
Definition plain_authority (a : string) : Prop :=
  a <> "" /\ PyStr.all_chars is_plain a = true.


(** A scheme as [urlsplit] accepts one: an ASCII letter, then letters,
    digits, [+], [-] and [.]. *)
Definition valid_scheme (s : string) : Prop :=
  match s with
  | EmptyString => False
  | String c0 _ =>
      PyStr.is_ascii_alpha c0 = true /\ PyStr.all_chars UrlLib.is_scheme_char s = true
  end.

(** What follows the authority: nothing, or a path, query or fragment. *)
Definition after_authority (rest : string) : Prop :=
  match rest with
  | EmptyString => True
  | String c _ => UrlLib.is_delim c = true
  end.




(* ===================================================================== *)
(** * Specification vocabulary for the node rows *)
(* ===================================================================== *)

(** The registry row has no public URL: the text of its [url] normalizes
    to the empty string. *)
Definition blank_url (bracketed_host_ok : string -> bool) (row : dict) : bool :=
  match normalize_base_url bracketed_host_ok (Py.str (Py.dict_get "url" row (JStr ""))) with
  | Ok u => negb (PyStr.truthy u)
  | Raise _ => false
  end.

(** The registry row gives its URL as text, or gives none: [url] is a
    string or is absent. *)
Definition textual_url (row : dict) : Prop :=
  exists s, Py.dict_get "url" row (JStr "") = JStr s.

(** [k in d]. *)
Fixpoint dict_get_present (k : string) (d : dict) : bool :=
  match d with
  | [] => false
  | (k', _) :: d' => (String.eqb k' k || dict_get_present k d')%bool
  end.

(* ===================================================================== *)
(** * Specification vocabulary for the scan *)
(* ===================================================================== *)

(** What the scan loop holds for one candidate when it builds the row:
    the URL, its identity and the two answers. *)
Module Observation.
Record t : Type := mk {
  url : string;
  key : string;
  health_payload : JSON;
  health_err : option string;
  miners_payload : JSON;
  miners_err : option string
}.
End Observation.

(** A fetch answers a payload without error, or an error with the payload
    [None]. *)
Definition fetched (payload : JSON) (err : option string) : Prop :=
  err = None \/ payload = JNull.

(** The row, and the mismatch entry if any, the loop appends for an
    observation. *)
Definition observed_row (seed : string) (network_version : JSON)
    (registry_map : gmap string dict) (o : Observation.t)
    : NodeRow.t * option Mismatch.t :=
  node_row seed network_version
    (default [] (registry_map !! Observation.key o))
    (Observation.key o) (Observation.url o)
    (Observation.health_payload o) (Observation.health_err o)
    (Observation.miners_err o).

(** The miner list the loop stores for an observation. *)
Definition observed_miners_list (o : Observation.t) : list dict :=
  match Observation.miners_payload o with
  | JList l => Py.dicts_of l
  | _ => []
  end.

Section Observations.

Variable bracketed_host_ok : string -> bool.
Variable World : Type.
Variable http_get : string -> World -> Response * World.

(** The three queries of the seed, from the world [w] on. *)
Definition seed_queries (seed : string) (w : World) : result World :=
  '(_, w) ← fetch_json bracketed_host_ok World http_get seed "/health" w;
  '(_, w) ← fetch_json bracketed_host_ok World http_get seed "/epoch" w;
  '(_, w) ← fetch_json bracketed_host_ok World http_get seed "/api/nodes" w;
  Ok w.

(** What one turn of the scan loop observes of the candidate [node_url]
    in the world [w]: its identity and the answers of its two fetches. *)
Definition observe (node_url : string) (w : World) : result (Observation.t * World) :=
  key ← node_identity bracketed_host_ok node_url;
  '((health_payload, health_err), w) ←
    fetch_json bracketed_host_ok World http_get node_url "/health" w;
  '((miners_payload, miners_err), w) ←
    fetch_json bracketed_host_ok World http_get node_url "/api/miners" w;
  Ok (Observation.mk node_url key health_payload health_err miners_payload miners_err, w).

(** The observations of the scan loop over [node_urls], each candidate
    queried in the world the queries before it left. *)
Fixpoint observations (node_urls : list string) (w : World)
    : result (list Observation.t * World) :=
  match node_urls with
  | [] => Ok ([], w)
  | node_url :: node_urls' =>
      '(o, w) ← observe node_url w;
      '(os, w) ← observations node_urls' w;
      Ok (o :: os, w)
  end.

End Observations.

(** The identity [_registry_rows_to_map] files a registry row under. *)
Definition row_identity (bracketed_host_ok : string -> bool) (row : dict)
    : result string :=
  norm ← normalize_base_url bracketed_host_ok (Py.str (Py.dict_get "url" row (JStr "")));
  node_identity bracketed_host_ok norm.

(** The registry row is filed under [key]. *)
Definition has_identity (bracketed_host_ok : string -> bool) (key : string)
    (row : dict) : bool :=
  match row_identity bracketed_host_ok row with
  | Ok k => String.eqb k key
  | Raise _ => false
  end.

(** A network that also keeps the list of the URLs requested. *)
Definition logged {World : Type} (http_get : string -> World -> Response * World)
    (url : string) (w : World * list string) : Response * (World * list string) :=
  let '(r, w') := http_get url (fst w) in
  (r, (w', (snd w ++ [url])%list)).

(** The requests of a run with seed [seed] and candidates [node_urls]. *)
Definition scan_requests (seed : string) (node_urls : list string) : list string :=
  app [seed ++ "/health"; seed ++ "/epoch"; seed ++ "/api/nodes"]
      (flat_map (fun u => [u ++ "/health"; u ++ "/api/miners"]) node_urls).

(** The actions a node row can carry. *)
Definition node_actions : list string :=
  ["inactive_no_payout"; "investigate_offline"; "pay_weekly_and_upgrade_node";
   "pay_weekly"; "missing_url_or_redacted"].
(** A network for the examples: a seed whose registry lists the seed
    itself, a second node and a node without URL; every other request times
    out. *)
Definition example_registry : JSON :=
  JDict [("nodes",
          JList [JDict [("node_id", JStr "n1"); ("url", JStr "https://50.28.86.131");
                        ("is_active", JBool true); ("wallet", JStr "RTC1")];
                 JDict [("node_id", JStr "n2"); ("url", JStr "50.28.86.153:8099/");
                        ("is_active", JBool true)];
                 JDict [("node_id", JStr "n3"); ("is_active", JBool true)]])].

Definition example_network (url : string) (w : unit) : Response * unit :=
  (if String.eqb url "https://50.28.86.131/health"
   then RJson (JDict [("ok", JBool true); ("version", JStr "2.2.1-rip200");
                      ("uptime_s", JInt 100)])
   else if String.eqb url "https://50.28.86.131/api/nodes"
   then RJson example_registry
   else if String.eqb url "https://50.28.86.131/api/miners"
   then RJson (JList [JDict [("miner", JStr "m1"); ("last_attest", JInt 1699999100)];
                      JDict [("miner", JStr "m2")]])
   else if String.eqb url "https://50.28.86.153:8099/health"
   then RJson (JDict [("ok", JBool true); ("version", JStr "2.1.0-rip200")])
   else if String.eqb url "https://50.28.86.153:8099/api/miners"
   then RJson (JList [JDict [("miner", JStr "m1"); ("last_attest", JStr "1699990000")]])
   else RFail "timeout",
   w).
(* ===================================================================== *)
(** * The aggregate in closed form *)
(* ===================================================================== *)

(** The sightings of miner [m], in fold order. *)
Definition sightings_of (m : string) (l : list (string * dict)) : list (string * dict) :=
  List.filter (fun s => String.eqb (row_miner_id (snd s)) m) l.

(** The largest of a list of timestamps, absent for the empty list. *)
Definition latest (ts : list Z) : option Z :=
  foldl (fun o z => match o with Some y => Some (Z.max y z) | None => Some z end) None ts.

(** The members of a list, each once, in the order of first occurrence. *)
Definition first_occurrences (ns : list string) : list string :=
  foldl (fun acc n => if bool_decide (n ∈ acc) then acc else acc ++ [n])%list [] ns.

(** The record of miner [m] after the sightings [l]: none for the empty id
    and for a miner not sighted; else the descriptive fields of the first
    sighting, the largest positive timestamp, and the reporting nodes in
    the order in which they first reported. *)
Definition record_of (m : string) (l : list (string * dict)) : option MinerRecord.t :=
  if negb (PyStr.truthy m) then None
  else
    match sightings_of m l with
    | [] => None
    | (_, row) :: _ =>
        Some (MinerRecord.mk m
                (latest (positive_timestamps m l))
                (Py.dict_get "first_attest" row JNull)
                (Py.dict_get "device_family" row JNull)
                (Py.dict_get "device_arch" row JNull)
                (Py.dict_get "hardware_type" row JNull)
                (Py.dict_get "entropy_score" row JNull)
                (Py.dict_get "antiquity_multiplier" row JNull)
                (first_occurrences (map fst (sightings_of m l))))
    end.

(* ===================================================================== *)
(** * Exceptions of the clock and the file system *)
(* ===================================================================== *)

(** What the rest of the script can raise beside the built-in exceptions
    of [exn]: [datetime.fromtimestamp] rejects a timestamp whose year is
    outside 1 .. 9999 ([ValueError]; for timestamps the platform's [time_t]
    or [gmtime] cannot hold, [OverflowError] or [OSError]);
    [load_expected_miners] raises [FileNotFoundError]; reading the file can
    fail in the operating system or in the decoder. *)
Inductive failure : Type :=
| Builtin (e : exn)
| TimestampOutOfRange
| FileNotFoundError
| ReadFailure.

Inductive outcome (A : Type) : Type :=
| Done (a : A)
| Failed (f : failure).

Arguments Done {A} a.
Arguments Failed {A} f.

Global Instance outcome_ret : MRet outcome := fun A a => Done a.
Global Instance outcome_bind : MBind outcome := fun A B k m =>
  match m with
  | Done a => k a
  | Failed f => Failed f
  end.

(** A computation that raises built-in exceptions only. *)
Definition lift {A : Type} (r : result A) : outcome A :=
  match r with
  | Ok a => Done a
  | Raise e => Failed (Builtin e)
  end.

(* ===================================================================== *)
(** * UTC date and time of a timestamp *)
(* ===================================================================== *)

(** The proleptic Gregorian calendar of [datetime], after the reference
    implementation [Lib/datetime.py]; [divmod] by a positive number is
    [Z.div] and [Z.modulo]. *)
Module DateTime.

Definition _DAYS_IN_MONTH : list Z :=
  [-1; 31; 28; 31; 30; 31; 30; 31; 31; 30; 31; 30; 31].

Definition _DAYS_BEFORE_MONTH : list Z :=
  [-1; 0; 31; 59; 90; 120; 151; 181; 212; 243; 273; 304; 334].

Definition index (l : list Z) (i : Z) : Z := nth (Z.to_nat i) l 0.

Definition _is_leap (year : Z) : bool :=
  ((year mod 4 =? 0) && (negb (year mod 100 =? 0) || (year mod 400 =? 0)))%bool.

Definition _days_before_year (year : Z) : Z :=
  let y := year - 1 in
  y * 365 + y / 4 - y / 100 + y / 400.

Definition _days_in_month (year month : Z) : Z :=
  if ((month =? 2) && _is_leap year)%bool then 29 else index _DAYS_IN_MONTH month.

Definition _days_before_month (year month : Z) : Z :=
  index _DAYS_BEFORE_MONTH month
  + (if ((2 <? month) && _is_leap year)%bool then 1 else 0).

Definition _ymd2ord (year month day : Z) : Z :=
  _days_before_year year + _days_before_month year month + day.

Definition _DI400Y : Z := Eval vm_compute in _days_before_year 401.
Definition _DI100Y : Z := Eval vm_compute in _days_before_year 101.
Definition _DI4Y : Z := Eval vm_compute in _days_before_year 5.

(** [_ord2ymd]: the date of a day number, 1 January of year 1 being day 1. *)
Definition _ord2ymd (n : Z) : Z * Z * Z :=
  let n := n - 1 in
  let n400 := n / _DI400Y in
  let n := n mod _DI400Y in
  let year := n400 * 400 + 1 in
  let n100 := n / _DI100Y in
  let n := n mod _DI100Y in
  let n4 := n / _DI4Y in
  let n := n mod _DI4Y in
  let n1 := n / 365 in
  let n := n mod 365 in
  let year := year + n100 * 100 + n4 * 4 + n1 in
  if ((n1 =? 4) || (n100 =? 4))%bool then (year - 1, 12, 31)
  else
    let leapyear := ((n1 =? 3) && (negb (n4 =? 24) || (n100 =? 3)))%bool in
    let month := Z.shiftr (n + 50) 5 in
    let preceding :=
      index _DAYS_BEFORE_MONTH month
      + (if ((2 <? month) && leapyear)%bool then 1 else 0) in
    let '(month, preceding) :=
      if n <? preceding
      then (month - 1,
            preceding - (index _DAYS_IN_MONTH (month - 1)
                         + (if ((month - 1 =? 2) && leapyear)%bool then 1 else 0)))
      else (month, preceding) in
    (year, month, n - preceding + 1).

(** The fields of a [datetime]. *)
Record t : Type := mk {
  year : Z;
  month : Z;
  day : Z;
  hour : Z;
  minute : Z;
  second : Z
}.

(** The day number of 1 January 1970. *)
Definition epoch_ordinal : Z := Eval vm_compute in _ymd2ord 1970 1 1.

(** [datetime.fromtimestamp(ts, tz=timezone.utc)] for an [int]: the UTC
    date and time [ts] seconds after the epoch, days of 86400 seconds;
    none when the year is not in 1 .. 9999. *)
Definition fromtimestamp_utc (ts : Z) : option t :=
  let days := ts / 86400 in
  let secs := ts mod 86400 in
  let '(y, m, d) := _ord2ymd (epoch_ordinal + days) in
  if ((1 <=? y) && (y <=? 9999))%bool
  then Some (mk y m d (secs / 3600) (secs mod 3600 / 60) (secs mod 60))
  else None.

(** Two decimal digits, as [%m], [%d], [%H], [%M] and [%S] print them. *)
Definition two_digits (z : Z) : string :=
  if z <? 10 then "0" ++ PyStr.of_Z z else PyStr.of_Z z.

(** [strftime("%Y-%m-%d %H:%M:%S UTC")]; [%Y] prints the year in decimal,
    four digits from the year 1000 on. *)
Definition strftime_utc (dt : t) : string :=
  PyStr.of_Z (year dt) ++ "-" ++ two_digits (month dt) ++ "-" ++ two_digits (day dt)
  ++ " " ++ two_digits (hour dt) ++ ":" ++ two_digits (minute dt) ++ ":"
  ++ two_digits (second dt) ++ " UTC".

End DateTime.

(** [ts_to_utc]; [not ts] holds for [None] and [0]. *)
Definition ts_to_utc (ts : option Z) : outcome string :=
  match ts with
  | None => Done "-"
  | Some ts =>
      if ts =? 0 then Done "-"
      else
        match DateTime.fromtimestamp_utc ts with
        | Some dt => Done (DateTime.strftime_utc dt)
        | None => Failed TimestampOutOfRange
        end
  end.

(** The first and the last timestamp [datetime] accepts:
    0001-01-01 00:00:00 and 9999-12-31 23:59:59. *)
Definition min_timestamp : Z := -62135596800.
Definition max_timestamp : Z := 253402300799.

(** The timestamp of a date and time of day, inverse of
    [DateTime.fromtimestamp_utc]. *)
Definition timestamp_of (dt : DateTime.t) : Z :=
  (DateTime._ymd2ord (DateTime.year dt) (DateTime.month dt) (DateTime.day dt)
   - DateTime.epoch_ordinal) * 86400
  + DateTime.hour dt * 3600 + DateTime.minute dt * 60 + DateTime.second dt.

(** Reading back the text of [ts_to_utc]: the digits at the fixed
    positions of [YYYY-MM-DD HH:MM:SS UTC]. *)
Definition field (s : string) (start len : nat) : Z :=
  PyStr.digits_val 0 (String.substring start len s).

Definition parse_utc (s : string) : DateTime.t :=
  DateTime.mk (field s 0 4) (field s 5 2) (field s 8 2)
    (field s 11 2) (field s 14 2) (field s 17 2).
(* ===================================================================== *)
(** * Expected miners file *)
(* ===================================================================== *)

(** More of [str], on characters below U+0100. *)
Module PyText.
Import PyStr.

(** A line boundary of [str.splitlines]: LF, VT, FF, CR, FS, GS, RS and
    NEL; CR followed by LF is one boundary. *)
Definition is_line_break (c : ascii) : bool :=
  (between 10 13 c || between 28 30 c || Nat.eqb (code c) 133)%bool.

Definition is_cr (c : ascii) : bool := Nat.eqb (code c) 13.
Definition is_lf (c : ascii) : bool := Nat.eqb (code c) 10.

(** [s.splitlines()]; [after_cr] tells that the character before [s] was
    a CR that ended a line. *)
Fixpoint splitlines_from (after_cr : bool) (s : string) : list string :=
  match s with
  | EmptyString => []
  | String c s' =>
      if (after_cr && is_lf c)%bool then splitlines_from false s'
      else if is_line_break c then EmptyString :: splitlines_from (is_cr c) s'
      else
        match splitlines_from false s' with
        | [] => [String c EmptyString]
        | line :: lines => String c line :: lines
        end
  end.

Definition splitlines (s : string) : list string := splitlines_from false s.

(** [s.split()]: the maximal stretches without white space. *)
Fixpoint split (s : string) : list string :=
  match s with
  | EmptyString => []
  | String c s' =>
      if is_space c then split s'
      else
        match s' with
        | EmptyString => [String c EmptyString]
        | String c' _ =>
            if is_space c' then String c EmptyString :: split s'
            else
              match split s' with
              | word :: words => String c word :: words
              | [] => [String c EmptyString]
              end
        end
  end.

(** [s.replace(a, b)] for one-character [a] and [b]. *)
Fixpoint replace_char (a b : ascii) (s : string) : string :=
  match s with
  | EmptyString => EmptyString
  | String c s' => String (if is_char a c then b else c) (replace_char a b s')
  end.

(** [s.split(c, 1)[0]]: the text before the first [c], all of [s] when
    there is none. *)
Definition before_first (c : ascii) (s : string) : string :=
  fst (break (is_char c) s).

End PyText.

(** The identifiers one line of the file contributes: the body of the loop
    of [load_expected_miners] over the lines. *)
Definition line_miners (line : string) : list string :=
  let text := PyStr.strip line in
  if (negb (PyStr.truthy text) || String.prefix "#" text)%bool then []
  else
    let text :=
      if PyStr.mem_char "#" text
      then PyStr.strip (PyText.before_first "#" text)
      else text in
    List.filter PyStr.truthy
      (map PyStr.strip (PyText.split (PyText.replace_char "," " " text))).

(** The identifiers of a text, line after line. *)
Definition text_miners (text : string) : gset string :=
  list_to_set (flat_map line_miners (PyText.splitlines text)).

Section ExpectedMiners.

(** The file system: [Path(path).exists()], and
    [Path(path).read_text(encoding="utf-8")], which gives the text or
    fails. *)
Variable path_exists : string -> bool.
Variable read_text : string -> outcome string.

(** [load_expected_miners]. *)
Definition load_expected_miners (path : string) : outcome (gset string) :=
  if negb (PyStr.truthy path) then Done ∅
  else if negb (path_exists path) then Failed FileNotFoundError
  else
    text ← read_text path;
    Done (text_miners text).

(** [expected] as [build_report] computes it from the two arguments. *)
Definition expected_miners (expected_miner : list string)
    (expected_miners_file : string) : outcome (gset string) :=
  let expected : gset string := list_to_set expected_miner in
  if PyStr.truthy expected_miners_file then
    loaded ← load_expected_miners expected_miners_file;
    Done (expected ∪ loaded)
  else Done expected.

End ExpectedMiners.

(** An identifier as the file gives them: not empty, and free of white
    space, commas and number signs. *)
Definition is_id_char (c : ascii) : bool :=
  negb (PyStr.is_space c || PyStr.is_char "," c || PyStr.is_char "#" c).

Definition clean_id (id : string) : Prop :=
  id <> "" /\ PyStr.all_chars is_id_char id = true.

(** The line feed. *)
Definition LF : string := String (ascii_of_nat 10) EmptyString.

(** [sep.join(ids)]. *)
Fixpoint join (sep : string) (ids : list string) : string :=
  match ids with
  | [] => ""
  | [id] => id
  | id :: ids' => id ++ sep ++ join sep ids'
  end.
(* ===================================================================== *)
(** * Miner rows and report *)
(* ===================================================================== *)

(** [list.sort] and [sorted]: a stable sort that compares with [<] only.
    The list is built from the right, each element going before the first
    element that is not below it; where [<] is a strict weak order, as it
    is on strings and on keys without NaN, every stable sort gives this
    list. *)
Section Sort.

Context {A : Type} (lt : A -> A -> bool).

Fixpoint insert_sorted (x : A) (l : list A) : list A :=
  match l with
  | [] => [x]
  | y :: l' => if lt y x then y :: insert_sorted x l' else x :: l
  end.

Definition sort_by (l : list A) : list A := foldr insert_sorted [] l.

End Sort.

Module MinerRow.
Record t : Type := mk {
  miner : string;
  last_attest : option Z;
  last_attest_utc : string;
  age_h : option spec_float;
  state : string;
  weekly_eligible : bool;
  suggested_action : string;
  device_family : JSON;
  device_arch : JSON;
  antiquity_multiplier : JSON;
  nodes_seen : list string;
  node_count : Z
}.
End MinerRow.

(** The row [build_report] appends for the entry [miner_id], [data] of the
    aggregate: the classification first, then the fields in order. *)
Definition miner_row (now_ts : Z) (active_window_hours weekly_window_hours : spec_float)
    (miner_id : string) (data : MinerRecord.t) : outcome MinerRow.t :=
  classification ←
    lift (classify_miner_age (MinerRecord.last_attest data) now_ts
            active_window_hours weekly_window_hours);
  last_attest_utc ← ts_to_utc (MinerRecord.last_attest data);
  Done (MinerRow.mk miner_id
          (MinerRecord.last_attest data)
          last_attest_utc
          (Classification.age_h classification)
          (Classification.state classification)
          (Classification.weekly_eligible classification)
          (Classification.suggested_action classification)
          (MinerRecord.device_family data)
          (MinerRecord.device_arch data)
          (MinerRecord.antiquity_multiplier data)
          (sort_by String.ltb (MinerRecord.nodes_seen data))
          (Z.of_nat (length (MinerRecord.nodes_seen data)))).

(** The loop over [aggregate.items()]. *)
Fixpoint miner_rows_of (now_ts : Z) (active_window_hours weekly_window_hours : spec_float)
    (items : list (string * MinerRecord.t)) : outcome (list MinerRow.t) :=
  match items with
  | [] => Done []
  | (miner_id, data) :: items' =>
      row ← miner_row now_ts active_window_hours weekly_window_hours miner_id data;
      rows ← miner_rows_of now_ts active_window_hours weekly_window_hours items';
      Done (row :: rows)
  end.

(** The literal [999999] of the sort key; it is only ever compared with
    itself. *)
Definition f999999 : spec_float := Eval vm_compute in Float64.nearest 999999.

(** The sort key
    [(m["age_h"] is None, m["age_h"] if m["age_h"] is not None else 999999,
      m["miner"])]. *)
Definition sort_key (m : MinerRow.t) : bool * spec_float * string :=
  (match MinerRow.age_h m with None => true | Some _ => false end,
   match MinerRow.age_h m with Some a => a | None => f999999 end,
   MinerRow.miner m).

(** [a < b] for two keys: the first components that differ decide. *)
Definition key_lt (a b : bool * spec_float * string) : bool :=
  let '(none1, age1, miner1) := a in
  let '(none2, age2, miner2) := b in
  if negb (Bool.eqb none1 none2) then (negb none1 && none2)%bool
  else if negb (SFeqb age1 age2) then SFltb age1 age2
  else String.ltb miner1 miner2.

Definition row_lt (a b : MinerRow.t) : bool := key_lt (sort_key a) (sort_key b).

(** The keys of the aggregate in iteration order: a dictionary iterates in
    insertion order, and a miner is inserted at its first sighting. *)
Definition miner_ids_in_order (node_miners : list (string * list dict)) : list string :=
  first_occurrences
    (List.filter PyStr.truthy
       (map (fun s => row_miner_id (snd s)) (sightings node_miners))).

(** [aggregate.items()]. *)
Definition aggregate_items (node_miners : list (string * list dict))
    (aggregate : gmap string MinerRecord.t) : list (string * MinerRecord.t) :=
  omap (fun m => pair m <$> aggregate !! m) (miner_ids_in_order node_miners).

(** [sum(1 for x in l if p(x))]. *)
Definition count {A : Type} (p : A -> bool) (l : list A) : Z :=
  Z.of_nat (length (List.filter p l)).

Module Summary.
Record t : Type := mk {
  nodes_scanned : Z;
  active_nodes_online : Z;
  active_nodes_offline : Z;
  node_hosts_weekly_payout_eligible : Z;
  miners_observed : Z;
  miners_weekly_payout_eligible : Z;
  expected_miners_missing : Z;
  version_mismatch_nodes : Z
}.
End Summary.

Module Report.
Record t : Type := mk {
  generated_at : string;
  seed_node : string;
  seed_health_error : option string;
  seed_epoch_error : option string;
  seed_nodes_error : option string;
  network_version : JSON;
  network_epoch : JSON;
  network_health : JSON;
  summary : Summary.t;
  nodes : list NodeRow.t;
  miners : list MinerRow.t;
  expected_miners_missing_rows : list GapRow.t;
  version_mismatch_nodes : list Mismatch.t
}.
End Report.

(** [x if isinstance(x, dict) else None]. *)
Definition dict_or_none (v : JSON) : JSON :=
  match v with
  | JDict _ => v
  | _ => JNull
  end.

Section Compile.

Variable path_exists : string -> bool.
Variable read_text : string -> outcome string.

(** [build_report] from the miner rows on, for the state [scan] its first
    part leaves: the miner rows and their sort, the expected miners, the
    counters and the report. [now_ts] and [generated_at] are the two
    readings of the clock, the windows and the expected miners are the
    command-line arguments, and the answers of the three queries of the
    seed are passed on as the report shows them. *)
Definition compile_report (now_ts : Z) (generated_at : string)
    (active_window_hours weekly_window_hours : spec_float)
    (expected_miner : list string) (expected_miners_file : string)
    (seed_health : JSON) (seed_health_err : option string)
    (epoch_payload : JSON) (epoch_err nodes_err : option string)
    (scan : Scan.t) : outcome Report.t :=
  miner_rows ←
    miner_rows_of now_ts active_window_hours weekly_window_hours
      (aggregate_items (Scan.node_miners scan) (Scan.aggregate scan));
  let miner_rows := sort_by row_lt miner_rows in
  expected ← expected_miners path_exists read_text expected_miner expected_miners_file;
  let observed_miners : gset string := list_to_set (map MinerRow.miner miner_rows) in
  let missing_expected := missing_expected expected observed_miners in
  let missing_expected_rows := missing_expected_rows missing_expected in
  let node_rows := Scan.node_rows scan in
  let node_payout_count := count NodeRow.payout_eligible node_rows in
  let miner_payout_count := count MinerRow.weekly_eligible miner_rows in
  let offline_node_count :=
    count (fun n => (NodeRow.is_active n && negb (NodeRow.online n))%bool) node_rows in
  Done (Report.mk generated_at (Scan.seed scan)
          seed_health_err epoch_err nodes_err
          (Scan.network_version scan)
          (dict_or_none epoch_payload)
          (dict_or_none seed_health)
          (Summary.mk
             (Z.of_nat (length node_rows))
             (count (fun n => (NodeRow.is_active n && NodeRow.online n)%bool) node_rows)
             offline_node_count
             node_payout_count
             (Z.of_nat (length miner_rows))
             miner_payout_count
             (Z.of_nat (length missing_expected_rows))
             (Z.of_nat (length (Scan.version_mismatch scan))))
          node_rows miner_rows missing_expected_rows (Scan.version_mismatch scan)).

End Compile.

(** The rows are in the order of the sort key: for two rows one after the
    other, the later is not below the earlier. *)
Definition rows_in_order (rows : list MinerRow.t) : Prop :=
  forall i a b, rows !! i = Some a -> rows !! S i = Some b -> row_lt b a = false.
(** The month and the day of the month of day [n] of a year, counted from
    0: the last steps of [DateTime._ord2ymd]. *)
Definition month_day (leapyear : bool) (n : Z) : Z * Z :=
  let month := Z.shiftr (n + 50) 5 in
  let preceding :=
    DateTime.index DateTime._DAYS_BEFORE_MONTH month
    + (if ((2 <? month) && leapyear)%bool then 1 else 0) in
  let '(month, preceding) :=
    if n <? preceding
    then (month - 1,
          preceding - (DateTime.index DateTime._DAYS_IN_MONTH (month - 1)
                       + (if ((month - 1 =? 2) && leapyear)%bool then 1 else 0)))
    else (month, preceding) in
  (month, n - preceding + 1).

(** A date and time of day with every field in its range. *)
Definition valid_datetime (dt : DateTime.t) : Prop :=
  1 <= DateTime.month dt <= 12
  /\ 1 <= DateTime.day dt <= DateTime._days_in_month (DateTime.year dt) (DateTime.month dt)
  /\ 0 <= DateTime.hour dt <= 23
  /\ 0 <= DateTime.minute dt <= 59
  /\ 0 <= DateTime.second dt <= 59.

(** A check on the numbers below [n], for the properties that one checks
    on every day of a year or on every two-digit number. *)
Fixpoint all_below (n : nat) (p : Z -> bool) : bool :=
  match n with
  | O => true
  | S n' => (p (Z.of_nat n') && all_below n' p)%bool
  end.
(* ===================================================================== *)
(** * The order of the sort key *)
(* ===================================================================== *)

(** The place of a float that is not a NaN on a line of integer triples:
    [-inf], the negative numbers, the zeros, the positive numbers, [+inf];
    among numbers of one sign, by exponent and then by mantissa. *)
Definition float_rank (x : spec_float) : Z * Z * Z :=
  match x with
  | S754_zero _ => (0, 0, 0)
  | S754_infinity s => (if s then -2 else 2, 0, 0)
  | S754_nan => (3, 0, 0)
  | S754_finite s m e => if s then (-1, - e, - Zpos m) else (1, e, Zpos m)
  end.

Definition rank_lt (a b : Z * Z * Z) : Prop :=
  let '(a1, a2, a3) := a in
  let '(b1, b2, b3) := b in
  a1 < b1 \/ (a1 = b1 /\ (a2 < b2 \/ (a2 = b2 /\ a3 < b3))).

(** The order a report lists miner rows in: the rows with an age first,
    by age and then by miner id; after them the rows without age, by miner
    id. *)
Definition row_before (a b : MinerRow.t) : Prop :=
  match MinerRow.age_h a, MinerRow.age_h b with
  | Some x, Some y =>
      SFltb x y = true
      \/ (SFeqb x y = true /\ String.ltb (MinerRow.miner a) (MinerRow.miner b) = true)
  | Some _, None => True
  | None, Some _ => False
  | None, None => String.ltb (MinerRow.miner a) (MinerRow.miner b) = true
  end.

(** The age of a row, if any, is a number. *)
Definition age_is_number (m : MinerRow.t) : Prop :=
  match MinerRow.age_h m with
  | Some x => Float64.is_nan x = false
  | None => True
  end.

(** A list of strings in strictly ascending order. *)
Definition strictly_ascending (l : list string) : Prop :=
  forall i j a b, (i < j)%nat -> l !! i = Some a -> l !! j = Some b ->
    String.ltb a b = true.

(** The states [classify_miner_age] gives a miner with a timestamp. *)
Definition timed_states : list string :=
  ["active"; "stale_but_weekly_eligible"; "inactive"].

(** An example for the miner rows: what two nodes list, at the time
    1700000000. The miner [late] is listed first and attested an hour
    ago, [early] attested ten days ago on one node and three minutes ago on
    the other, [quiet] and [calm] have no timestamp. *)
Definition example_miner (id : string) (last_attest : JSON) : dict :=
  [("miner", JStr id); ("last_attest", last_attest)].

Definition example_node_miners : list (string * list dict) :=
  [("https://n1", [example_miner "late" (JInt 1699996400);
                   example_miner "quiet" JNull;
                   example_miner "early" (JInt 1699136000)]);
   ("https://n0", [example_miner "early" (JStr "1699999820");
                   example_miner "calm" (JInt 0)])].

(** The state of a run whose nodes list [node_miners], with nothing else
    in it. *)
Definition scan_of_miners (node_miners : list (string * list dict)) : Scan.t :=
  Scan.mk "https://n1" (JStr "") [] [] [] node_miners []
    (match _aggregate_miners node_miners with
     | Ok aggregate => aggregate
     | Raise _ => ∅
     end).

(** The report of that state at the time 1700000000 with the default
    windows, no expected miners and no answers of the seed. *)
Definition report_of_miners (node_miners : list (string * list dict))
    : outcome Report.t :=
  compile_report (fun _ => false) (fun _ => Failed FileNotFoundError)
    1700000000 "2023-11-14T22:13:20Z" (Float64.nearest 2) (Float64.nearest 168)
    [] "" JNull None JNull None None (scan_of_miners node_miners).

(** A node that gives a timestamp in milliseconds. *)
Definition millisecond_node_miners : list (string * list dict) :=
  [("https://n1", [example_miner "late" (JInt 1699996400);
                   example_miner "ms" (JInt 1700000000000)])].

(* ===================================================================== *)
(** * Properties of the node host classifier *)
(* ===================================================================== *)

Lemma truthy_nonempty (s : string) : PyStr.truthy s = true <-> s <> "".
Proof. destruct s; simpl; split; intros; congruence. Qed.

Lemma truthy_empty (s : string) : PyStr.truthy s = false <-> s = "".
Proof. destruct s; simpl; split; intros; congruence. Qed.

(** C3. [classify_node_host] is a total function of its four arguments and
    follows the precedence inactivity, then offline, then version mismatch:
    a node not declared active gets [(false, inactive_no_payout)] whatever
    the rest; an active node that is offline gets
    [(false, investigate_offline)]; an active online node whose two versions
    are non-empty and differ gets [(true, pay_weekly_and_upgrade_node)];
    every other active online node gets [(true, pay_weekly)]. *)
Theorem classify_node_host_table (is_active online : bool)
    (node_version network_version : string) :
  let verdict := classify_node_host is_active online node_version (JStr network_version) in
  (is_active = false -> verdict = (false, "inactive_no_payout")) /\
  (is_active = true -> online = false -> verdict = (false, "investigate_offline")) /\
  (is_active = true -> online = true ->
   node_version <> "" -> network_version <> "" -> node_version <> network_version ->
   verdict = (true, "pay_weekly_and_upgrade_node")) /\
  (is_active = true -> online = true ->
   node_version = "" \/ network_version = "" \/ node_version = network_version ->
   verdict = (true, "pay_weekly")).
Proof.
  unfold classify_node_host; simpl.
  repeat split.
  - intros ->. reflexivity.
  - intros -> ->. reflexivity.
  - intros -> -> Hn Hw Hne. simpl.
    apply truthy_nonempty in Hn, Hw. rewrite Hn, Hw. simpl.
    apply String.eqb_neq in Hne. rewrite Hne. reflexivity.
  - intros -> -> H. simpl.
    destruct H as [-> | [-> | ->]].
    + rewrite andb_false_r. reflexivity.
    + reflexivity.
    + rewrite String.eqb_refl, andb_false_r. reflexivity.
Qed.

(** The three verdicts the repository's tests check. *)
Example classify_node_host_tests :
  classify_node_host true true "2.2.1-rip200" (JStr "2.2.1-rip200") = (true, "pay_weekly")
  /\ classify_node_host true true "2.1.0-rip200" (JStr "2.2.1-rip200")
     = (true, "pay_weekly_and_upgrade_node")
  /\ classify_node_host true false "2.2.1-rip200" (JStr "2.2.1-rip200")
     = (false, "investigate_offline").
Proof. repeat split. Qed.

Lemma classify_node_host_table_witness :
  classify_node_host true true "2.1.0-rip200" (JStr "2.2.1-rip200")
  = (true, "pay_weekly_and_upgrade_node").
Proof.
  apply (proj1 (proj2 (proj2
           (classify_node_host_table true true "2.1.0-rip200" "2.2.1-rip200"))));
    [reflexivity | reflexivity | discriminate | discriminate | discriminate].
Defined.

(* ===================================================================== *)
(** * Properties of the miner age classifier *)
(* ===================================================================== *)

Lemma SFleb_refl (x : spec_float) : Float64.is_nan x = false -> Float64.leb x x = true.
Proof.
  unfold Float64.leb, SFleb.
  destruct x as [s | s | | s m e]; simpl; try discriminate; intros _.
  - reflexivity.
  - destruct s; reflexivity.
  - rewrite Z.compare_refl, Pos.compare_cont_refl. destruct s; reflexivity.
Qed.

Lemma ltb_not_nan (x y : spec_float) : Float64.ltb x y = true -> Float64.is_nan y = false.
Proof.
  unfold Float64.ltb, SFltb.
  destruct y; simpl; try reflexivity.
  destruct x; simpl; discriminate.
Qed.

(** [max(0.0, x)] is never a NaN. *)
Lemma max_zero_not_nan (x : spec_float) :
  Float64.is_nan (Float64.max Float64.zero x) = false.
Proof.
  unfold Float64.max.
  destruct (Float64.ltb Float64.zero x) eqn:E.
  - eapply ltb_not_nan; eassumption.
  - reflexivity.
Qed.

(** C4 (as amended). [classify_miner_age]: without a timestamp ([None] or
    [0]) the state is [unknown], not eligible, [request_status_or_upgrade],
    and no age; with a timestamp whose distance [now_ts - last_attest_ts]
    converts to a float, the age is
    [max(0.0, (now_ts - last_attest_ts) / 3600.0)] in binary64 arithmetic
    and the bands are tested in order with [<=]: within the active window
    [active], else within the weekly window [stale_but_weekly_eligible],
    else [inactive]; an age equal to a window bound is within that window.
    With a timestamp whose distance does not convert to a float, the
    function raises [OverflowError]. *)
Theorem classify_miner_age_bands (last_attest_ts : option Z) (now_ts : Z)
    (active_window_h weekly_window_h : spec_float) :
  let verdict :=
    classify_miner_age last_attest_ts now_ts active_window_h weekly_window_h in
  (last_attest_ts = None \/ last_attest_ts = Some 0 ->
   verdict = Ok (Classification.mk None "unknown" false "request_status_or_upgrade"))
  /\
  (forall ts d,
     last_attest_ts = Some ts -> ts <> 0 ->
     Float64.of_int (now_ts - ts) = Ok d ->
     let age := Float64.max Float64.zero (Float64.div d Float64.f3600) in
     (Float64.leb age active_window_h = true ->
      verdict = Ok (Classification.mk (Some age) "active" true "pay_weekly"))
     /\ (Float64.leb age active_window_h = false ->
         Float64.leb age weekly_window_h = true ->
         verdict = Ok (Classification.mk (Some age) "stale_but_weekly_eligible" true
                         "pay_weekly_and_ping_health_check"))
     /\ (Float64.leb age active_window_h = false ->
         Float64.leb age weekly_window_h = false ->
         verdict = Ok (Classification.mk (Some age) "inactive" false
                         "restart_or_upgrade_miner"))
     /\ (age = active_window_h -> Float64.leb age active_window_h = true)
     /\ (age = weekly_window_h -> Float64.leb age weekly_window_h = true))
  /\
  (forall ts,
     last_attest_ts = Some ts -> ts <> 0 ->
     (forall d, Float64.of_int (now_ts - ts) <> Ok d) ->
     Float64.of_int (now_ts - ts) = Raise OverflowError
     /\ verdict = Raise OverflowError).
Proof.
  cbv zeta. split; [| split].
  - intros [-> | ->]; reflexivity.
  - intros ts d -> Hts Hd.
    unfold classify_miner_age, miner_age_h.
    apply Z.eqb_neq in Hts. rewrite Hts, Hd. simpl.
    repeat split.
    + intros ->. reflexivity.
    + intros -> ->. reflexivity.
    + intros -> ->. reflexivity.
    + intros <-. apply SFleb_refl, max_zero_not_nan.
    + intros <-. apply SFleb_refl, max_zero_not_nan.
  - intros ts -> Hts Hnone.
    assert (Hraise : Float64.of_int (now_ts - ts) = Raise OverflowError).
    { revert Hnone. unfold Float64.of_int.
      destruct (Float64.nearest (now_ts - ts)); intros Hnone;
        first [reflexivity | exfalso; eapply Hnone; reflexivity]. }
    split; [exact Hraise |].
    unfold classify_miner_age, miner_age_h.
    apply Z.eqb_neq in Hts. rewrite Hts, Hraise. reflexivity.
Qed.

Lemma classify_miner_age_bands_witness :
  classify_miner_age (Some (1700000000 - 7200)) 1700000000
    (Float64.nearest 2) (Float64.nearest 168)
  = Ok (Classification.mk (Some (Float64.nearest 2)) "active" true "pay_weekly").
Proof.
  apply (proj1 (proj1 (proj2 (classify_miner_age_bands (Some (1700000000 - 7200))
                                1700000000 (Float64.nearest 2) (Float64.nearest 168)))
                 (1700000000 - 7200) (Float64.nearest 7200)
                 eq_refl ltac:(discriminate) eq_refl)).
  reflexivity.
Defined.

(** C4 as stated fails: for a timestamp so far from [now_ts] that the
    distance in seconds is beyond the floats, the division by [3600.0]
    raises [OverflowError]; there is no age and no band. *)
Lemma classify_miner_age_overflow :
  classify_miner_age (Some (2 ^ 1024)) 1700000000
    (Float64.nearest 2) (Float64.nearest 168)
  = Raise OverflowError
  /\ classify_miner_age (Some (- 2 ^ 1024)) 1700000000
       (Float64.nearest 2) (Float64.nearest 168)
     = Raise OverflowError.
Proof. split; vm_compute; reflexivity. Qed.

(** The cases of the repository's tests, and the two window edges. *)
Example classify_miner_age_tests :
  let now := 1700000000 in
  let classify ts :=
    match classify_miner_age ts now (Float64.nearest 2) (Float64.nearest 168) with
    | Ok c => Some (Classification.state c, Classification.weekly_eligible c)
    | Raise _ => None
    end in
  classify (Some (now - 900)) = Some ("active", true)
  /\ classify (Some (now - 72 * 3600)) = Some ("stale_but_weekly_eligible", true)
  /\ classify (Some (now - 200 * 3600)) = Some ("inactive", false)
  /\ classify None = Some ("unknown", false)
  /\ classify (Some (now - 2 * 3600)) = Some ("active", true)
  /\ classify (Some (now - 2 * 3600 - 1)) = Some ("stale_but_weekly_eligible", true)
  /\ classify (Some (now - 168 * 3600)) = Some ("stale_but_weekly_eligible", true)
  /\ classify (Some (now - 168 * 3600 - 1)) = Some ("inactive", false)
  /\ classify (Some (now + 60)) = Some ("active", true).
Proof. vm_compute. repeat split. Qed.

(* ===================================================================== *)
(** * Properties of the missing-expected-miner detector *)
(* ===================================================================== *)

Lemma ascii_compare_N (a b : ascii) :
  Ascii.compare a b = N.compare (N_of_ascii a) (N_of_ascii b).
Proof. reflexivity. Qed.

Lemma string_compare_trans_le (a b c : string) :
  String.compare a b <> Gt -> String.compare b c <> Gt -> String.compare a c <> Gt.
Proof.
  revert b c. induction a as [| x a IH]; intros [| y b] [| z c]; simpl;
    try congruence.
  rewrite !ascii_compare_N.
  destruct (N.compare_spec (N_of_ascii x) (N_of_ascii y)) as [Exy | Lxy | Gxy];
    destruct (N.compare_spec (N_of_ascii y) (N_of_ascii z)) as [Eyz | Lyz | Gyz];
    try congruence; intros Hab Hbc.
  - rewrite Exy, Eyz, N.compare_refl. eauto.
  - rewrite Exy. apply N.compare_lt_iff in Lyz. rewrite Lyz. congruence.
  - rewrite <- Eyz. apply N.compare_lt_iff in Lxy. rewrite Lxy. congruence.
  - assert (H : (N_of_ascii x < N_of_ascii z)%N) by lia.
    apply N.compare_lt_iff in H. rewrite H. congruence.
Qed.

Lemma str_le_compare (a b : string) : str_le a b <-> String.compare a b <> Gt.
Proof.
  unfold str_le, String.leb. destruct (String.compare a b); split; congruence.
Qed.

Global Instance str_le_trans : Transitive str_le.
Proof.
  intros a b c. rewrite !str_le_compare. apply string_compare_trans_le.
Qed.

Global Instance str_le_total : Total str_le.
Proof. intros a b. apply String.leb_total. Qed.

Global Instance str_le_antisym : AntiSymm (=) str_le.
Proof. intros a b. apply String.leb_antisym. Qed.

(** C9. The missing expected miners are the ids of the expectation set that
    are not observed, each once, in ascending order; that list is the only
    one with these properties; and the gap rows carry these ids in that order,
    each with state [not_visible_in_public_api], not weekly eligible, and
    action [check_node_url_then_upgrade_miner]. *)
Theorem missing_expected_sorted_difference (expected observed_miners : gset string) :
  let missing := missing_expected expected observed_miners in
  let rows := missing_expected_rows missing in
  StronglySorted str_le missing
  /\ NoDup missing
  /\ (forall m, m ∈ missing <-> m ∈ expected /\ m ∉ observed_miners)
  /\ (forall l, StronglySorted str_le l -> NoDup l ->
                (forall m, m ∈ l <-> m ∈ expected /\ m ∉ observed_miners) ->
                l = missing)
  /\ map GapRow.miner rows = missing
  /\ (forall row, row ∈ rows ->
        GapRow.state row = "not_visible_in_public_api"
        /\ GapRow.weekly_eligible row = false
        /\ GapRow.suggested_action row = "check_node_url_then_upgrade_miner").
Proof.
  cbv zeta. unfold missing_expected.
  set (d := elements (expected ∖ observed_miners)).
  assert (Hperm : merge_sort str_le d ≡ₚ d) by apply merge_sort_Permutation.
  assert (Hsorted : StronglySorted str_le (merge_sort str_le d))
    by (apply StronglySorted_merge_sort; apply _).
  assert (Hnodup : NoDup (merge_sort str_le d)).
  { rewrite Hperm. apply NoDup_elements. }
  assert (Hmem : forall m, m ∈ merge_sort str_le d <-> m ∈ expected /\ m ∉ observed_miners).
  { intros m. rewrite Hperm. unfold d. rewrite elem_of_elements. set_solver. }
  assert (Hrow : forall row, row ∈ missing_expected_rows (merge_sort str_le d) ->
            exists m, row = GapRow.mk m "not_visible_in_public_api" false
                              "check_node_url_then_upgrade_miner").
  { intros row Hrow. unfold missing_expected_rows in Hrow.
    apply list_elem_of_In, in_map_iff in Hrow.
    destruct Hrow as (m & <- & _). eauto. }
  split; [exact Hsorted |].
  split; [exact Hnodup |].
  split; [exact Hmem |].
  split; [| split].
  - intros l Hl Hnd Hl_mem.
    apply (StronglySorted_unique str_le); try assumption.
    apply NoDup_Permutation; try assumption.
    intros m. rewrite Hl_mem, Hmem. reflexivity.
  - unfold missing_expected_rows. rewrite map_map. simpl. apply map_id.
  - intros row Hin. destruct (Hrow row Hin) as [m ->]. simpl. auto.
Qed.

(** The example of the specification. *)
Example missing_expected_alpha_beta_gamma :
  missing_expected {["alpha"; "beta"; "gamma"]} {["alpha"]} = ["beta"; "gamma"].
Proof. vm_compute. reflexivity. Qed.

(* ===================================================================== *)
(** * Properties of the miner aggregator *)
(* ===================================================================== *)

Lemma aggregate_sightings_app (agg : gmap string MinerRecord.t) (l1 l2 : list (string * dict)) :
  aggregate_sightings agg (l1 ++ l2)
  = agg' ← aggregate_sightings agg l1; aggregate_sightings agg' l2.
Proof.
  revert agg. induction l1 as [| [n row] l1 IH]; intros agg; simpl; [reflexivity |].
  destruct (aggregate_row n agg row); simpl; [apply IH | reflexivity].
Qed.

Lemma aggregate_rows_sightings (n : string) (agg : gmap string MinerRecord.t) (rows : list dict) :
  aggregate_rows n agg rows = aggregate_sightings agg (map (pair n) rows).
Proof.
  revert agg. induction rows as [| row rows IH]; intros agg; simpl; [reflexivity |].
  destruct (aggregate_row n agg row); simpl; [apply IH | reflexivity].
Qed.

Lemma aggregate_nodes_sightings (agg : gmap string MinerRecord.t)
    (nm : list (string * list dict)) :
  aggregate_nodes agg nm = aggregate_sightings agg (sightings nm).
Proof.
  revert agg. induction nm as [| [n rows] nm IH]; intros agg; simpl; [reflexivity |].
  rewrite aggregate_sightings_app, aggregate_rows_sightings.
  destruct (aggregate_sightings agg (map (pair n) rows)); simpl; [apply IH | reflexivity].
Qed.

(** The fold succeeds exactly when every sighting is foldable, whatever the
    aggregate it starts from. *)
Lemma aggregate_sightings_ok (agg : gmap string MinerRecord.t) (l : list (string * dict)) :
  (exists agg', aggregate_sightings agg l = Ok agg') <-> Forall foldable l.
Proof.
  revert agg. induction l as [| [n row] l IH]; intros agg; simpl.
  - split; eauto.
  - rewrite Forall_cons. unfold foldable at 1. simpl.
    unfold aggregate_row.
    destruct (PyStr.truthy (row_miner_id row)) eqn:Hid; simpl.
    + apply truthy_nonempty in Hid.
      destruct (row_last_attest row) as [z | e]; simpl.
      * destruct (agg !! row_miner_id row); simpl; rewrite IH; split.
        -- intros H; split; eauto.
        -- tauto.
        -- intros H; split; eauto.
        -- tauto.
      * split.
        -- intros [agg' H]. discriminate.
        -- intros [[H | [z H]] _]; congruence.
    + apply truthy_empty in Hid. rewrite IH. tauto.
Qed.

Lemma positive_timestamps_snoc (m : string) (l : list (string * dict)) (s : string * dict) :
  positive_timestamps m (l ++ [s])
  = (positive_timestamps m l
     ++ match positive_timestamp m s with Some z => [z] | None => [] end)%list.
Proof.
  unfold positive_timestamps. rewrite omap_app. simpl.
  destruct (positive_timestamp m s); reflexivity.
Qed.

Lemma positive_timestamps_positive (m : string) (l : list (string * dict)) :
  Forall (fun t => 0 < t) (positive_timestamps m l).
Proof.
  apply Forall_forall. intros t Ht.
  apply list_elem_of_omap in Ht. destruct Ht as (s & _ & Hs).
  unfold positive_timestamp in Hs.
  destruct (String.eqb _ _); [| discriminate].
  destruct (row_last_attest _) as [z |]; [| discriminate].
  destruct (0 <? z) eqn:Hz; [| discriminate].
  injection Hs as <-. apply Z.ltb_lt. exact Hz.
Qed.

Lemma positive_timestamps_none (m : string) (l : list (string * dict)) :
  (forall n, ~ reported_by m l n) -> positive_timestamps m l = [].
Proof.
  intros Hno. destruct (positive_timestamps m l) as [| t ts] eqn:E; [reflexivity |].
  assert (Ht : t ∈ positive_timestamps m l) by (rewrite E; left).
  apply list_elem_of_omap in Ht. destruct Ht as ([n row] & Hin & Hs).
  unfold positive_timestamp in Hs. simpl in Hs.
  destruct (String.eqb_spec (row_miner_id row) m) as [Heq |]; [| discriminate].
  exfalso. apply (Hno n). exists row. auto.
Qed.

Lemma reported_by_snoc (m : string) (l : list (string * dict)) (n : string) (row : dict)
    (n' : string) :
  reported_by m (l ++ [(n, row)]) n'
  <-> reported_by m l n' \/ (n' = n /\ row_miner_id row = m).
Proof.
  unfold reported_by. split.
  - intros (row' & Hin & Hm). apply elem_of_app in Hin. destruct Hin as [Hin | Hin].
    + left. eauto.
    + apply list_elem_of_singleton in Hin. injection Hin as -> ->. right. auto.
  - intros [(row' & Hin & Hm) | [-> Hm]].
    + exists row'. split; [apply elem_of_app; left; exact Hin | exact Hm].
    + exists row. split; [apply elem_of_app; right; left | exact Hm].
Qed.

Lemma is_latest_positive (o : option Z) (ts : list Z) :
  Forall (fun t => 0 < t) ts -> is_latest o ts -> 0 <= last_attest_or_0 o.
Proof.
  destruct o as [z |]; simpl; [| lia].
  intros Hpos [Hin _]. rewrite Forall_forall in Hpos. specialize (Hpos z Hin). lia.
Qed.

(** The update of [last_attest] keeps it the maximum. *)
Lemma is_latest_update (o : option Z) (ts : list Z) (z : Z) :
  Forall (fun t => 0 < t) ts -> is_latest o ts ->
  is_latest
    (if (negb (z =? 0) && (last_attest_or_0 o <? z))%bool then Some z else o)
    (ts ++ if 0 <? z then [z] else [])%list.
Proof.
  intros Hpos Hlat. pose proof (is_latest_positive o ts Hpos Hlat) as H0.
  destruct (0 <? z) eqn:Hz.
  - apply Z.ltb_lt in Hz.
    replace (z =? 0) with false by (symmetry; apply Z.eqb_neq; lia). simpl.
    destruct (last_attest_or_0 o <? z) eqn:Hlt.
    + apply Z.ltb_lt in Hlt. simpl. split.
      * apply elem_of_app. right. left.
      * apply Forall_app. split; [| repeat constructor; lia].
        destruct o as [p |]; simpl in *.
        -- destruct Hlat as [_ Hle]. eapply Forall_impl; [exact Hle |].
           simpl. intros; lia.
        -- rewrite Hlat. constructor.
    + apply Z.ltb_ge in Hlt. destruct o as [p |]; simpl in *; [| lia].
      destruct Hlat as [Hin Hle]. split.
      * apply elem_of_app. left. exact Hin.
      * apply Forall_app. split; [exact Hle | repeat constructor; lia].
  - apply Z.ltb_ge in Hz. rewrite app_nil_r.
    replace (negb (z =? 0) && (last_attest_or_0 o <? z))%bool with false; [exact Hlat |].
    symmetry. destruct (Z.eqb_spec z 0); simpl; [reflexivity |].
    apply Z.ltb_ge. lia.
Qed.

(** One step of the fold keeps the aggregate the summary of the sightings
    folded so far. *)
Lemma aggregate_row_step (l : list (string * dict)) (agg agg' : gmap string MinerRecord.t)
    (n : string) (row : dict) :
  aggregate_of l agg ->
  aggregate_row n agg row = Ok agg' ->
  aggregate_of (l ++ [(n, row)]) agg'.
Proof.
  intros Hinv Hstep m. unfold aggregate_row in Hstep.
  pose proof (Hinv m) as Hm.
  destruct (PyStr.truthy (row_miner_id row)) eqn:Hid; simpl in Hstep.
  2: { (* a blank miner id: the sighting is skipped *)
    injection Hstep as <-. apply truthy_empty in Hid.
    destruct (agg !! m) as [r |].
    - destruct Hm as (Hr & Hne & Hnd & Hmem & Hlat).
      assert (Hts : positive_timestamp m (n, row) = None).
      { unfold positive_timestamp. simpl. rewrite Hid.
        destruct (String.eqb_spec "" m); [congruence | reflexivity]. }
      repeat split; try assumption.
      + intros Hin. apply reported_by_snoc. left. apply Hmem, Hin.
      + intros Hin. apply reported_by_snoc in Hin. apply Hmem.
        destruct Hin as [Hin | [_ Hin]]; [exact Hin | congruence].
      + rewrite positive_timestamps_snoc, Hts, app_nil_r. exact Hlat.
    - destruct Hm as [-> | Hno]; [left; reflexivity |].
      destruct (String.eqb_spec m "") as [-> | Hne]; [left; reflexivity |].
      right. intros n' Hin. apply reported_by_snoc in Hin.
      destruct Hin as [Hin | [_ Hin]]; [exact (Hno n' Hin) | congruence]. }
  apply truthy_nonempty in Hid.
  destruct (row_last_attest row) as [z | e] eqn:Hts; simpl in Hstep; [| discriminate].
  destruct (String.eqb_spec (row_miner_id row) m) as [Heq | Hne].
  - (* the sighting is of miner [m] *)
    assert (Hpts : positive_timestamp m (n, row) = if 0 <? z then Some z else None).
    { unfold positive_timestamp. simpl. rewrite Hts, Heq, String.eqb_refl. reflexivity. }
    rewrite Heq in *.
    destruct (agg !! m) as [existing |] eqn:Hex.
    + injection Hstep as <-. rewrite lookup_insert_eq.
      destruct Hm as (Hr & _ & Hnd & Hmem & Hlat).
      split; [| split; [exact Hid | split; [| split]]].
      * destruct (_ && _)%bool, (bool_decide _); simpl; exact Hr.
      * destruct (_ && _)%bool, (bool_decide (n ∈ _)) eqn:Hdec; simpl in *;
          try exact Hnd.
        -- apply bool_decide_eq_false in Hdec.
           apply NoDup_app. split; [exact Hnd | split; [| apply NoDup_singleton]].
           intros x Hx Hx'. apply list_elem_of_singleton in Hx'. congruence.
        -- apply bool_decide_eq_false in Hdec.
           apply NoDup_app. split; [exact Hnd | split; [| apply NoDup_singleton]].
           intros x Hx Hx'. apply list_elem_of_singleton in Hx'. congruence.
      * intros n'. rewrite reported_by_snoc, <- Hmem.
        assert (Hnodes : forall r0 : MinerRecord.t,
                  MinerRecord.nodes_seen
                    (if bool_decide (n ∈ MinerRecord.nodes_seen r0)
                     then r0 else MinerRecord.append_node n r0) = MinerRecord.nodes_seen r0
                  /\ n ∈ MinerRecord.nodes_seen r0
                  \/ MinerRecord.nodes_seen
                       (if bool_decide (n ∈ MinerRecord.nodes_seen r0)
                        then r0 else MinerRecord.append_node n r0)
                     = (MinerRecord.nodes_seen r0 ++ [n])%list).
        { intros r0. destruct (bool_decide (n ∈ MinerRecord.nodes_seen r0)) eqn:Hdec.
          - left. apply bool_decide_eq_true in Hdec. auto.
          - right. reflexivity. }
        match goal with
        | |- n' ∈ MinerRecord.nodes_seen (if bool_decide (n ∈ MinerRecord.nodes_seen ?r0) then _ else _) <-> _ =>
            destruct (Hnodes r0) as [[Hsame Hin] | Happ];
            [rewrite Hsame | rewrite Happ];
            assert (Hseen : MinerRecord.nodes_seen r0 = MinerRecord.nodes_seen existing)
              by (destruct (_ && _)%bool; reflexivity)
        end.
        -- rewrite Hseen in *. split; [tauto |]. intros [H | [-> _]]; assumption.
        -- rewrite Hseen, elem_of_app, list_elem_of_singleton. tauto.
      * rewrite positive_timestamps_snoc, Hpts.
        pose proof (is_latest_update (MinerRecord.last_attest existing)
                      (positive_timestamps m l) z
                      (positive_timestamps_positive m l) Hlat) as Hupd.
        destruct (0 <? z);
        destruct (_ && _)%bool, (bool_decide _); simpl; exact Hupd.
    + injection Hstep as <-. rewrite lookup_insert_eq. simpl.
      destruct Hm as [-> | Hno]; [congruence |].
      split; [reflexivity | split; [exact Hid | split; [apply NoDup_singleton | split]]].
      * intros n'. rewrite reported_by_snoc, list_elem_of_singleton.
        split; [auto |]. intros [H | [H _]]; [destruct (Hno n' H) | exact H].
      * rewrite positive_timestamps_snoc, Hpts, (positive_timestamps_none m l Hno).
        destruct (0 <? z); simpl; [| reflexivity].
        split; [left | repeat constructor; lia].
  - (* the sighting is of another miner *)
    assert (Hpts : positive_timestamp m (n, row) = None).
    { unfold positive_timestamp. simpl.
      destruct (String.eqb_spec (row_miner_id row) m); [congruence | reflexivity]. }
    assert (Hlook : agg' !! m = agg !! m).
    { destruct (agg !! row_miner_id row); injection Hstep as <-;
        apply lookup_insert_ne; exact Hne. }
    rewrite Hlook.
    destruct (agg !! m) as [r |].
    + destruct Hm as (Hr & Hne' & Hnd & Hmem & Hlat).
      repeat split; try assumption.
      * intros Hin. apply reported_by_snoc. left. apply Hmem, Hin.
      * intros Hin. apply reported_by_snoc in Hin. apply Hmem.
        destruct Hin as [Hin | [_ Hin]]; [exact Hin | congruence].
      * rewrite positive_timestamps_snoc, Hpts, app_nil_r. exact Hlat.
    + destruct Hm as [-> | Hno]; [left; reflexivity |].
      right. intros n' Hin. apply reported_by_snoc in Hin.
      destruct Hin as [Hin | [_ Hin]]; [exact (Hno n' Hin) | congruence].
Qed.

Lemma aggregate_of_nil : aggregate_of [] ∅.
Proof.
  intros m. rewrite lookup_empty. right. intros n (row & Hin & _).
  apply elem_of_nil in Hin. exact Hin.
Qed.

(** The aggregate of a successful fold summarises the sightings folded. *)
Lemma aggregate_sightings_of (l : list (string * dict)) (agg : gmap string MinerRecord.t) :
  aggregate_sightings ∅ l = Ok agg -> aggregate_of l agg.
Proof.
  revert agg. induction l as [| [n row] l IH] using rev_ind; intros agg.
  - simpl. intros [= <-]. apply aggregate_of_nil.
  - rewrite aggregate_sightings_app.
    destruct (aggregate_sightings ∅ l) as [agg0 | e]; simpl; [| discriminate].
    destruct (aggregate_row n agg0 row) as [agg1 | e] eqn:Hstep; simpl; [| discriminate].
    intros [= <-]. eapply aggregate_row_step; eauto.
Qed.

Lemma is_latest_Permutation (o : option Z) (ts ts' : list Z) :
  ts ≡ₚ ts' -> is_latest o ts -> is_latest o ts'.
Proof.
  intros Hp. destruct o as [z |]; simpl.
  - rewrite Hp. tauto.
  - intros ->. symmetry in Hp. apply Permutation_nil_r in Hp. exact Hp.
Qed.

Lemma is_latest_unique (o o' : option Z) (ts : list Z) :
  is_latest o ts -> is_latest o' ts -> o = o'.
Proof.
  destruct o as [z |], o' as [z' |]; simpl.
  - intros [Hin Hle] [Hin' Hle']. rewrite Forall_forall in Hle, Hle'.
    specialize (Hle _ Hin'). specialize (Hle' _ Hin). f_equal. lia.
  - intros [Hin _] ->. apply elem_of_nil in Hin. destruct Hin.
  - intros -> [Hin _]. apply elem_of_nil in Hin. destruct Hin.
  - reflexivity.
Qed.

Lemma positive_timestamps_Permutation (m : string) (l l' : list (string * dict)) :
  l ≡ₚ l' -> positive_timestamps m l ≡ₚ positive_timestamps m l'.
Proof. intros Hp. unfold positive_timestamps. rewrite Hp. reflexivity. Qed.

Lemma reported_by_Permutation (m : string) (l l' : list (string * dict)) (n : string) :
  l ≡ₚ l' -> reported_by m l n <-> reported_by m l' n.
Proof.
  intros Hp. unfold reported_by. split; intros (row & Hin & Hm); exists row; split;
    try assumption; [rewrite <- Hp | rewrite Hp]; assumption.
Qed.

(** Folding one more sighting never lowers a miner's [last_attest]. *)
Lemma aggregate_row_monotone (n : string) (row : dict)
    (agg agg' : gmap string MinerRecord.t) (m : string) (r : MinerRecord.t) :
  aggregate_row n agg row = Ok agg' -> agg !! m = Some r ->
  exists r', agg' !! m = Some r'
             /\ opt_le (MinerRecord.last_attest r) (MinerRecord.last_attest r').
Proof.
  assert (Hrefl : forall o, opt_le o o) by (intros [z |]; simpl; lia).
  intros Hstep Hm. unfold aggregate_row in Hstep.
  destruct (PyStr.truthy (row_miner_id row)); simpl in Hstep.
  2: { injection Hstep as <-. eauto. }
  destruct (row_last_attest row) as [z | e]; simpl in Hstep; [| discriminate].
  destruct (String.eqb_spec (row_miner_id row) m) as [Heq | Hne].
  - rewrite Heq, Hm in Hstep. injection Hstep as <-. rewrite lookup_insert_eq.
    eexists. split; [reflexivity |].
    destruct (negb (z =? 0) && (last_attest_or_0 (MinerRecord.last_attest r) <? z))%bool
      eqn:Hupd; destruct (bool_decide _); simpl; try apply Hrefl.
    + apply andb_true_iff in Hupd. destruct Hupd as [_ Hlt]. apply Z.ltb_lt in Hlt.
      destruct (MinerRecord.last_attest r); simpl in *; [lia | exact I].
    + apply andb_true_iff in Hupd. destruct Hupd as [_ Hlt]. apply Z.ltb_lt in Hlt.
      destruct (MinerRecord.last_attest r); simpl in *; [lia | exact I].
  - exists r. split; [| apply Hrefl].
    destruct (agg !! row_miner_id row); injection Hstep as <-;
      rewrite lookup_insert_ne; assumption.
Qed.

Lemma opt_le_trans (a b c : option Z) : opt_le a b -> opt_le b c -> opt_le a c.
Proof. destruct a, b, c; simpl; try tauto; lia. Qed.

Lemma aggregate_sightings_monotone (l : list (string * dict))
    (agg agg' : gmap string MinerRecord.t) (m : string) (r : MinerRecord.t) :
  aggregate_sightings agg l = Ok agg' -> agg !! m = Some r ->
  exists r', agg' !! m = Some r'
             /\ opt_le (MinerRecord.last_attest r) (MinerRecord.last_attest r').
Proof.
  revert agg r. induction l as [| [n row] l IH]; intros agg r; simpl.
  - intros [= <-] Hm. exists r. split; [exact Hm |].
    destruct (MinerRecord.last_attest r); simpl; lia.
  - destruct (aggregate_row n agg row) as [agg1 |] eqn:Hstep; simpl; [| discriminate].
    intros Hrest Hm.
    destruct (aggregate_row_monotone _ _ _ _ _ _ Hstep Hm) as (r1 & Hm1 & Hle1).
    destruct (IH _ _ Hrest Hm1) as (r' & Hm' & Hle').
    exists r'. split; [exact Hm' | eapply opt_le_trans; eassumption].
Qed.

(** A record exists only for a miner some sighting reported. *)
Lemma aggregate_sightings_reported (l : list (string * dict))
    (agg : gmap string MinerRecord.t) (m : string) (r : MinerRecord.t) :
  aggregate_sightings ∅ l = Ok agg -> agg !! m = Some r ->
  exists n, reported_by m l n.
Proof.
  intros Hagg Hm. pose proof (aggregate_sightings_of _ _ Hagg m) as Hinv.
  revert agg r Hagg Hm Hinv.
  induction l as [| [n row] l IH] using rev_ind; intros agg r.
  - simpl. intros [= <-]. rewrite lookup_empty. discriminate.
  - rewrite aggregate_sightings_app.
    destruct (aggregate_sightings ∅ l) as [agg0 |] eqn:H0; simpl; [| discriminate].
    destruct (aggregate_row n agg0 row) as [agg1 |] eqn:Hstep; simpl; [| discriminate].
    intros [= <-] Hm _.
    destruct (String.eqb_spec (row_miner_id row) m) as [Heq | Hneq].
    + exists n, row. split; [apply elem_of_app; right; left | exact Heq].
    + assert (Hlook : agg1 !! m = agg0 !! m).
      { unfold aggregate_row in Hstep.
        destruct (PyStr.truthy (row_miner_id row)); simpl in Hstep;
          [| injection Hstep as <-; reflexivity].
        destruct (row_last_attest row); simpl in Hstep; [| discriminate].
        destruct (agg0 !! row_miner_id row); injection Hstep as <-;
          apply lookup_insert_ne; exact Hneq. }
      rewrite Hlook in Hm.
      destruct (IH _ _ eq_refl Hm (aggregate_sightings_of _ _ H0 m))
        as (n' & row' & Hin & Hm').
      exists n', row'. split; [apply elem_of_app; left; exact Hin | exact Hm'].
Qed.

(** C10. Every record [_aggregate_miners] produces is filed under its own
    miner id, which is not empty; it lists at least one node; and its
    [last_attest] is absent or strictly positive. *)
Theorem aggregate_record_invariant (node_miners : list (string * list dict))
    (aggregate : gmap string MinerRecord.t) (key : string) (r : MinerRecord.t) :
  _aggregate_miners node_miners = Ok aggregate ->
  aggregate !! key = Some r ->
  MinerRecord.miner r = key
  /\ key <> ""
  /\ MinerRecord.nodes_seen r <> []
  /\ match MinerRecord.last_attest r with
     | None => True
     | Some z => 0 < z
     end.
Proof.
  unfold _aggregate_miners. rewrite aggregate_nodes_sightings. intros Hagg Hkey.
  pose proof (aggregate_sightings_of _ _ Hagg key) as Hinv.
  rewrite Hkey in Hinv. destruct Hinv as (Hminer & Hne & _ & Hmem & Hlat).
  split; [exact Hminer | split; [exact Hne | split]].
  - destruct (aggregate_sightings_reported _ _ _ _ Hagg Hkey) as [n Hn].
    apply Hmem in Hn. eapply elem_of_not_nil; exact Hn.
  - destruct (MinerRecord.last_attest r) as [z |]; [| exact I].
    destruct Hlat as [Hin _].
    pose proof (positive_timestamps_positive key (sightings node_miners)) as Hpos.
    rewrite Forall_forall in Hpos. exact (Hpos z Hin).
Qed.

Lemma aggregate_record_invariant_witness :
  exists r,
    MinerRecord.miner r = "m1" /\ MinerRecord.nodes_seen r <> []
    /\ MinerRecord.last_attest r = Some 9.
Proof.
  pose (nm := [("https://a", [[("miner", JStr " m1 "); ("last_attest", JInt 5)];
                              [("miner", JStr "m1"); ("last_attest", JStr "9")]]);
               ("https://b", [[("miner", JStr "m1"); ("last_attest", JInt (-3))]])]).
  destruct (_aggregate_miners nm) as [agg | e] eqn:Hagg; [| vm_compute in Hagg; discriminate].
  destruct (agg !! "m1") as [r |] eqn:Hr;
    [| vm_compute in Hagg; injection Hagg as <-; vm_compute in Hr; discriminate].
  exists r.
  destruct (aggregate_record_invariant nm agg "m1" r Hagg Hr) as (H1 & _ & H3 & _).
  split; [exact H1 | split; [exact H3 |]].
  vm_compute in Hagg. injection Hagg as <-. vm_compute in Hr. injection Hr as <-.
  reflexivity.
Defined.

(** C1 (as amended). For two iteration orders of the same sightings,
    [_aggregate_miners] succeeds on both or on neither, and then holds
    records for the same miners; for each miner the two records agree on
    [last_attest], which is the maximum of the positive timestamps sighted
    (absent when there is none), and on the nodes of [nodes_seen], which
    are the nodes that reported the miner, each listed once. Moreover,
    folding further sightings into an aggregate never lowers a miner's
    [last_attest]. The other fields of a record are those of the first
    sighting folded. *)
Theorem aggregate_order_independent (node_miners node_miners' : list (string * list dict))
    (aggregate : gmap string MinerRecord.t) :
  sightings node_miners ≡ₚ sightings node_miners' ->
  _aggregate_miners node_miners = Ok aggregate ->
  (exists aggregate',
     _aggregate_miners node_miners' = Ok aggregate'
     /\ forall m,
          match aggregate !! m, aggregate' !! m with
          | Some r, Some r' =>
              MinerRecord.last_attest r' = MinerRecord.last_attest r
              /\ is_latest (MinerRecord.last_attest r)
                   (positive_timestamps m (sightings node_miners))
              /\ NoDup (MinerRecord.nodes_seen r) /\ NoDup (MinerRecord.nodes_seen r')
              /\ (forall n, n ∈ MinerRecord.nodes_seen r
                            <-> reported_by m (sightings node_miners) n)
              /\ MinerRecord.nodes_seen r' ≡ₚ MinerRecord.nodes_seen r
          | None, None => True
          | _, _ => False
          end)
  /\ (forall more later m r,
        aggregate_nodes aggregate more = Ok later ->
        aggregate !! m = Some r ->
        exists r', later !! m = Some r'
                   /\ opt_le (MinerRecord.last_attest r) (MinerRecord.last_attest r')).
Proof.
  unfold _aggregate_miners. rewrite !aggregate_nodes_sightings.
  intros Hperm Hagg. split.
  - assert (Hfold : Forall foldable (sightings node_miners')).
    { rewrite <- Hperm. apply (aggregate_sightings_ok ∅). eauto. }
    apply (aggregate_sightings_ok ∅) in Hfold. destruct Hfold as [agg' Hagg'].
    exists agg'. split; [exact Hagg' |]. intros m.
    pose proof (aggregate_sightings_of _ _ Hagg m) as Hinv.
    pose proof (aggregate_sightings_of _ _ Hagg' m) as Hinv'.
    destruct (aggregate !! m) as [r |] eqn:Hr, (agg' !! m) as [r' |] eqn:Hr'.
    + destruct Hinv as (_ & _ & Hnd & Hmem & Hlat).
      destruct Hinv' as (_ & _ & Hnd' & Hmem' & Hlat').
      split; [| split; [exact Hlat | split; [exact Hnd | split; [exact Hnd' | split;
        [exact Hmem |]]]]].
      * eapply is_latest_unique; [| exact Hlat].
        eapply is_latest_Permutation; [| exact Hlat'].
        symmetry. apply positive_timestamps_Permutation, Hperm.
      * apply NoDup_Permutation; try assumption.
        intros n. rewrite Hmem, Hmem'. symmetry. apply reported_by_Permutation, Hperm.
    + destruct (aggregate_sightings_reported _ _ _ _ Hagg Hr) as [n Hn].
      destruct Hinv as (_ & Hne & _). destruct Hinv' as [-> | Hno]; [congruence |].
      apply (Hno n). apply (reported_by_Permutation _ _ _ _ Hperm). exact Hn.
    + destruct (aggregate_sightings_reported _ _ _ _ Hagg' Hr') as [n Hn].
      destruct Hinv' as (_ & Hne & _). destruct Hinv as [-> | Hno]; [congruence |].
      apply (Hno n). apply (reported_by_Permutation _ _ _ _ Hperm). exact Hn.
    + exact I.
  - intros more later m r Hmore Hm. rewrite aggregate_nodes_sightings in Hmore.
    eapply aggregate_sightings_monotone; eassumption.
Qed.

Lemma aggregate_order_independent_witness :
  exists aggregate',
    _aggregate_miners
      [("https://b", [[("miner", JStr "m1"); ("last_attest", JInt 200)]]);
       ("https://a", [[("miner", JStr "m1"); ("last_attest", JInt 100)]])]
    = Ok aggregate'.
Proof.
  pose (nm := [("https://a", [[("miner", JStr "m1"); ("last_attest", JInt 100)]]);
               ("https://b", [[("miner", JStr "m1"); ("last_attest", JInt 200)]])]).
  destruct (_aggregate_miners nm) as [agg | e] eqn:Hagg; [| vm_compute in Hagg; discriminate].
  refine (match proj1 (aggregate_order_independent nm _ agg _ Hagg) with
          | ex_intro _ agg' (conj H _) => ex_intro _ agg' H
          end).
  simpl. apply perm_swap.
Defined.

(** C1 as stated fails: the same two sightings of one miner, folded in the
    two orders of the nodes, give records that differ (in the descriptive
    fields and in the order of [nodes_seen]). *)
Lemma aggregate_record_depends_on_order :
  let by_a := [("miner", JStr "m1"); ("last_attest", JInt 100); ("device_family", JStr "x86")] in
  let by_b := [("miner", JStr "m1"); ("last_attest", JInt 200); ("device_family", JStr "arm")] in
  let record_of nm :=
    match _aggregate_miners nm with
    | Ok aggregate => aggregate !! "m1"
    | Raise _ => None
    end in
  sightings [("https://a", [by_a]); ("https://b", [by_b])]
    ≡ₚ sightings [("https://b", [by_b]); ("https://a", [by_a])]
  /\ record_of [("https://a", [by_a]); ("https://b", [by_b])]
     = Some (MinerRecord.mk "m1" (Some 200) JNull (JStr "x86") JNull JNull JNull JNull
               ["https://a"; "https://b"])
  /\ record_of [("https://b", [by_b]); ("https://a", [by_a])]
     = Some (MinerRecord.mk "m1" (Some 200) JNull (JStr "arm") JNull JNull JNull JNull
               ["https://b"; "https://a"])
  /\ record_of [("https://a", [by_a]); ("https://b", [by_b])]
     <> record_of [("https://b", [by_b]); ("https://a", [by_a])].
Proof.
  cbv zeta. split; [simpl; apply perm_swap |].
  split; [vm_compute; reflexivity |].
  split; [vm_compute; reflexivity |].
  vm_compute. intros H. discriminate H.
Qed.

(* ===================================================================== *)
(** * Properties of the node scan *)
(* ===================================================================== *)

Section ScanProperties.

Variable bracketed_host_ok : string -> bool.
Variable World : Type.
Variable http_get : string -> World -> Response * World.

Lemma node_row_online (seed : string) (network_version : JSON) (registry : dict)
    (key node_url : string) (health_payload : JSON)
    (health_err miners_err : option string) :
  NodeRow.online
    (fst (node_row seed network_version registry key node_url
            health_payload health_err miners_err))
  = node_online health_payload health_err.
Proof.
  unfold node_row.
  destruct health_payload; simpl;
    destruct (classify_node_host _ _ _ _); reflexivity.
Qed.

End ScanProperties.

(** C6 as stated fails: a [/health] that answers a JSON array is a fetch
    that returned JSON with no error, and the node is not online, in the
    scan loop and so in a run. *)
Lemma node_offline_on_json_array :
  let http_get := fun (_ : string) (w : unit) => (RJson (JList []), w) in
  fetch_json (fun _ => true) unit http_get "https://node.example" "/health" tt
  = Ok ((JList [], None), tt)
  /\ match scan_nodes (fun _ => true) unit http_get "https://seed.example" (JStr "") ∅
             ["https://node.example"] [] [] [] tt with
     | Ok ([row], _, _, _) =>
         NodeRow.url row = "https://node.example"
         /\ NodeRow.health_error row = None
         /\ NodeRow.online row = false
     | _ => False
     end
  /\ match build_report (fun _ => true) unit http_get "https://node.example" [] tt with
     | Ok (scan, _) =>
         Scan.node_urls scan = ["https://node.example"]
         /\ match Scan.node_rows scan with
            | [row] =>
                NodeRow.url row = "https://node.example"
                /\ NodeRow.health_error row = None
                /\ NodeRow.online row = false
            | _ => False
            end
     | Raise _ => False
     end.
Proof.
  cbv zeta. split; [reflexivity |]. split; vm_compute; repeat split.
Qed.

(** C2 fails on a registry row whose [url] is [null]: the row is neither
    queried ([r.get("url")] is false) nor given a row of its own (the text
    of [None] normalizes to a non-empty URL), so the report lists the seed
    only. *)
Lemma registry_row_with_null_url_is_dropped :
  let registry := JDict [("nodes", JList [JDict [("node_id", JStr "n1"); ("url", JNull)]])] in
  let http_get := fun (url : string) (w : unit) =>
    if String.eqb url "https://50.28.86.131/api/nodes"
    then (RJson registry, w) else (RFail "timeout", w) in
  match build_report (fun _ => true) unit http_get "https://50.28.86.131" [] tt with
  | Ok (scan, _) =>
      Scan.registry_rows scan = [[("node_id", JStr "n1"); ("url", JNull)]]
      /\ Scan.node_urls scan = ["https://50.28.86.131"]
      /\ map NodeRow.url (Scan.node_rows scan) = ["https://50.28.86.131"]
      /\ map NodeRow.suggested_action (Scan.node_rows scan) = ["investigate_offline"]
  | Raise _ => False
  end.
Proof. vm_compute. repeat split. Qed.

(** The same registry row with an empty or absent [url] gets its row. *)
Example registry_row_with_empty_url_is_listed :
  let registry := JDict [("nodes", JList [JDict [("node_id", JStr "n1"); ("url", JStr "")];
                                          JDict [("node_id", JStr "n2")]])] in
  let http_get := fun (url : string) (w : unit) =>
    if String.eqb url "https://50.28.86.131/api/nodes"
    then (RJson registry, w) else (RFail "timeout", w) in
  match build_report (fun _ => true) unit http_get "https://50.28.86.131" [] tt with
  | Ok (scan, _) =>
      map NodeRow.node_id (Scan.node_rows scan)
      = [JStr "50.28.86.131:443"; JStr "n1"; JStr "n2"]
      /\ map NodeRow.suggested_action (Scan.node_rows scan)
         = ["investigate_offline"; "missing_url_or_redacted"; "missing_url_or_redacted"]
  | Raise _ => False
  end.
Proof. vm_compute. repeat split. Qed.

(* ===================================================================== *)
(** * Properties of the reconciler *)
(* ===================================================================== *)

Section ReconcilerProperties.
Import PyStr UrlLib.

Variable bracketed_host_ok : string -> bool.

#[local] Abbreviation normalize := (normalize_base_url bracketed_host_ok).
#[local] Abbreviation identity := (node_identity bracketed_host_ok).

Lemma int_of_str_raises (s : string) (e : exn) :
  int_of_str s = Raise e -> e = ValueError.
Proof.
  unfold int_of_str.
  match goal with
  | |- context [let '(_, _) := ?x in _] => destruct x as [neg body]
  end.
  destruct (int_digits false body) as [ds |]; [| congruence].
  destruct (Nat.leb _ _); congruence.
Qed.

(** [_checknetloc] raises nothing but [ValueError], and nothing on a
    network location without slash: below U+0100 the normal form of a
    character holds a delimiter only when the character is one. *)
Lemma checknetloc_raises (n : string) (e : exn) :
  _checknetloc n = Raise e -> e = ValueError.
Proof.
  unfold _checknetloc. destruct (_ || _)%bool; [discriminate |].
  destruct (bool_decide _); [discriminate |].
  destruct (existsb _ _); congruence.
Qed.

Lemma nfkc_delimiter (c : ascii) :
  forallb
    (fun d => implb (bool_decide (d ∈ nfkc c))
                (is_delim c || is_char "@" c || is_char ":" c))
    netloc_delimiters
  = true.
Proof.
  destruct c as [b0 b1 b2 b3 b4 b5 b6 b7].
  destruct b0, b1, b2, b3, b4, b5, b6, b7; vm_compute; reflexivity.
Qed.

Lemma nfkc_points_clean (s : string) (d : Z) :
  all_chars (fun c => negb (is_delim c || is_char "@" c || is_char ":" c)) s = true ->
  In d netloc_delimiters -> d ∉ nfkc_points s.
Proof.
  intros Hs Hd. induction s as [| c s IH]; simpl in *.
  - apply not_elem_of_nil.
  - apply andb_true_iff in Hs. destruct Hs as [Hc Hs].
    apply negb_true_iff in Hc.
    rewrite elem_of_app. intros [Hin | Hin]; [| exact (IH Hs Hin)].
    pose proof (nfkc_delimiter c) as Hall.
    rewrite forallb_forall in Hall. specialize (Hall d Hd).
    rewrite (bool_decide_eq_true_2 _ Hin), Hc in Hall. discriminate.
Qed.

Lemma checknetloc_ok (netloc : string) :
  mem_char "/" netloc = false -> _checknetloc netloc = Ok tt.
Proof.
  intros Hslash. unfold _checknetloc.
  destruct (_ || _)%bool; [reflexivity |].
  destruct (bool_decide _); [reflexivity |].
  match goal with
  | |- (if ?b then _ else _) = _ => destruct b eqn:Hex; [| reflexivity]
  end.
  exfalso. apply existsb_exists in Hex. destruct Hex as (d & Hd & Hin).
  apply bool_decide_eq_true in Hin. revert Hin.
  apply nfkc_points_clean; [| exact Hd].
  clear -Hslash. unfold mem_char in Hslash.
  induction netloc as [| c s IH]; simpl in *; [reflexivity |].
  apply orb_false_iff in Hslash. destruct Hslash as [Hc Hs].
  unfold is_delim.
  destruct (is_char "@" c) eqn:Hat; simpl; [exact (IH Hs) |].
  destruct (is_char ":" c) eqn:Hcolon; simpl; [exact (IH Hs) |].
  destruct (is_char "#" c) eqn:Hhash; simpl; [exact (IH Hs) |].
  destruct (is_char "?" c) eqn:Hq; simpl; [exact (IH Hs) |].
  unfold is_delim. rewrite Hc, Hat, Hcolon, Hhash, Hq. simpl. exact (IH Hs).
Qed.

(** URL parsing raises nothing but [ValueError]. *)
Lemma check_bracketed_netloc_raises (n : string) (e : exn) :
  _check_bracketed_netloc bracketed_host_ok n = Raise e -> e = ValueError.
Proof.
  unfold _check_bracketed_netloc.
  destruct (rpartition "@" n) as [[? ?] hp].
  destruct (partition "[" hp) as [[bb [|]] br].
  - destruct (truthy bb); [congruence |].
    destruct (partition "]" br) as [[h ?] p].
    destruct (truthy p && negb (String.prefix ":" p))%bool; [congruence |].
    destruct (bracketed_host_ok h); congruence.
  - destruct (partition ":" hp) as [[h ?] ?].
    destruct (bracketed_host_ok h); congruence.
Qed.

Lemma urlsplit_raises (url : string) (e : exn) :
  urlsplit bracketed_host_ok url = Raise e -> e = ValueError.
Proof.
  unfold urlsplit.
  match goal with
  | |- context [let '(_, _) := ?x in _] => destruct x as [s u]
  end.
  destruct (String.prefix "//" u).
  - destruct (_splitnetloc2 u) as [nl rest].
    destruct (_ || _)%bool; simpl; [congruence |].
    destruct (_ && _)%bool; simpl.
    + destruct (_check_bracketed_netloc bracketed_host_ok nl) eqn:Hc; simpl.
      * destruct (break (is_char "#") rest) as [? [|? ?]];
          destruct (break (is_char "?") _) as [? [|? ?]];
          destruct (_checknetloc nl) eqn:Hn; simpl; try discriminate;
          intros [= <-]; eapply checknetloc_raises; eassumption.
      * intros [= <-]. eapply check_bracketed_netloc_raises; eassumption.
    + destruct (break (is_char "#") rest) as [? [|? ?]];
        destruct (break (is_char "?") _) as [? [|? ?]];
        destruct (_checknetloc nl) eqn:Hn; simpl; try discriminate;
        intros [= <-]; eapply checknetloc_raises; eassumption.
  - simpl. destruct (break (is_char "#") u) as [? [|? ?]];
      destruct (break (is_char "?") _) as [? [|? ?]]; discriminate.
Qed.

Lemma urlparse_raises (url : string) (e : exn) :
  urlparse bracketed_host_ok url = Raise e -> e = ValueError.
Proof.
  unfold urlparse.
  destruct (urlsplit bracketed_host_ok url) as [r | e'] eqn:Hs; simpl.
  - destruct (_ && _)%bool; [destruct (_splitparams _) |]; discriminate.
  - intros [= <-]. eapply urlsplit_raises; eassumption.
Qed.

Lemma normalize_base_url_raises (raw : string) (e : exn) :
  normalize raw = Raise e -> e = ValueError.
Proof.
  unfold normalize_base_url.
  destruct (negb (truthy (strip raw))); [discriminate |].
  match goal with
  | |- context [urlparse _ ?t] => destruct (urlparse bracketed_host_ok t) eqn:Hp
  end; simpl; [discriminate |].
  intros [= <-]. eapply urlparse_raises; eassumption.
Qed.

Lemma node_identity_raises (url : string) (e : exn) :
  identity url = Raise e -> e = ValueError.
Proof.
  unfold node_identity.
  destruct (urlparse bracketed_host_ok url) as [p | e'] eqn:Hp; simpl.
  - unfold port. destruct (snd (_hostinfo (netloc p))) as [pt |]; simpl; [| discriminate].
    destruct (all_chars is_ascii_digit pt); simpl; [| congruence].
    destruct (int_of_str pt) as [n | e'] eqn:Hint; simpl.
    + destruct (_ <=? _); simpl; congruence.
    + intros [= <-]. eapply int_of_str_raises; eassumption.
  - intros [= <-]. eapply urlparse_raises; eassumption.
Qed.

Lemma normalize_each_raises (urls : list string) (e : exn) :
  normalize_each bracketed_host_ok urls = Raise e -> e = ValueError.
Proof.
  induction urls as [| u urls IH]; simpl; [discriminate |].
  destruct (normalize u) eqn:Hn; simpl.
  - destruct (normalize_each bracketed_host_ok urls); simpl; [discriminate |].
    intros [= <-]. apply IH. reflexivity.
  - intros [= <-]. eapply normalize_base_url_raises; eassumption.
Qed.

Lemma with_identity_raises (urls : list string) (e : exn) :
  with_identity bracketed_host_ok urls = Raise e -> e = ValueError.
Proof.
  induction urls as [| u urls IH]; simpl; [discriminate |].
  destruct (identity u) eqn:Hn; simpl.
  - destruct (with_identity bracketed_host_ok urls); simpl; [discriminate |].
    intros [= <-]. apply IH. reflexivity.
  - intros [= <-]. eapply node_identity_raises; eassumption.
Qed.

Lemma drop_empties_cons (n : string) (ns : list string) :
  drop_empties (n :: ns) = if truthy n then n :: drop_empties ns else drop_empties ns.
Proof.
  unfold drop_empties. rewrite filter_cons.
  destruct (decide (n <> "")) as [Hne | He]; destruct n; simpl; try reflexivity.
  - destruct Hne. reflexivity.
  - destruct He. discriminate.
Qed.

(** The loop of [_dedupe_preserve], from any state, does what the three
    steps of the specification do to the values left. *)
Lemma dedupe_loop_spec (values out : list string) (seen : gset string)
    (earlier : list string) :
  (forall k, k ∈ seen <-> k ∈ earlier) ->
  dedupe_loop bracketed_host_ok values out seen
  = (normalized ← normalize_each bracketed_host_ok values;
     keyed ← with_identity bracketed_host_ok (drop_empties normalized);
     Ok (out ++ map snd (keep_first earlier keyed))%list).
Proof.
  revert out seen earlier.
  induction values as [| v values IH]; intros out seen earlier Hseen; simpl.
  - rewrite app_nil_r. reflexivity.
  - destruct (normalize v) as [n | e] eqn:Hn; simpl; [| reflexivity].
    destruct (truthy n) eqn:Ht; simpl.
    + destruct (identity n) as [k | e] eqn:Hk; simpl.
      * destruct (bool_decide (k ∈ seen)) eqn:Hin.
        -- rewrite (IH out seen earlier Hseen).
           destruct (normalize_each bracketed_host_ok values) as [ns |]; simpl;
             [| reflexivity].
           rewrite drop_empties_cons, Ht. simpl. rewrite Hk. simpl.
           destruct (with_identity bracketed_host_ok (drop_empties ns)); simpl;
             [| reflexivity].
           apply bool_decide_eq_true in Hin. apply Hseen in Hin.
           rewrite (bool_decide_eq_true_2 _ Hin). reflexivity.
        -- rewrite (IH (out ++ [n])%list ({[k]} ∪ seen) (k :: earlier)).
           2: { intros k'. rewrite elem_of_union, elem_of_singleton, elem_of_cons, Hseen.
                reflexivity. }
           destruct (normalize_each bracketed_host_ok values) as [ns |]; simpl;
             [| reflexivity].
           rewrite drop_empties_cons, Ht. simpl. rewrite Hk. simpl.
           destruct (with_identity bracketed_host_ok (drop_empties ns)); simpl;
             [| reflexivity].
           apply bool_decide_eq_false in Hin. rewrite Hseen in Hin.
           rewrite (bool_decide_eq_false_2 _ Hin). simpl.
           rewrite <- app_assoc. reflexivity.
      * pose proof (node_identity_raises _ _ Hk) as ->.
        destruct (normalize_each bracketed_host_ok values) as [ns | e'] eqn:Hns; simpl.
        -- rewrite drop_empties_cons, Ht. simpl. rewrite Hk. reflexivity.
        -- apply normalize_each_raises in Hns as ->. reflexivity.
    + rewrite (IH out seen earlier Hseen).
      destruct (normalize_each bracketed_host_ok values) as [ns |]; simpl;
        [| reflexivity].
      rewrite drop_empties_cons, Ht. reflexivity.
Qed.

Lemma keep_first_sublist (earlier : list string) (keyed : list (string * string)) :
  keep_first earlier keyed `sublist_of` keyed.
Proof.
  revert earlier. induction keyed as [| [k u] keyed IH]; intros earlier; simpl.
  - constructor.
  - destruct (bool_decide (k ∈ earlier)).
    + apply sublist_cons, IH.
    + apply sublist_skip, IH.
Qed.

Lemma keep_first_keys (earlier : list string) (keyed : list (string * string)) :
  NoDup (map fst (keep_first earlier keyed))
  /\ forall k, k ∈ map fst (keep_first earlier keyed) -> k ∉ earlier.
Proof.
  revert earlier. induction keyed as [| [k u] keyed IH]; intros earlier; simpl.
  - split; [constructor |]. intros k Hk. apply elem_of_nil in Hk. destruct Hk.
  - destruct (bool_decide (k ∈ earlier)) eqn:Hin; [apply IH |].
    apply bool_decide_eq_false in Hin.
    destruct (IH (k :: earlier)) as [Hnd Hout]. simpl. split.
    + constructor; [| exact Hnd].
      intros Hk. apply Hout in Hk. apply Hk. left.
    + intros k' Hk'. apply elem_of_cons in Hk'. destruct Hk' as [-> | Hk']; [exact Hin |].
      apply Hout in Hk'. intros H. apply Hk'. right. exact H.
Qed.


Lemma with_identity_spec (urls : list string) (keyed : list (string * string)) :
  with_identity bracketed_host_ok urls = Ok keyed ->
  map snd keyed = urls /\ Forall (fun p => identity (snd p) = Ok (fst p)) keyed.
Proof.
  revert keyed. induction urls as [| u urls IH]; intros keyed; simpl.
  - intros [= <-]. split; constructor.
  - destruct (identity u) as [k |] eqn:Hk; simpl; [| discriminate].
    destruct (with_identity bracketed_host_ok urls) as [keyed' |]; simpl; [| discriminate].
    intros [= <-]. destruct (IH keyed' eq_refl) as [Hs Hf]. simpl. split.
    + rewrite Hs. reflexivity.
    + constructor; assumption.
Qed.

Lemma rstrip_by_idem (p : ascii -> bool) (s : string) :
  rstrip_by p (rstrip_by p s) = rstrip_by p s.
Proof.
  induction s as [| c s IH]; simpl; [reflexivity |].
  destruct (rstrip_by p s) as [| c' r] eqn:E.
  - destruct (p c) eqn:Hc; simpl; [reflexivity |]. rewrite Hc. reflexivity.
  - simpl in *. rewrite IH. reflexivity.
Qed.

Lemma strip_idem (s : string) : strip (strip s) = strip s.
Proof.
  unfold strip.
  assert (Hhead : lstrip_by is_space s = ""
                  \/ exists c t, lstrip_by is_space s = String c t /\ is_space c = false).
  { induction s as [| c s IH]; simpl; [auto |].
    destruct (is_space c) eqn:Hc; [exact IH |]. right. eauto. }
  destruct Hhead as [-> | (c & t & -> & Hc)]; [reflexivity |].
  assert (Hr : exists r, rstrip_by is_space (String c t) = String c r).
  { simpl. destruct (rstrip_by is_space t); rewrite ?Hc; eauto. }
  destruct Hr as [r Hr].
  assert (Hl : lstrip_by is_space (rstrip_by is_space (String c t))
               = rstrip_by is_space (String c t)).
  { rewrite Hr. simpl. rewrite Hc. reflexivity. }
  rewrite Hl. apply rstrip_by_idem.
Qed.

Lemma normalize_strip (s : string) : normalize (strip s) = normalize s.
Proof. unfold normalize_base_url. rewrite strip_idem. reflexivity. Qed.




End ReconcilerProperties.


Example reconcile_example :
  reconcile (fun _ => true) "https://50.28.86.131"
    [[("url", JStr "https://50.28.86.131:443/"); ("node_id", JStr "n0")];
     [("url", JStr " http://a.example:8080/x ")];
     [("url", JStr "HTTP://A.EXAMPLE:8080")]]
    ["a.example"; "  "; "https://A.example/"]
  = Ok ["https://50.28.86.131"; "http://a.example:8080"; "https://a.example"].
Proof. vm_compute. reflexivity. Qed.

(* ===================================================================== *)
(** * Properties of the Python string primitives *)
(* ===================================================================== *)

Section StringLemmas.
Import PyStr.

#[local] Arguments String.append : simpl nomatch.

Lemma append_nil_r (s : string) : s ++ "" = s.
Proof. induction s as [| c s IH]; cbn; [reflexivity | f_equal; exact IH]. Qed.

Lemma append_assoc (a b c : string) : (a ++ b) ++ c = a ++ b ++ c.
Proof. induction a as [| x a IH]; cbn; [reflexivity | f_equal; exact IH]. Qed.

Lemma append_nonempty_r (a b : string) : b <> "" -> a ++ b <> "".
Proof. destruct a; simpl; [auto | discriminate]. Qed.

Lemma all_chars_app (p : ascii -> bool) (a b : string) :
  all_chars p (a ++ b) = (all_chars p a && all_chars p b)%bool.
Proof.
  induction a as [| c a IH]; simpl; [reflexivity |].
  rewrite IH, andb_assoc. reflexivity.
Qed.

Lemma all_chars_impl (p q : ascii -> bool) (s : string) :
  (forall c, p c = true -> q c = true) -> all_chars p s = true -> all_chars q s = true.
Proof.
  intros Hpq. induction s as [| c s IH]; simpl; [reflexivity |].
  intros H. apply andb_true_iff in H. destruct H as [Hc Hs].
  rewrite (Hpq c Hc), (IH Hs). reflexivity.
Qed.

Lemma has_char_app (p : ascii -> bool) (a b : string) :
  has_char p (a ++ b) = (has_char p a || has_char p b)%bool.
Proof.
  induction a as [| c a IH]; simpl; [reflexivity |].
  rewrite IH, orb_assoc. reflexivity.
Qed.

Lemma has_char_none (p : ascii -> bool) (s : string) :
  all_chars (fun c => negb (p c)) s = true -> has_char p s = false.
Proof.
  induction s as [| c s IH]; simpl; [reflexivity |].
  intros H. apply andb_true_iff in H. destruct H as [Hc Hs].
  apply negb_true_iff in Hc. rewrite Hc, (IH Hs). reflexivity.
Qed.

(** Stripping. *)
Lemma lstrip_by_head (p : ascii -> bool) (c : ascii) (s : string) :
  p c = false -> lstrip_by p (String c s) = String c s.
Proof. intros H. simpl. rewrite H. reflexivity. Qed.

Lemma rstrip_by_clean (p : ascii -> bool) (s : string) :
  all_chars (fun c => negb (p c)) s = true -> rstrip_by p s = s.
Proof.
  induction s as [| c s IH]; simpl; [reflexivity |].
  intros H. apply andb_true_iff in H. destruct H as [Hc Hs].
  apply negb_true_iff in Hc. rewrite (IH Hs), Hc. destruct s; reflexivity.
Qed.

(** Trailing characters are stripped up to a clean non-empty stretch. *)
Lemma rstrip_by_app_clean (p : ascii -> bool) (a b : string) :
  a <> "" -> all_chars (fun c => negb (p c)) a = true ->
  rstrip_by p (a ++ b) = a ++ rstrip_by p b.
Proof.
  induction a as [| c a IH]; [congruence |].
  intros _ H. simpl in H. apply andb_true_iff in H. destruct H as [Hc Ha].
  apply negb_true_iff in Hc. simpl.
  destruct a as [| c' a].
  - simpl. destruct (rstrip_by p b); [rewrite Hc |]; reflexivity.
  - rewrite (IH ltac:(discriminate) Ha). simpl. reflexivity.
Qed.

Lemma rstrip_by_suffix_clean (p : ascii -> bool) (a b : string) :
  b <> "" -> all_chars (fun c => negb (p c)) b = true ->
  rstrip_by p (a ++ b) = a ++ b.
Proof.
  intros Hb Hclean. induction a as [| c a IH]; simpl.
  - apply rstrip_by_clean, Hclean.
  - rewrite IH. destruct (a ++ b) eqn:E; [| reflexivity].
    exfalso. eapply append_nonempty_r; eassumption.
Qed.

Lemma rstrip_by_empty_iff (p : ascii -> bool) (s : string) :
  rstrip_by p s = "" <-> all_chars p s = true.
Proof.
  induction s as [| c s IH]; simpl; [tauto |].
  destruct (rstrip_by p s) eqn:E.
  - destruct (p c); simpl; [tauto | split; discriminate].
  - split; [discriminate |]. intros H. apply andb_true_iff in H. destruct H as [_ H].
    apply IH in H. discriminate.
Qed.

(** [s.rstrip()] is a prefix of [s]. *)
Lemma rstrip_by_prefix (p : ascii -> bool) (s : string) :
  exists t, s = rstrip_by p s ++ t.
Proof.
  induction s as [| c s [t IH]]; simpl.
  - exists "". reflexivity.
  - destruct (rstrip_by p s) eqn:E.
    + destruct (p c).
      * exists (String c s). reflexivity.
      * exists s. reflexivity.
    + exists t. simpl. rewrite IH at 1. reflexivity.
Qed.

(** [s.lstrip()] is a suffix of [s]. *)
Lemma lstrip_by_suffix (p : ascii -> bool) (s : string) :
  exists t, s = t ++ lstrip_by p s.
Proof.
  induction s as [| c s [t IH]]; simpl.
  - exists "". reflexivity.
  - destruct (p c).
    + exists (String c t). simpl. rewrite IH at 1. reflexivity.
    + exists "". reflexivity.
Qed.

(** Removing characters. *)
Lemma remove_chars_app (p : ascii -> bool) (a b : string) :
  remove_chars p (a ++ b) = remove_chars p a ++ remove_chars p b.
Proof.
  induction a as [| c a IH]; simpl; [reflexivity |].
  destruct (p c); rewrite IH; reflexivity.
Qed.

Lemma remove_chars_clean (p : ascii -> bool) (s : string) :
  all_chars (fun c => negb (p c)) s = true -> remove_chars p s = s.
Proof.
  induction s as [| c s IH]; simpl; [reflexivity |].
  intros H. apply andb_true_iff in H. destruct H as [Hc Hs].
  apply negb_true_iff in Hc. rewrite Hc, (IH Hs). reflexivity.
Qed.



Lemma break_clean (p : ascii -> bool) (s : string) :
  all_chars (fun c => negb (p c)) s = true -> break p s = (s, "").
Proof.
  induction s as [| c s IH]; simpl; [reflexivity |].
  intros H. apply andb_true_iff in H. destruct H as [Hc Hs].
  apply negb_true_iff in Hc. rewrite Hc, (IH Hs). reflexivity.
Qed.

Lemma break_at (p : ascii -> bool) (a : string) (c : ascii) (b : string) :
  all_chars (fun c => negb (p c)) a = true -> p c = true ->
  break p (a ++ String c b) = (a, String c b).
Proof.
  intros Ha Hc. induction a as [| x a IH]; simpl.
  - rewrite Hc. reflexivity.
  - simpl in Ha. apply andb_true_iff in Ha. destruct Ha as [Hx Ha].
    apply negb_true_iff in Hx. rewrite Hx, (IH Ha). reflexivity.
Qed.






(** Substrings. *)
Lemma prefix_app (sub b : string) : String.prefix sub (sub ++ b) = true.
Proof.
  induction sub as [| c sub IH]; simpl; [destruct b; reflexivity |].
  destruct (ascii_dec c c); [exact IH | congruence].
Qed.


Lemma contains_prefix (sub s : string) :
  String.prefix sub s = true -> contains sub s = true.
Proof.
  destruct s; simpl; [auto |]. intros H. rewrite H. reflexivity.
Qed.

Lemma contains_at (sub a b : string) : contains sub (a ++ sub ++ b) = true.
Proof.
  induction a as [| c a IH]; simpl.
  - apply contains_prefix, prefix_app.
  - rewrite IH. apply orb_true_r.
Qed.


Lemma contains_app_r (sub t a : string) :
  contains sub a = true -> contains sub (t ++ a) = true.
Proof.
  intros H. induction t as [| c t IH]; simpl; [exact H |].
  rewrite IH. apply orb_true_r.
Qed.

Lemma lower_app (a b : string) : lower (a ++ b) = lower a ++ lower b.
Proof. induction a as [| c a IH]; simpl; [reflexivity | rewrite IH; reflexivity]. Qed.

Lemma lower_char_idem (c : ascii) : lower_char (lower_char c) = lower_char c.
Proof.
  destruct c as [[] [] [] [] [] [] [] []]; reflexivity.
Qed.

Lemma lower_idem (s : string) : lower (lower s) = lower s.
Proof.
  induction s as [| c s IH]; simpl; [reflexivity |].
  rewrite lower_char_idem, IH. reflexivity.
Qed.


End StringLemmas.

(* ===================================================================== *)
(** * Properties of the URL normalizer and the identity resolver *)
(* ===================================================================== *)

Section UrlProperties.
Import PyStr UrlLib.

#[local] Arguments String.append : simpl nomatch.

Variable bracketed_host_ok : string -> bool.

#[local] Abbreviation normalize := (normalize_base_url bracketed_host_ok).
#[local] Abbreviation identity := (node_identity bracketed_host_ok).

Ltac each_char c :=
  destruct c as [[] [] [] [] [] [] [] []]; vm_compute; intros; repeat split;
  congruence.

Lemma scheme_char_facts (c : ascii) :
  is_scheme_char c = true ->
  is_char ":" c = false /\ is_unsafe c = false /\ is_space c = false
  /\ is_char "/" c = false /\ is_scheme_char (lower_char c) = true.
Proof. each_char c. Qed.

Lemma alpha_facts (c : ascii) :
  is_ascii_alpha c = true ->
  is_c0_or_space c = false /\ is_space c = false
  /\ is_ascii_alpha (lower_char c) = true.
Proof. each_char c. Qed.

Lemma plain_facts (c : ascii) :
  is_plain c = true ->
  is_delim c = false /\ is_unsafe c = false /\ is_space c = false
  /\ is_c0_or_space c = false /\ is_char "[" c = false /\ is_char "]" c = false
  /\ is_char "/" c = false.
Proof. each_char c. Qed.



Lemma delim_facts (c : ascii) :
  is_delim c = true -> is_unsafe c = false /\ is_space c = false.
Proof. each_char c. Qed.

Lemma all_chars_not (p q : ascii -> bool) (s : string) :
  (forall c, p c = true -> q c = false) ->
  all_chars p s = true -> all_chars (fun c => negb (q c)) s = true.
Proof.
  intros H. apply all_chars_impl. intros c Hc. rewrite (H c Hc). reflexivity.
Qed.

Lemma mem_char_not (p : ascii -> bool) (a : ascii) (s : string) :
  (forall c, p c = true -> is_char a c = false) ->
  all_chars p s = true -> mem_char a s = false.
Proof.
  intros H Hs. unfold mem_char. apply has_char_none.
  eapply all_chars_not; eassumption.
Qed.

Lemma after_authority_remove (rest : string) :
  after_authority rest -> after_authority (remove_chars is_unsafe rest).
Proof.
  destruct rest as [| d r]; simpl; [auto |]. intros Hd.
  destruct (delim_facts d Hd) as [Hu _]. rewrite Hu. simpl. exact Hd.
Qed.

Lemma after_authority_rstrip (rest : string) :
  after_authority rest -> after_authority (rstrip_by is_space rest).
Proof.
  destruct rest as [| d r]; simpl; [auto |]. intros Hd.
  destruct (delim_facts d Hd) as [_ Hs]. rewrite Hs.
  destruct (rstrip_by is_space r); simpl; exact Hd.
Qed.

Lemma valid_scheme_lower (s : string) : valid_scheme s -> valid_scheme (lower s).
Proof.
  destruct s as [| c0 s]; simpl; [auto |]. intros [Ha Hs].
  apply andb_true_iff in Hs. destruct Hs as [Hc Hs].
  destruct (alpha_facts c0 Ha) as (_ & _ & Hl). split; [exact Hl |].
  destruct (scheme_char_facts c0 Hc) as (_ & _ & _ & _ & Hlc). rewrite Hlc. simpl.
  clear -Hs. induction s as [| c s IH]; simpl in *; [reflexivity |].
  apply andb_true_iff in Hs. destruct Hs as [Hc Hs].
  destruct (scheme_char_facts c Hc) as (_ & _ & _ & _ & Hlc). rewrite Hlc, (IH Hs).
  reflexivity.
Qed.

(** [urlsplit] on a URL with a scheme and a plain authority. *)
Lemma urlsplit_wellformed (s a rest : string) :
  valid_scheme s -> plain_authority a -> after_authority rest ->
  exists pth q f,
    urlsplit bracketed_host_ok (s ++ "://" ++ a ++ rest)
    = Ok (mkParse (lower s) a pth "" q f).
Proof.
  intros Hs [Hne Ha] Hrest.
  destruct s as [| c0 s']; [destruct Hs |]. destruct Hs as [Halpha Hscheme].
  unfold urlsplit.
  (* no leading control character or space *)
  destruct (alpha_facts c0 Halpha) as (Hc0 & _ & _).
  replace (lstrip_by is_c0_or_space (String c0 s' ++ "://" ++ a ++ rest))
    with (String c0 s' ++ "://" ++ a ++ rest)
    by (simpl; rewrite Hc0; reflexivity).
  (* tabs and line breaks occur in the rest only *)
  rewrite !remove_chars_app.
  rewrite (remove_chars_clean is_unsafe (String c0 s'))
    by (eapply all_chars_not; [| exact Hscheme];
        intros c Hc; apply (scheme_char_facts c Hc)).
  rewrite (remove_chars_clean is_unsafe "://") by reflexivity.
  rewrite (remove_chars_clean is_unsafe a)
    by (eapply all_chars_not; [| exact Ha]; intros c Hc; apply (plain_facts c Hc)).
  pose proof (after_authority_remove rest Hrest) as Hrest'.
  set (rest' := remove_chars is_unsafe rest) in *.
  (* the scheme ends at the first colon *)
  change ("://" ++ a ++ rest') with (String ":" ("//" ++ a ++ rest')).
  rewrite (break_at (is_char ":") (String c0 s') ":" ("//" ++ a ++ rest'))
    by first [ reflexivity
             | eapply all_chars_not; [| exact Hscheme];
               intros c Hc; apply (scheme_char_facts c Hc) ].
  rewrite Halpha, Hscheme. cbn [andb].
  (* the authority ends at the first delimiter *)
  rewrite (prefix_app "//" (a ++ rest')).
  unfold _splitnetloc2. change (drop 2 ("//" ++ a ++ rest')) with (a ++ rest').
  assert (Hbreak : break is_delim (a ++ rest') = (a, rest')).
  { assert (Hclean : all_chars (fun c => negb (is_delim c)) a = true)
      by (eapply all_chars_not; [| exact Ha]; intros c Hc; apply (plain_facts c Hc)).
    destruct rest' as [| d r].
    - rewrite append_nil_r. apply break_clean, Hclean.
    - apply break_at; assumption. }
  rewrite Hbreak.
  assert (Hopen : mem_char "[" a = false)
    by (eapply mem_char_not; [| exact Ha]; intros c Hc; apply (plain_facts c Hc)).
  assert (Hclose : mem_char "]" a = false)
    by (eapply mem_char_not; [| exact Ha]; intros c Hc; apply (plain_facts c Hc)).
  rewrite Hopen, Hclose. cbn [andb orb negb]. cbn [mbind result_bind].
  assert (Hcheck : _checknetloc a = Ok tt).
  { apply checknetloc_ok.
    eapply mem_char_not; [| exact Ha]. intros c Hc. apply (plain_facts c Hc). }
  destruct (break (is_char "#") rest') as [u [| ? fr]];
    destruct (break (is_char "?") u) as [pth [| ? q]]; rewrite Hcheck; eauto.
Qed.

Lemma urlparse_wellformed (s a rest : string) :
  valid_scheme s -> plain_authority a -> after_authority rest ->
  exists p,
    urlparse bracketed_host_ok (s ++ "://" ++ a ++ rest) = Ok p
    /\ scheme p = lower s /\ netloc p = a.
Proof.
  intros Hs Ha Hrest.
  destruct (urlsplit_wellformed s a rest Hs Ha Hrest) as (pth & q & f & Hsplit).
  unfold urlparse. rewrite Hsplit. cbn [mbind result_bind].
  destruct (_ && _)%bool; [destruct (_splitparams _) |]; eexists; split;
    try reflexivity; split; reflexivity.
Qed.

Lemma plain_authority_nonspace (a : string) :
  plain_authority a -> all_chars (fun c => negb (is_space c)) a = true.
Proof.
  intros [_ Ha]. eapply all_chars_not; [| exact Ha].
  intros c Hc. apply (plain_facts c Hc).
Qed.

Lemma valid_scheme_nonspace (s : string) :
  valid_scheme s -> all_chars (fun c => negb (is_space c)) s = true.
Proof.
  destruct s as [| c0 s']; [intros [] |]. intros [_ Hs].
  eapply all_chars_not; [| exact Hs]. intros c Hc. apply (scheme_char_facts c Hc).
Qed.

(** Normalization of a URL that has a scheme and a plain authority: the
    scheme in lower case and the authority; a path, query or fragment and
    trailing white space are dropped. *)
Lemma normalize_with_scheme (s a rest : string) :
  valid_scheme s -> plain_authority a -> after_authority rest ->
  normalize (s ++ "://" ++ a ++ rest) = Ok (lower s ++ "://" ++ a).
Proof.
  intros Hs Ha Hrest. unfold normalize_base_url.
  assert (Hstrip : strip (s ++ "://" ++ a ++ rest)
                   = s ++ "://" ++ a ++ rstrip_by is_space rest).
  { unfold strip.
    replace (lstrip_by is_space (s ++ "://" ++ a ++ rest))
      with (s ++ "://" ++ a ++ rest).
    2: { destruct s as [| c0 s']; [destruct Hs |]. destruct Hs as [Halpha _].
         destruct (alpha_facts c0 Halpha) as (_ & Hsp & _).
         simpl. rewrite Hsp. reflexivity. }
    rewrite <- (append_assoc "://" a rest), <- (append_assoc s ("://" ++ a) rest).
    rewrite rstrip_by_app_clean.
    - rewrite !append_assoc. reflexivity.
    - destruct s; [destruct Hs | discriminate].
    - rewrite !all_chars_app, (valid_scheme_nonspace s Hs),
        (plain_authority_nonspace a Ha). reflexivity. }
  rewrite Hstrip.
  pose proof (after_authority_rstrip rest Hrest) as Hrest'.
  set (rest' := rstrip_by is_space rest) in *.
  replace (truthy (s ++ "://" ++ a ++ rest')) with true
    by (destruct s; [destruct Hs | reflexivity]).
  rewrite (contains_at "://" s (a ++ rest')). cbn [negb].
  destruct (urlparse_wellformed s a rest' Hs Ha Hrest') as (p & Hp & Hsch & Hnl).
  rewrite Hp. cbn [mbind result_bind]. rewrite Hsch, Hnl.
  replace (truthy (lower s)) with true by (destruct s; [destruct Hs | reflexivity]).
  replace (truthy a) with true by (destruct Ha as [Hne _]; destruct a; [congruence | reflexivity]).
  f_equal. rewrite <- (append_assoc (lower s) "://" a).
  apply rstrip_by_suffix_clean; [apply Ha |].
  destruct Ha as [_ Ha]. eapply all_chars_not; [| exact Ha].
  intros c Hc. apply (plain_facts c Hc).
Qed.















Lemma has_char_lstrip (q p : ascii -> bool) (s : string) :
  has_char q (lstrip_by p s) = true -> has_char q s = true.
Proof.
  intros H. destruct (lstrip_by_suffix p s) as [t Ht].
  rewrite Ht, has_char_app, H. apply orb_true_r.
Qed.

Lemma has_char_rstrip (q p : ascii -> bool) (s : string) :
  has_char q (rstrip_by p s) = true -> has_char q s = true.
Proof.
  intros H. destruct (rstrip_by_prefix p s) as [t Ht].
  rewrite Ht, has_char_app, H. reflexivity.
Qed.







End UrlProperties.


(** Spellings of one node, and what the identity keeps apart. *)
Example node_identity_examples :
  let id raw := u ← normalize_base_url (fun _ => true) raw; node_identity (fun _ => true) u in
  id "HTTPS://Example.COM:443/" = Ok "example.com:443"
  /\ id "https://example.com" = Ok "example.com:443"
  /\ id "example.com" = Ok "example.com:443"
  /\ id "http://example.com:80/" = Ok "example.com:80"
  /\ id "HTTP://example.com" = Ok "example.com:80"
  /\ id "https://example.com:8443" = Ok "example.com:8443"
  /\ id "https://50.28.86.131" = Ok "50.28.86.131:443".
Proof. vm_compute. repeat split. Qed.




(* ===================================================================== *)
(** * Properties of the rows for nodes without URL *)
(* ===================================================================== *)

Section MissingUrlRows.

Variable bracketed_host_ok : string -> bool.

(** The loop after the scan appends one row for each registry row whose
    URL is blank, in registry order, and nothing else: a registry row with
    a URL gets no row there, whether its identity was scanned or not. *)
Lemma missing_url_rows_spec (registry_rows : list dict) (scanned_keys : gset string)
    (node_rows final : list NodeRow.t) :
  missing_url_rows bracketed_host_ok registry_rows scanned_keys node_rows = Ok final ->
  final = (node_rows
           ++ map missing_url_row (List.filter (blank_url bracketed_host_ok) registry_rows))%list.
Proof.
  revert node_rows. induction registry_rows as [| row rows IH]; intros node_rows; simpl.
  - intros [= <-]. rewrite app_nil_r. reflexivity.
  - unfold blank_url at 1.
    destruct (normalize_base_url bracketed_host_ok _) as [raw_url | e]; simpl;
      [| discriminate].
    destruct (PyStr.truthy raw_url) eqn:Hurl; simpl.
    + destruct (node_identity bracketed_host_ok raw_url) as [key | e]; simpl;
        [| discriminate].
      destruct (bool_decide (key ∈ scanned_keys)); apply IH.
    + intros Hrest. rewrite (IH _ Hrest). simpl. rewrite <- app_assoc. reflexivity.
Qed.

End MissingUrlRows.

Section Visibility.
Import PyStr.

Variable bracketed_host_ok : string -> bool.

#[local] Abbreviation normalize := (normalize_base_url bracketed_host_ok).
#[local] Abbreviation identity := (node_identity bracketed_host_ok).

Lemma dict_get_default (k : string) (d : dict) (a b : JSON) :
  dict_get_present k d = true -> Py.dict_get k d a = Py.dict_get k d b.
Proof.
  induction d as [| [k' v] d IH]; simpl; [discriminate |].
  destruct (String.eqb k' k); [reflexivity | exact IH].
Qed.

Lemma dict_get_absent (k : string) (d : dict) (a : JSON) :
  dict_get_present k d = false -> Py.dict_get k d a = a.
Proof.
  induction d as [| [k' v] d IH]; simpl; [reflexivity |].
  destruct (String.eqb k' k); [discriminate | exact IH].
Qed.

Lemma registry_urls_elem (rows : list dict) (row : dict) (s : string) :
  row ∈ rows -> Py.dict_get "url" row (JStr "") = JStr s -> s <> "" ->
  strip s ∈ registry_urls rows.
Proof.
  intros Hin Hs Hne.
  assert (Ht : Py.truthy (Py.dict_get "url" row JNull) = true).
  { destruct (dict_get_present "url" row) eqn:Hp.
    - rewrite (dict_get_default _ _ JNull (JStr "") Hp), Hs.
      destruct s; [congruence | reflexivity].
    - rewrite (dict_get_absent _ _ _ Hp) in Hs. congruence. }
  induction Hin as [row rows | row r rows Hin IH]; simpl.
  - rewrite Ht, Hs. left.
  - destruct (Py.truthy (Py.dict_get "url" r JNull)); [right |]; exact (IH Hs Ht).
Qed.

Lemma normalize_each_elem (urls ns : list string) (x : string) :
  normalize_each bracketed_host_ok urls = Ok ns -> x ∈ urls ->
  exists n, normalize x = Ok n /\ n ∈ ns.
Proof.
  revert ns. induction urls as [| u urls IH]; intros ns Hn Hx.
  - apply elem_of_nil in Hx. destruct Hx.
  - simpl in Hn.
    destruct (normalize u) as [n |] eqn:Hu; simpl in Hn; [| discriminate].
    destruct (normalize_each bracketed_host_ok urls) as [ns' |]; simpl in Hn; [| discriminate].
    injection Hn as <-.
    apply elem_of_cons in Hx. destruct Hx as [-> | Hx].
    + exists n. split; [exact Hu | left].
    + destruct (IH ns' eq_refl Hx) as (n' & Hn' & Hin). exists n'. split; [exact Hn' | right; exact Hin].
Qed.

Lemma drop_empties_elem (ns : list string) (n : string) :
  n ∈ ns -> n <> "" -> n ∈ drop_empties ns.
Proof. intros Hin Hne. unfold drop_empties. apply list_elem_of_filter. split; assumption. Qed.

Lemma with_identity_elem (urls : list string) (keyed : list (string * string)) (u : string) :
  with_identity bracketed_host_ok urls = Ok keyed -> u ∈ urls ->
  exists k, identity u = Ok k /\ (k, u) ∈ keyed.
Proof.
  intros Hk Hu. destruct (with_identity_spec _ _ _ Hk) as [Hs Hf].
  rewrite <- Hs in Hu. apply list_elem_of_fmap in Hu. destruct Hu as ([k u'] & -> & Hin).
  rewrite Forall_forall in Hf. exists k. split; [exact (Hf _ Hin) | exact Hin].
Qed.

(** Every identity of the keyed list is kept, under its first URL. *)
Lemma keep_first_covers (earlier : list string) (keyed : list (string * string))
    (k u : string) :
  (k, u) ∈ keyed -> k ∈ earlier \/ exists u', (k, u') ∈ keep_first earlier keyed.
Proof.
  revert earlier. induction keyed as [| [k0 u0] keyed IH]; intros earlier Hin.
  - apply elem_of_nil in Hin. destruct Hin.
  - simpl. apply elem_of_cons in Hin.
    destruct (bool_decide (k0 ∈ earlier)) eqn:Hk0.
    + apply bool_decide_eq_true in Hk0.
      destruct Hin as [[= -> ->] | Hin]; [left; exact Hk0 | apply IH; exact Hin].
    + destruct Hin as [[= -> ->] | Hin]; [right; exists u0; left |].
      destruct (IH (k0 :: earlier) Hin) as [He | [u' Hu']].
      * apply elem_of_cons in He. destruct He as [-> | He]; [right; exists u0; left | left; exact He].
      * right. exists u'. right. exact Hu'.
Qed.

(** The candidate list: the kept URLs of the keyed, normalized, non-empty
    inputs. *)
Lemma reconcile_keyed (seed : string) (registry_rows : list dict)
    (node_url node_urls : list string) :
  reconcile bracketed_host_ok seed registry_rows node_url = Ok node_urls ->
  exists normalized keyed,
    normalize_each bracketed_host_ok
      ([seed] ++ registry_urls registry_rows ++ node_url) = Ok normalized
    /\ with_identity bracketed_host_ok (drop_empties normalized) = Ok keyed
    /\ node_urls = map snd (keep_first [] keyed).
Proof.
  unfold reconcile, _dedupe_preserve, discovered_urls.
  rewrite (dedupe_loop_spec _ _ [] ∅ []);
    [| intros k; rewrite elem_of_nil; set_solver].
  destruct (normalize_each _ _) as [normalized |]; simpl; [| discriminate].
  destruct (with_identity _ _) as [keyed |] eqn:Hkeyed; simpl; [| discriminate].
  intros [= <-]. exists normalized, keyed. repeat split; assumption.
Qed.

Variable World : Type.
Variable http_get : string -> World -> Response * World.

Lemma node_row_url (seed : string) (network_version : JSON) (registry : dict)
    (key node_url : string) (health_payload : JSON)
    (health_err miners_err : option string) :
  NodeRow.url
    (fst (node_row seed network_version registry key node_url
            health_payload health_err miners_err))
  = node_url.
Proof.
  unfold node_row.
  destruct health_payload; simpl;
    destruct (classify_node_host _ _ _ _); reflexivity.
Qed.

(** The scan appends one row for each candidate URL, in order. *)
Lemma scan_nodes_urls (seed : string) (network_version : JSON)
    (registry_map : gmap string dict) (node_urls : list string)
    (node_rows : list NodeRow.t) (node_miners : list (string * list dict))
    (version_mismatch : list Mismatch.t) (w : World)
    (node_rows' : list NodeRow.t) (node_miners' : list (string * list dict))
    (version_mismatch' : list Mismatch.t) (w' : World) :
  scan_nodes bracketed_host_ok World http_get seed network_version registry_map
    node_urls node_rows node_miners version_mismatch w
  = Ok (node_rows', node_miners', version_mismatch', w') ->
  exists scanned,
    node_rows' = (node_rows ++ scanned)%list /\ map NodeRow.url scanned = node_urls.
Proof.
  revert node_rows node_miners version_mismatch w.
  induction node_urls as [| u urls IH]; intros node_rows node_miners version_mismatch w; simpl.
  - intros [= <- _ _ _]. exists []. rewrite app_nil_r. split; reflexivity.
  - destruct (identity u) as [key |]; simpl; [| discriminate].
    destruct (fetch_json bracketed_host_ok World http_get u "/health" w) as [[[hp he] w1] |];
      simpl; [| discriminate].
    destruct (fetch_json bracketed_host_ok World http_get u "/api/miners" w1) as [[[mp me] w2] |];
      simpl; [| discriminate].
    pose proof (node_row_url seed network_version (default [] (registry_map !! key))
                  key u hp he me) as Hurl.
    destruct (node_row _ _ _ _ _ _ _ _) as [row mismatch]. simpl in Hurl.
    intros Hscan. destruct (IH _ _ _ _ Hscan) as (scanned & -> & Hurls).
    exists (row :: scanned). rewrite <- app_assoc. simpl. rewrite Hurl, Hurls.
    split; reflexivity.
Qed.

(** When the registry map is built, the URL text of every registry row
    has been normalized and keyed. *)
Lemma registry_map_loop_ok (rows : list dict) (mapped mapped' : gmap string dict)
    (row : dict) :
  registry_map_loop bracketed_host_ok rows mapped = Ok mapped' -> row ∈ rows ->
  exists n k,
    normalize (Py.str (Py.dict_get "url" row (JStr ""))) = Ok n /\ identity n = Ok k.
Proof.
  revert mapped. induction rows as [| r rows IH]; intros mapped Hm Hin.
  - apply elem_of_nil in Hin. destruct Hin.
  - simpl in Hm.
    destruct (normalize (Py.str (Py.dict_get "url" r (JStr "")))) as [n |] eqn:Hn;
      simpl in Hm; [| discriminate].
    destruct (identity n) as [k |] eqn:Hk; simpl in Hm; [| discriminate].
    apply elem_of_cons in Hin. destruct Hin as [-> | Hin].
    + exists n, k. split; assumption.
    + exact (IH _ Hm Hin).
Qed.

(** Visibility of the registry. In a report, the node rows are the rows of
    the scan, one for each candidate URL in order, followed by one
    [missing_url_or_redacted] row for each registry row without public URL,
    in registry order; no two candidates have the same identity; and a
    registry row whose [url] is a string with a public URL has the identity
    of one of the candidates, so of exactly one scanned row. *)
Theorem registry_rows_visible (seed_node : string) (node_url : list string)
    (w w' : World) (scan : Scan.t) :
  build_report bracketed_host_ok World http_get seed_node node_url w = Ok (scan, w') ->
  exists scanned,
    Scan.node_rows scan
    = (scanned
       ++ map missing_url_row
            (List.filter (blank_url bracketed_host_ok) (Scan.registry_rows scan)))%list
    /\ map NodeRow.url scanned = Scan.node_urls scan
    /\ NoDup (map identity (Scan.node_urls scan))
    /\ forall row,
         row ∈ Scan.registry_rows scan -> textual_url row ->
         blank_url bracketed_host_ok row = false ->
         exists n k u,
           normalize (Py.str (Py.dict_get "url" row (JStr ""))) = Ok n
           /\ identity n = Ok k
           /\ u ∈ Scan.node_urls scan /\ identity u = Ok k.
Proof.
  unfold build_report.
  destruct (normalize seed_node) as [seed |]; simpl; [| discriminate].
  destruct (fetch_json bracketed_host_ok World http_get seed "/health" w) as [[[sh she] w1] |];
      simpl; [| discriminate].
  destruct (fetch_json bracketed_host_ok World http_get seed "/epoch" w1) as [[[ep epe] w2] |];
      simpl; [| discriminate].
  destruct (fetch_json bracketed_host_ok World http_get seed "/api/nodes" w2) as [[[np npe] w3] |];
      simpl; [| discriminate].
  unfold _registry_rows_to_map.
  destruct (registry_map_loop _ _ _) as [registry_map |] eqn:Hmap; simpl; [| discriminate].
  set (registry_rows := registry_rows_of np).
  destruct (reconcile _ _ _ _) as [node_urls |] eqn:Hrec; simpl; [| discriminate].
  destruct (scan_nodes _ _ _ _ _ _ _ _ _ _ _) as [[[[rows nm] vm] w4] |] eqn:Hscan;
    simpl; [| discriminate].
  destruct (scanned_keys_of _ _) as [keys |]; simpl; [| discriminate].
  destruct (missing_url_rows _ _ _ _) as [final |] eqn:Hmiss; simpl; [| discriminate].
  destruct (_aggregate_miners nm) as [agg |]; simpl; [| discriminate].
  intros Hok. injection Hok as <- <-. simpl.
  apply scan_nodes_urls in Hscan. destruct Hscan as (scanned & Hrows & Hurls).
  simpl in Hrows. subst rows.
  apply missing_url_rows_spec in Hmiss.
  destruct (reconcile_keyed _ _ _ _ Hrec) as (normalized & keyed & Hnorm & Hkeyed & Hkept).
  destruct (with_identity_spec _ _ _ Hkeyed) as [Hsnd Hid].
  assert (Hsub : keep_first [] keyed `sublist_of` keyed) by apply keep_first_sublist.
  assert (Hkey : forall p, p ∈ keep_first [] keyed -> identity (snd p) = Ok (fst p)).
  { intros p Hp. rewrite Forall_forall in Hid. apply Hid.
    eapply elem_of_sublist; [exact Hp | exact Hsub]. }
  exists scanned. split; [exact Hmiss | split; [exact Hurls | split]].
  - rewrite Hkept.
    assert (Hids : map identity (map snd (keep_first [] keyed))
                   = map Ok (map fst (keep_first [] keyed))).
    { rewrite !map_map. apply map_ext_in. intros p Hp.
      apply Hkey. apply list_elem_of_In. exact Hp. }
    rewrite Hids.
    assert (Hinj : Inj (=) (=) (@Ok string)) by (intros x y [= ->]; reflexivity).
    apply (NoDup_fmap_2 Ok). apply keep_first_keys.
  - intros row Hin [s Hs] Hblank.
    unfold blank_url in Hblank. rewrite Hs in *.
    change (Py.str (JStr s)) with s in *.
    destruct (registry_map_loop_ok _ _ _ _ Hmap Hin) as (n & k0 & Hn & _).
    rewrite Hs in Hn. change (Py.str (JStr s)) with s in Hn. rewrite Hn in Hblank |- *.
    assert (Hne : n <> "") by (destruct n; [discriminate | congruence]).
    assert (Hs0 : s <> "").
    { intros ->. vm_compute in Hn. congruence. }
    pose proof (registry_urls_elem _ _ _ Hin Hs Hs0) as Hreg.
    assert (Hinput : strip s ∈ ([seed] ++ registry_urls registry_rows ++ node_url)%list).
    { apply elem_of_app. right. apply elem_of_app. left. exact Hreg. }
    destruct (normalize_each_elem _ _ _ Hnorm Hinput) as (n' & Hn' & Hin').
    rewrite normalize_strip, Hn in Hn'. injection Hn' as <-.
    destruct (with_identity_elem _ _ _ Hkeyed (drop_empties_elem _ _ Hin' Hne))
      as (k & Hk & Hkin).
    destruct (keep_first_covers [] _ _ _ Hkin) as [He | [u Hu]];
      [apply elem_of_nil in He; destruct He |].
    exists n, k, u. split; [reflexivity | split; [exact Hk | split]].
    + rewrite Hkept. apply (list_elem_of_fmap_2 snd _ (k, u)). exact Hu.
    + exact (Hkey _ Hu).
Qed.

End Visibility.

Lemma registry_rows_visible_witness :
  let registry :=
    JDict [("nodes", JList [JDict [("node_id", JStr "n1"); ("url", JStr "")];
                            JDict [("node_id", JStr "n2");
                                   ("url", JStr " HTTPS://50.28.86.153:443/ ")]])] in
  let http_get := fun (url : string) (w : unit) =>
    if String.eqb url "https://50.28.86.131/api/nodes"
    then (RJson registry, w) else (RFail "timeout", w) in
  exists scan scanned,
    build_report (fun _ => true) unit http_get "https://50.28.86.131" [] tt = Ok (scan, tt)
    /\ Scan.node_urls scan = ["https://50.28.86.131"; "https://50.28.86.153:443"]
    /\ Scan.node_rows scan
       = (scanned ++ [missing_url_row [("node_id", JStr "n1"); ("url", JStr "")]])%list
    /\ map NodeRow.url scanned = Scan.node_urls scan.
Proof.
  intros registry http_get.
  destruct (build_report (fun _ => true) unit http_get "https://50.28.86.131" [] tt)
    as [[scan []] | e] eqn:Hrun; [| vm_compute in Hrun; discriminate].
  destruct (registry_rows_visible (fun _ => true) unit http_get _ _ _ _ _ Hrun)
    as (scanned & Hrows & Hurls & _).
  exists scan, scanned.
  split; [reflexivity |].
  assert (Hscan : Scan.node_urls scan = ["https://50.28.86.131"; "https://50.28.86.153:443"]
                  /\ Scan.registry_rows scan
                     = [[("node_id", JStr "n1"); ("url", JStr "")];
                        [("node_id", JStr "n2"); ("url", JStr " HTTPS://50.28.86.153:443/ ")]]).
  { vm_compute in Hrun. injection Hrun as <-. split; reflexivity. }
  destruct Hscan as [Hu Hr].
  split; [exact Hu |]. split; [| exact Hurls].
  rewrite Hrows, Hr. reflexivity.
Defined.

(* ===================================================================== *)
(** * Properties of the scan *)
(* ===================================================================== *)

Section ScanRows.
Import PyStr.

Variable bracketed_host_ok : string -> bool.

#[local] Abbreviation normalize := (normalize_base_url bracketed_host_ok).
#[local] Abbreviation identity := (node_identity bracketed_host_ok).

Lemma normalize_each_Forall (urls ns : list string) :
  normalize_each bracketed_host_ok urls = Ok ns ->
  Forall (fun n => exists raw, raw ∈ urls /\ normalize raw = Ok n) ns.
Proof.
  revert ns. induction urls as [| u urls IH]; intros ns; simpl.
  - intros [= <-]. constructor.
  - destruct (normalize u) as [n |] eqn:Hu; simpl; [| discriminate].
    destruct (normalize_each bracketed_host_ok urls) as [ns' |]; simpl; [| discriminate].
    intros [= <-]. constructor.
    + exists u. split; [left | exact Hu].
    + eapply Forall_impl; [exact (IH ns' eq_refl) |].
      intros n' (raw & Hin & Hn). exists raw. split; [right; exact Hin | exact Hn].
Qed.

(** The candidates are non-empty results of the normalizer, with pairwise
    distinct identities. *)
Lemma reconcile_candidates (seed : string) (registry_rows : list dict)
    (node_url node_urls : list string) :
  reconcile bracketed_host_ok seed registry_rows node_url = Ok node_urls ->
  Forall (fun u => u <> "" /\ (exists raw, normalize raw = Ok u)
                   /\ exists k, identity u = Ok k) node_urls
  /\ NoDup (map identity node_urls)
  /\ NoDup node_urls.
Proof.
  intros Hrec.
  destruct (reconcile_keyed _ _ _ _ _ Hrec) as (normalized & keyed & Hnorm & Hkeyed & ->).
  destruct (with_identity_spec _ _ _ Hkeyed) as [Hsnd Hid].
  assert (Hsub : keep_first [] keyed `sublist_of` keyed) by apply keep_first_sublist.
  assert (Hkey : forall p, p ∈ keep_first [] keyed -> identity (snd p) = Ok (fst p)).
  { intros p Hp. rewrite Forall_forall in Hid. apply Hid.
    eapply elem_of_sublist; [exact Hp | exact Hsub]. }
  assert (Hnd : NoDup (map identity (map snd (keep_first [] keyed)))).
  { assert (Hids : map identity (map snd (keep_first [] keyed))
                   = map Ok (map fst (keep_first [] keyed))).
    { rewrite !map_map. apply map_ext_in. intros p Hp.
      apply Hkey. apply list_elem_of_In. exact Hp. }
    rewrite Hids.
    assert (Hinj : Inj (=) (=) (@Ok string)) by (intros x y [= ->]; reflexivity).
    apply (NoDup_fmap_2 Ok). apply keep_first_keys. }
  split; [| split; [exact Hnd | exact (NoDup_fmap_1 _ _ Hnd)]].
  apply Forall_forall. intros u Hu.
  apply list_elem_of_fmap in Hu. destruct Hu as ([k u'] & -> & Hp). simpl.
  assert (Hin : u' ∈ drop_empties normalized).
  { rewrite <- Hsnd. apply (list_elem_of_fmap_2 snd _ (k, u')).
    eapply elem_of_sublist; [exact Hp | exact Hsub]. }
  unfold drop_empties in Hin. apply list_elem_of_filter in Hin. destruct Hin as [Hne Hin].
  split; [exact Hne |]. split.
  - pose proof (normalize_each_Forall _ _ Hnorm) as Hall.
    rewrite Forall_forall in Hall. destruct (Hall _ Hin) as (raw & _ & Hraw).
    exists raw. exact Hraw.
  - exists k. exact (Hkey _ Hp).
Qed.

(** Storing miner lists under fresh URLs appends them. *)
Lemma foldl_dict_set_fresh (trace : list Observation.t)
    (node_miners : list (string * list dict)) :
  NoDup (map fst node_miners ++ map Observation.url trace) ->
  foldl (fun nm o => dict_set (Observation.url o) (observed_miners_list o) nm)
    node_miners trace
  = (node_miners ++ map (fun o => (Observation.url o, observed_miners_list o)) trace)%list.
Proof.
  revert node_miners. induction trace as [| o trace IH]; intros nm Hnd; simpl.
  - rewrite app_nil_r. reflexivity.
  - assert (Hset : dict_set (Observation.url o) (observed_miners_list o) nm
                   = (nm ++ [(Observation.url o, observed_miners_list o)])%list).
    { assert (Hfresh : Observation.url o ∉ map fst nm).
      { intros Hin. apply NoDup_app in Hnd. destruct Hnd as (_ & Hdisj & _).
        apply (Hdisj _ Hin). left. }
      clear -Hfresh. induction nm as [| [k v] nm IHnm]; simpl; [reflexivity |].
      simpl in Hfresh. apply not_elem_of_cons in Hfresh. destruct Hfresh as [Hne Hfresh].
      destruct (String.eqb k (Observation.url o)) eqn:E.
      - apply String.eqb_eq in E. congruence.
      - rewrite (IHnm Hfresh). reflexivity. }
    rewrite Hset, IH.
    + rewrite <- app_assoc. reflexivity.
    + rewrite map_app. simpl. rewrite <- app_assoc. exact Hnd.
Qed.

(** A row of the scan pays exactly when its node is declared active and
    is online, and its action says so. *)
Lemma node_row_payout (seed : string) (network_version : JSON) (registry : dict)
    (key node_url : string) (health_payload : JSON)
    (health_err miners_err : option string) :
  let row := fst (node_row seed network_version registry key node_url
                    health_payload health_err miners_err) in
  NodeRow.payout_eligible row = (NodeRow.is_active row && NodeRow.online row)%bool
  /\ (NodeRow.suggested_action row
      = if negb (NodeRow.is_active row) then "inactive_no_payout"
        else if negb (NodeRow.online row) then "investigate_offline"
        else if (Py.truthy network_version && truthy (NodeRow.version row)
                 && str_ne (NodeRow.version row) network_version)%bool
        then "pay_weekly_and_upgrade_node" else "pay_weekly")
  /\ NodeRow.url row = node_url
  /\ (NodeRow.online row = true -> NodeRow.health_error row = None).
Proof.
  cbv zeta. unfold node_row, classify_node_host, node_online.
  destruct health_payload, health_err;
    destruct (Py.truthy (Py.dict_get "is_active" registry _)); simpl;
    try (repeat split; try reflexivity; discriminate);
    match goal with
    | |- context [if ?b then _ else _] => destruct b eqn:Hb; simpl; rewrite ?Hb
    end; repeat split; try reflexivity; try discriminate.
Qed.

Lemma node_row_mismatch (seed : string) (network_version : JSON) (registry : dict)
    (key node_url : string) (health_payload : JSON)
    (health_err miners_err : option string) :
  let out := node_row seed network_version registry key node_url
               health_payload health_err miners_err in
  snd out
  = if String.eqb (NodeRow.suggested_action (fst out)) "pay_weekly_and_upgrade_node"
    then Some (Mismatch.mk node_url (Py.dict_get "node_id" registry JNull)
                 (NodeRow.version (fst out)) network_version)
    else None.
Proof.
  cbv zeta. unfold node_row.
  destruct health_payload; simpl;
    destruct (classify_node_host _ _ _ _) as [eligible action]; reflexivity.
Qed.

Variable World : Type.
Variable http_get : string -> World -> Response * World.

Lemma fetch_json_fetched (base_url path : string) (w w' : World)
    (payload : JSON) (err : option string) :
  fetch_json bracketed_host_ok World http_get base_url path w = Ok ((payload, err), w') ->
  fetched payload err.
Proof.
  unfold fetch_json, _request_json.
  destruct (UrlLib.Request _ _); simpl; [| discriminate].
  destruct (http_get _ w) as [[v | code] w1]; intros [= <- <- _]; [left | right];
    reflexivity.
Qed.

(** The scan loop observes each candidate in turn and appends, for each
    in order, the row of what it observed there, the mismatch entry of that
    row if it has one, and stores the miner list under the candidate's
    URL. *)
Lemma scan_nodes_observations (seed : string) (network_version : JSON)
    (registry_map : gmap string dict) (node_urls : list string)
    (node_rows : list NodeRow.t) (node_miners : list (string * list dict))
    (version_mismatch : list Mismatch.t) (w : World) :
  scan_nodes bracketed_host_ok World http_get seed network_version registry_map
    node_urls node_rows node_miners version_mismatch w
  = '(trace, w') ← observations bracketed_host_ok World http_get node_urls w;
    Ok ((node_rows
         ++ map (fun o => fst (observed_row seed network_version registry_map o)) trace)%list,
        foldl (fun nm o => dict_set (Observation.url o) (observed_miners_list o) nm)
          node_miners trace,
        (version_mismatch
         ++ omap (fun o => snd (observed_row seed network_version registry_map o))
              trace)%list,
        w').
Proof.
  revert node_rows node_miners version_mismatch w.
  induction node_urls as [| u urls IH]; intros node_rows node_miners version_mismatch w; simpl.
  - rewrite !app_nil_r. reflexivity.
  - unfold observe.
    destruct (identity u) as [key |] eqn:Hkey; simpl; [| reflexivity].
    destruct (fetch_json bracketed_host_ok World http_get u "/health" w)
      as [[[hp he] w1] |]; simpl; [| reflexivity].
    destruct (fetch_json bracketed_host_ok World http_get u "/api/miners" w1)
      as [[[mp me] w2] |]; simpl; [| reflexivity].
    destruct (node_row _ _ _ _ _ _ _ _) as [row mismatch] eqn:Hrow.
    assert (Hobs : observed_row seed network_version registry_map
                     (Observation.mk u key hp he mp me) = (row, mismatch)) by exact Hrow.
    rewrite IH.
    destruct (observations bracketed_host_ok World http_get urls w2) as [[trace w3] |];
      simpl; [| reflexivity].
    change (omap ?f (?x :: ?l))
      with (match f x with Some y => y :: omap f l | None => omap f l end).
    cbv beta. rewrite Hobs, <- !app_assoc. destruct mismatch; reflexivity.
Qed.

Lemma observe_spec (u : string) (w w' : World) (o : Observation.t) :
  observe bracketed_host_ok World http_get u w = Ok (o, w') ->
  Observation.url o = u
  /\ identity u = Ok (Observation.key o)
  /\ exists w1,
       fetch_json bracketed_host_ok World http_get u "/health" w
       = Ok ((Observation.health_payload o, Observation.health_err o), w1)
       /\ fetch_json bracketed_host_ok World http_get u "/api/miners" w1
          = Ok ((Observation.miners_payload o, Observation.miners_err o), w').
Proof.
  unfold observe.
  destruct (identity u) as [key |]; simpl; [| discriminate].
  destruct (fetch_json bracketed_host_ok World http_get u "/health" w)
    as [[[hp he] w1] |] eqn:Hh; simpl; [| discriminate].
  destruct (fetch_json bracketed_host_ok World http_get u "/api/miners" w1)
    as [[[mp me] w2] |] eqn:Hm; simpl; [| discriminate].
  intros [= <- <-]. simpl. split; [reflexivity |]. split; [reflexivity |].
  exists w1. split; [reflexivity | exact Hm].
Qed.

Lemma observations_spec (urls : list string) (w w' : World) (trace : list Observation.t) :
  observations bracketed_host_ok World http_get urls w = Ok (trace, w') ->
  map Observation.url trace = urls
  /\ Forall (fun o => identity (Observation.url o) = Ok (Observation.key o)
                      /\ fetched (Observation.health_payload o) (Observation.health_err o)
                      /\ fetched (Observation.miners_payload o) (Observation.miners_err o))
       trace.
Proof.
  revert w trace. induction urls as [| u urls IH]; intros w trace; simpl.
  - intros [= <- _]. split; constructor.
  - destruct (observe bracketed_host_ok World http_get u w) as [[o w1] |] eqn:Ho;
      simpl; [| discriminate].
    destruct (observations bracketed_host_ok World http_get urls w1) as [[os w2] |] eqn:Hos;
      simpl; [| discriminate].
    intros [= <- <-].
    destruct (observe_spec _ _ _ _ Ho) as (Hurl & Hkey & w1' & Hh & Hm).
    destruct (IH _ _ Hos) as [Hurls Hall].
    split; [simpl; rewrite Hurl, Hurls; reflexivity |].
    constructor; [| exact Hall].
    rewrite Hurl. split; [exact Hkey |].
    split; eapply fetch_json_fetched; eassumption.
Qed.

Lemma scan_nodes_trace (seed : string) (network_version : JSON)
    (registry_map : gmap string dict) (node_urls : list string)
    (node_rows : list NodeRow.t) (node_miners : list (string * list dict))
    (version_mismatch : list Mismatch.t) (w : World)
    (node_rows' : list NodeRow.t) (node_miners' : list (string * list dict))
    (version_mismatch' : list Mismatch.t) (w' : World) :
  scan_nodes bracketed_host_ok World http_get seed network_version registry_map
    node_urls node_rows node_miners version_mismatch w
  = Ok (node_rows', node_miners', version_mismatch', w') ->
  exists trace : list Observation.t,
    map Observation.url trace = node_urls
    /\ Forall (fun o => identity (Observation.url o) = Ok (Observation.key o)
                        /\ fetched (Observation.health_payload o) (Observation.health_err o)
                        /\ fetched (Observation.miners_payload o) (Observation.miners_err o))
         trace
    /\ node_rows'
       = (node_rows ++ map (fun o => fst (observed_row seed network_version registry_map o))
                         trace)%list
    /\ version_mismatch'
       = (version_mismatch
          ++ omap (fun o => snd (observed_row seed network_version registry_map o)) trace)%list
    /\ node_miners'
       = foldl (fun nm o => dict_set (Observation.url o) (observed_miners_list o) nm)
           node_miners trace.
Proof.
  rewrite scan_nodes_observations.
  destruct (observations bracketed_host_ok World http_get node_urls w) as [[trace w1] |]
    eqn:Hobs; simpl; [| discriminate].
  intros [= <- <- <- <-]. exists trace.
  destruct (observations_spec _ _ _ _ Hobs) as [Hurls Hall].
  repeat split; assumption.
Qed.

(** The stages of a run that returned. *)
Lemma build_report_stages (seed_node : string) (node_url : list string)
    (w w' : World) (scan : Scan.t) :
  build_report bracketed_host_ok World http_get seed_node node_url w = Ok (scan, w') ->
  exists (nodes_payload : JSON) (registry_map : gmap string dict)
         (trace : list Observation.t),
    normalize seed_node = Ok (Scan.seed scan)
    /\ _registry_rows_to_map bracketed_host_ok nodes_payload
       = Ok (registry_map, Scan.registry_rows scan)
    /\ reconcile bracketed_host_ok (Scan.seed scan) (Scan.registry_rows scan) node_url
       = Ok (Scan.node_urls scan)
    /\ map Observation.url trace = Scan.node_urls scan
    /\ Forall (fun o => identity (Observation.url o) = Ok (Observation.key o)
                        /\ fetched (Observation.health_payload o) (Observation.health_err o)
                        /\ fetched (Observation.miners_payload o) (Observation.miners_err o))
         trace
    /\ Scan.node_rows scan
       = (map (fun o => fst (observed_row (Scan.seed scan) (Scan.network_version scan)
                               registry_map o)) trace
          ++ map missing_url_row
               (List.filter (blank_url bracketed_host_ok) (Scan.registry_rows scan)))%list
    /\ Scan.version_mismatch scan
       = omap (fun o => snd (observed_row (Scan.seed scan) (Scan.network_version scan)
                               registry_map o)) trace
    /\ Scan.node_miners scan
       = foldl (fun nm o => dict_set (Observation.url o) (observed_miners_list o) nm)
           [] trace
    /\ _aggregate_miners (Scan.node_miners scan) = Ok (Scan.aggregate scan).
Proof.
  unfold build_report.
  destruct (normalize seed_node) as [seed |]; simpl; [| discriminate].
  destruct (fetch_json bracketed_host_ok World http_get seed "/health" w) as [[[sh she] w1] |];
      simpl; [| discriminate].
  destruct (fetch_json bracketed_host_ok World http_get seed "/epoch" w1) as [[[ep epe] w2] |];
      simpl; [| discriminate].
  destruct (fetch_json bracketed_host_ok World http_get seed "/api/nodes" w2) as [[[np npe] w3] |];
      simpl; [| discriminate].
  destruct (_registry_rows_to_map _ np) as [[registry_map registry_rows] |] eqn:Hmap;
    simpl; [| discriminate].
  destruct (reconcile _ _ _ _) as [node_urls |] eqn:Hrec; simpl; [| discriminate].
  destruct (scan_nodes _ _ _ _ _ _ _ _ _ _ _) as [[[[rows nm] vm] w4] |] eqn:Hscan;
    simpl; [| discriminate].
  destruct (scanned_keys_of _ _) as [keys |]; simpl; [| discriminate].
  destruct (missing_url_rows _ _ _ _) as [final |] eqn:Hmiss; simpl; [| discriminate].
  destruct (_aggregate_miners nm) as [agg |] eqn:Hagg; simpl; [| discriminate].
  intros Hok. injection Hok as <- <-. simpl.
  apply scan_nodes_trace in Hscan.
  destruct Hscan as (trace & Hurls & Hkeys & Hrows & Hvm & Hnm).
  simpl in Hrows, Hvm. subst rows vm nm.
  apply missing_url_rows_spec in Hmiss. subst final.
  exists np, registry_map, trace. repeat split; assumption.
Qed.

(** The queries of a run that returned: the three of the seed, then the
    observations of the candidates, and the scanned rows are the rows of
    these observations. *)
Lemma build_report_observations (seed_node : string) (node_url : list string)
    (w w' : World) (scan : Scan.t) :
  build_report bracketed_host_ok World http_get seed_node node_url w = Ok (scan, w') ->
  exists (registry_map : gmap string dict) (trace : list Observation.t) (w0 : World),
    seed_queries bracketed_host_ok World http_get (Scan.seed scan) w = Ok w0
    /\ observations bracketed_host_ok World http_get (Scan.node_urls scan) w0
       = Ok (trace, w')
    /\ Scan.node_rows scan
       = (map (fun o => fst (observed_row (Scan.seed scan) (Scan.network_version scan)
                               registry_map o)) trace
          ++ map missing_url_row
               (List.filter (blank_url bracketed_host_ok) (Scan.registry_rows scan)))%list.
Proof.
  unfold build_report, seed_queries.
  destruct (normalize seed_node) as [seed |]; simpl; [| discriminate].
  destruct (fetch_json bracketed_host_ok World http_get seed "/health" w) as [[[sh she] w1] |]
    eqn:Hq1; simpl; [| discriminate].
  destruct (fetch_json bracketed_host_ok World http_get seed "/epoch" w1) as [[[ep epe] w2] |]
    eqn:Hq2; simpl; [| discriminate].
  destruct (fetch_json bracketed_host_ok World http_get seed "/api/nodes" w2) as [[[np npe] w3] |]
    eqn:Hq3; simpl; [| discriminate].
  destruct (_registry_rows_to_map _ np) as [[registry_map registry_rows] |] eqn:Hmap;
    simpl; [| discriminate].
  destruct (reconcile _ _ _ _) as [node_urls |] eqn:Hrec; simpl; [| discriminate].
  rewrite scan_nodes_observations.
  destruct (observations bracketed_host_ok World http_get node_urls w3) as [[trace w4] |]
    eqn:Hobs; simpl; [| discriminate].
  destruct (scanned_keys_of _ _) as [keys |]; simpl; [| discriminate].
  destruct (missing_url_rows _ _ _ _) as [final |] eqn:Hmiss; simpl; [| discriminate].
  destruct (_aggregate_miners _) as [agg |] eqn:Hagg; simpl; [| discriminate].
  intros Hok. injection Hok as <- <-. simpl.
  apply missing_url_rows_spec in Hmiss. subst final.
  exists registry_map, trace, w3.
  split; [rewrite Hq1; simpl; rewrite Hq2; simpl; rewrite Hq3; reflexivity |].
  split; [exact Hobs | reflexivity].
Qed.

(** The observation of the candidate at position [i], and the world it is
    made in. *)
Lemma observations_lookup (urls : list string) (w w' : World)
    (trace : list Observation.t) (i : nat) (url : string) :
  observations bracketed_host_ok World http_get urls w = Ok (trace, w') ->
  urls !! i = Some url ->
  exists (before : list Observation.t) (w_i : World) (o : Observation.t) (w_i' : World),
    observations bracketed_host_ok World http_get (take i urls) w = Ok (before, w_i)
    /\ observe bracketed_host_ok World http_get url w_i = Ok (o, w_i')
    /\ trace !! i = Some o.
Proof.
  revert w trace i. induction urls as [| u urls IH]; intros w trace i; [discriminate 2 |].
  cbn [observations].
  destruct (observe bracketed_host_ok World http_get u w) as [[o w1] |] eqn:Ho;
    simpl; [| discriminate].
  destruct (observations bracketed_host_ok World http_get urls w1) as [[os w2] |] eqn:Hos;
    simpl; [| discriminate].
  intros [= <- <-]. destruct i as [| i]; simpl.
  - intros [= <-]. exists [], w, o, w1. repeat split; [exact Ho].
  - intros Hi. destruct (IH _ _ _ Hos Hi) as (before & w_i & o' & w_i' & Hb & Ho' & Ht).
    exists (o :: before), w_i, o', w_i'. rewrite Ho. simpl. rewrite Hb. simpl.
    repeat split; assumption.
Qed.

Lemma node_row_health_error (seed : string) (network_version : JSON) (registry : dict)
    (key node_url : string) (health_payload : JSON)
    (health_err miners_err : option string) :
  NodeRow.health_error
    (fst (node_row seed network_version registry key node_url
            health_payload health_err miners_err))
  = health_err.
Proof.
  unfold node_row.
  destruct health_payload; simpl;
    destruct (classify_node_host _ _ _ _); reflexivity.
Qed.

(** What a fetch returns is what the GET answered: the JSON value without
    error code, or no value with the error code. *)
Lemma fetch_json_answer (base_url path : string) (w w' : World)
    (payload : JSON) (err : option string) :
  fetch_json bracketed_host_ok World http_get base_url path w = Ok ((payload, err), w') ->
  match fst (http_get (PyStr.rstrip_by (PyStr.is_char "/") base_url ++ path) w) with
  | RJson v => payload = v /\ err = None
  | RFail code => payload = JNull /\ err = Some code
  end.
Proof.
  unfold fetch_json, _request_json.
  destruct (UrlLib.Request _ _); simpl; [| discriminate].
  destruct (http_get _ w) as [[v | code] w1]; intros [= <- <- _]; split; reflexivity.
Qed.

(** C6 (as amended). In a run that returns, every queried node, that is
    every candidate URL, in the order of the scan, has the row at its
    position in the report; the row's [online] flag is set exactly when the
    fetch of the node's [/health], made in the state of the network that the
    queries of the seed and of the candidates before it left, returned a
    JSON object with no error: the payload is a dictionary and the error
    component is [None], which is when the GET answered a JSON object. The
    row keeps the error component as its [health_error]. *)
Theorem node_online_iff_json_object (seed_node : string) (node_url : list string)
    (w w' : World) (scan : Scan.t) :
  build_report bracketed_host_ok World http_get seed_node node_url w = Ok (scan, w') ->
  exists w0 : World,
    seed_queries bracketed_host_ok World http_get (Scan.seed scan) w = Ok w0
    /\ forall (i : nat) (url : string),
         Scan.node_urls scan !! i = Some url ->
         exists (before : list Observation.t) (w_i : World)
                (health : JSON * option string) (w_i' : World) (row : NodeRow.t),
           observations bracketed_host_ok World http_get
             (take i (Scan.node_urls scan)) w0 = Ok (before, w_i)
           /\ fetch_json bracketed_host_ok World http_get url "/health" w_i
              = Ok (health, w_i')
           /\ Scan.node_rows scan !! i = Some row
           /\ NodeRow.url row = url
           /\ NodeRow.health_error row = snd health
           /\ (NodeRow.online row = true
               <-> (exists h, fst health = JDict h) /\ snd health = None)
           /\ (NodeRow.online row = true
               <-> exists h,
                     fst (http_get (PyStr.rstrip_by (PyStr.is_char "/") url ++ "/health")
                            w_i)
                     = RJson (JDict h)).
Proof.
  intros Hrun.
  destruct (build_report_observations _ _ _ _ _ Hrun)
    as (registry_map & trace & w0 & Hseed & Hobs & Hrows).
  exists w0. split; [exact Hseed |].
  intros i url Hi.
  destruct (observations_lookup _ _ _ _ _ _ Hobs Hi)
    as (before & w_i & o & w_i1 & Hbefore & Ho & Ht).
  destruct (observe_spec _ _ _ _ Ho) as (Hurl & _ & w_i' & Hhealth & _).
  exists before, w_i, (Observation.health_payload o, Observation.health_err o), w_i',
    (fst (observed_row (Scan.seed scan) (Scan.network_version scan) registry_map o)).
  split; [exact Hbefore |]. split; [exact Hhealth |].
  split.
  { rewrite Hrows. apply lookup_app_l_Some.
    rewrite list_lookup_fmap, Ht. reflexivity. }
  unfold observed_row. cbn [fst snd].
  rewrite node_row_url, node_row_health_error, node_row_online.
  split; [exact Hurl |]. split; [reflexivity |].
  pose proof (fetch_json_answer _ _ _ _ _ _ Hhealth) as Hanswer.
  unfold node_online.
  destruct (fst (http_get _ w_i)) as [v | code].
  - destruct Hanswer as [-> ->].
    destruct v; simpl; split; split;
      try (intros H; discriminate H);
      try (intros [[h H] _]; discriminate H);
      try (intros [h H]; discriminate H).
    + intros _. split; [eexists |]; reflexivity.
    + reflexivity.
    + intros _. eexists. reflexivity.
    + reflexivity.
  - destruct Hanswer as [-> ->].
    split; split; try (intros H; discriminate H).
    + intros [_ H]. discriminate H.
    + intros [h H]. discriminate H.
Qed.

(** Payout rule of the node rows. In a report, every node row, scanned
    or added for a registry row without URL, is payout-eligible exactly when
    it is declared active and online, which is exactly when its action is
    [pay_weekly] or [pay_weekly_and_upgrade_node]; its action is one of the
    five of [node_actions], and an online row has no health error. *)
Theorem node_rows_payout_rule (seed_node : string) (node_url : list string)
    (w w' : World) (scan : Scan.t) :
  build_report bracketed_host_ok World http_get seed_node node_url w = Ok (scan, w') ->
  Forall (fun r =>
            NodeRow.payout_eligible r = (NodeRow.is_active r && NodeRow.online r)%bool
            /\ (NodeRow.payout_eligible r = true
                <-> NodeRow.suggested_action r = "pay_weekly"
                    \/ NodeRow.suggested_action r = "pay_weekly_and_upgrade_node")
            /\ NodeRow.suggested_action r ∈ node_actions
            /\ (NodeRow.online r = true -> NodeRow.health_error r = None))
    (Scan.node_rows scan).
Proof.
  intros Hrun.
  destruct (build_report_stages _ _ _ _ _ Hrun)
    as (np & registry_map & trace & _ & _ & _ & _ & _ & -> & _).
  apply Forall_app. split; apply Forall_forall; intros r Hr;
    apply list_elem_of_fmap in Hr; destruct Hr as (x & -> & _).
  - unfold observed_row.
    destruct (node_row_payout (Scan.seed scan) (Scan.network_version scan)
                (default [] (registry_map !! Observation.key x)) (Observation.key x)
                (Observation.url x) (Observation.health_payload x)
                (Observation.health_err x) (Observation.miners_err x))
      as (Hpay & Hact & _ & Herr).
    cbv zeta in Hpay, Hact, Herr.
    split; [exact Hpay |]. rewrite Hpay, Hact.
    destruct (NodeRow.is_active _), (NodeRow.online _); simpl;
      try destruct (_ && _ && _)%bool;
      (split; [split; [intros; try discriminate; auto | intros [H | H]; try discriminate H; reflexivity] |]);
      (split; [unfold node_actions; set_solver | exact Herr]).
  - simpl. split; [rewrite andb_false_r; reflexivity |].
    split; [split; [discriminate | intros [H | H]; discriminate H] |].
    split; [unfold node_actions; set_solver | discriminate].
Qed.

(** The version-mismatch list of a report holds, in order, one entry for
    each node row whose action is [pay_weekly_and_upgrade_node], with that
    row's URL and version and the network version of the run; such a row is
    payout-eligible, and its version is non-empty and differs from the
    non-empty network version. *)
Theorem version_mismatch_rows (seed_node : string) (node_url : list string)
    (w w' : World) (scan : Scan.t) :
  build_report bracketed_host_ok World http_get seed_node node_url w = Ok (scan, w') ->
  Forall2 (fun m r =>
             Mismatch.node_url m = NodeRow.url r
             /\ Mismatch.node_version m = NodeRow.version r
             /\ Mismatch.network_version m = Scan.network_version scan
             /\ NodeRow.payout_eligible r = true
             /\ NodeRow.version r <> ""
             /\ Py.truthy (Scan.network_version scan) = true
             /\ str_ne (NodeRow.version r) (Scan.network_version scan) = true)
    (Scan.version_mismatch scan)
    (List.filter
       (fun r => String.eqb (NodeRow.suggested_action r) "pay_weekly_and_upgrade_node")
       (Scan.node_rows scan)).
Proof.
  intros Hrun.
  destruct (build_report_stages _ _ _ _ _ Hrun)
    as (np & registry_map & trace & _ & _ & _ & _ & _ & -> & -> & _).
  rewrite List.filter_app.
  replace (List.filter _ (map missing_url_row _)) with (@nil NodeRow.t).
  2: { induction (List.filter (blank_url bracketed_host_ok) (Scan.registry_rows scan));
         [reflexivity | assumption]. }
  rewrite app_nil_r.
  induction trace as [| o trace IH]; [constructor |].
  change (omap ?f (?x :: ?l))
    with (match f x with Some y => y :: omap f l | None => omap f l end).
  cbn [map List.filter]. cbv beta.
  unfold observed_row in IH |- *.
  pose proof (node_row_mismatch (Scan.seed scan) (Scan.network_version scan)
                (default [] (registry_map !! Observation.key o)) (Observation.key o)
                (Observation.url o) (Observation.health_payload o)
                (Observation.health_err o) (Observation.miners_err o)) as Hmm.
  pose proof (node_row_payout (Scan.seed scan) (Scan.network_version scan)
                (default [] (registry_map !! Observation.key o)) (Observation.key o)
                (Observation.url o) (Observation.health_payload o)
                (Observation.health_err o) (Observation.miners_err o))
    as (Hpay & Hact & Hurl & _).
  cbv zeta in Hmm, Hpay, Hact, Hurl. rewrite Hmm.
  set (row := fst (node_row _ _ _ _ _ _ _ _)) in *.
  destruct (String.eqb _ "pay_weekly_and_upgrade_node") eqn:Hup; [| exact IH].
  constructor; [| exact IH].
  cbv beta. cbn [Mismatch.node_url Mismatch.node_version Mismatch.network_version].
  apply String.eqb_eq in Hup. rewrite Hact in Hup. rewrite Hpay, Hurl.
  destruct (NodeRow.is_active _); simpl in Hup; [| discriminate Hup].
  destruct (NodeRow.online _); simpl in Hup; [| discriminate Hup].
  destruct (Py.truthy (Scan.network_version scan)); simpl in Hup; [| discriminate Hup].
  destruct (truthy (NodeRow.version _)) eqn:Hv; simpl in Hup; [| discriminate Hup].
  destruct (str_ne _ _); simpl in Hup; [| discriminate Hup].
  apply truthy_nonempty in Hv. repeat split; assumption.
Qed.

Lemma node_row_miners_error (seed : string) (network_version : JSON) (registry : dict)
    (key node_url : string) (health_payload : JSON)
    (health_err miners_err : option string) :
  NodeRow.miners_error
    (fst (node_row seed network_version registry key node_url
            health_payload health_err miners_err))
  = miners_err.
Proof.
  unfold node_row.
  destruct health_payload; simpl;
    destruct (classify_node_host _ _ _ _); reflexivity.
Qed.

(** The miner lists of a report are stored under the candidate URLs, one
    entry for each scanned row, in candidate order: no list replaces
    another, and a row whose miner fetch failed has the empty list. The
    candidate URLs are pairwise distinct, non-empty results of the
    normalizer. *)
Theorem node_miners_by_candidate (seed_node : string) (node_url : list string)
    (w w' : World) (scan : Scan.t) :
  build_report bracketed_host_ok World http_get seed_node node_url w = Ok (scan, w') ->
  map fst (Scan.node_miners scan) = Scan.node_urls scan
  /\ NoDup (Scan.node_urls scan)
  /\ Forall (fun u => u <> "" /\ exists raw, normalize raw = Ok u) (Scan.node_urls scan)
  /\ exists scanned,
       Scan.node_rows scan
       = (scanned
          ++ map missing_url_row
               (List.filter (blank_url bracketed_host_ok) (Scan.registry_rows scan)))%list
       /\ Forall2 (fun r e => NodeRow.url r = fst e
                              /\ (NodeRow.miners_error r <> None -> snd e = []))
            scanned (Scan.node_miners scan).
Proof.
  intros Hrun.
  destruct (build_report_stages _ _ _ _ _ Hrun)
    as (np & registry_map & trace & _ & _ & Hrec & Hurls & Hobs & Hrows & _ & Hnm & _).
  destruct (reconcile_candidates _ _ _ _ Hrec) as (Hall & _ & Hnd).
  rewrite foldl_dict_set_fresh in Hnm by (simpl; rewrite Hurls; exact Hnd).
  simpl in Hnm. rewrite Hnm.
  split; [rewrite map_map; simpl; exact Hurls |].
  split; [exact Hnd |]. split.
  - eapply Forall_impl; [exact Hall |]. intros u (Hne & Hraw & _). split; assumption.
  - eexists. split; [exact Hrows |].
    clear -Hobs. induction trace as [| o trace IH]; [constructor |].
    apply Forall_cons in Hobs. destruct Hobs as [(_ & _ & Hm) Hobs].
    cbn [map]. constructor; [| exact (IH Hobs)].
    unfold observed_row. cbn [fst snd].
    rewrite node_row_miners_error.
    split; [apply node_row_payout |].
    intros Herr. unfold observed_miners_list.
    destruct Hm as [Hm | ->]; [congruence | reflexivity].
Qed.

End ScanRows.

(* ===================================================================== *)
(** * The requests of a run *)
(* ===================================================================== *)

Section Requests.
Import PyStr.

Variable bracketed_host_ok : string -> bool.

#[local] Abbreviation normalize := (normalize_base_url bracketed_host_ok).

(** The normalizer leaves no trailing slash. *)
Lemma normalize_no_trailing_slash (raw n : string) :
  normalize raw = Ok n -> rstrip_by (is_char "/") n = n.
Proof.
  unfold normalize_base_url.
  destruct (negb (truthy (strip raw))); [intros [= <-]; reflexivity |].
  destruct (UrlLib.urlparse _ _) as [parsed |]; simpl; [| discriminate].
  intros [= <-]. apply rstrip_by_idem.
Qed.

Variable World : Type.
Variable http_get : string -> World -> Response * World.

Lemma fetch_json_logged (base_url path : string) (w : World) (log : list string) :
  fetch_json bracketed_host_ok (World * list string) (logged http_get) base_url path (w, log)
  = match fetch_json bracketed_host_ok World http_get base_url path w with
    | Ok (answer, w') =>
        Ok (answer, (w', app log [rstrip_by (is_char "/") base_url ++ path]))
    | Raise e => Raise e
    end.
Proof.
  unfold fetch_json, _request_json, logged. simpl.
  destruct (UrlLib.Request _ _); simpl; [| reflexivity].
  destruct (http_get _ w) as [[v | code] w1]; reflexivity.
Qed.

Lemma scan_nodes_logged (seed : string) (network_version : JSON)
    (registry_map : gmap string dict) (node_urls : list string)
    (node_rows : list NodeRow.t) (node_miners : list (string * list dict))
    (version_mismatch : list Mismatch.t) (w : World) (log : list string) :
  scan_nodes bracketed_host_ok (World * list string) (logged http_get)
    seed network_version registry_map node_urls node_rows node_miners
    version_mismatch (w, log)
  = match scan_nodes bracketed_host_ok World http_get seed network_version
            registry_map node_urls node_rows node_miners version_mismatch w with
    | Ok (node_rows', node_miners', version_mismatch', w') =>
        Ok (node_rows', node_miners', version_mismatch',
            (w', app log (flat_map (fun u => [rstrip_by (is_char "/") u ++ "/health";
                                              rstrip_by (is_char "/") u ++ "/api/miners"])
                            node_urls)))
    | Raise e => Raise e
    end.
Proof.
  revert node_rows node_miners version_mismatch w log.
  induction node_urls as [| u urls IH];
    intros node_rows node_miners version_mismatch w log; simpl.
  - rewrite app_nil_r. reflexivity.
  - destruct (node_identity bracketed_host_ok u) as [key |]; simpl; [| reflexivity].
    rewrite fetch_json_logged.
    destruct (fetch_json bracketed_host_ok World http_get u "/health" w) as [[[hp he] w1] |];
      simpl; [| reflexivity].
    rewrite fetch_json_logged.
    destruct (fetch_json bracketed_host_ok World http_get u "/api/miners" w1) as [[[mp me] w2] |];
      simpl; [| reflexivity].
    destruct (node_row _ _ _ _ _ _ _ _) as [row mismatch].
    rewrite IH.
    destruct (scan_nodes _ _ _ _ _ _ _ _ _ _ _) as [[[[rows' nm'] vm'] w'] |];
      [| reflexivity].
    rewrite <- !app_assoc. reflexivity.
Qed.

(** The requests of a run. A run that returns has sent, in this order, the
    GET requests for [/health], [/epoch] and [/api/nodes] of the seed and
    then, for each candidate in order, those for its [/health] and its
    [/api/miners], each path appended to the normalized URL, and no other
    request; recording the requests changes neither the report nor the
    exception of a run that raises. *)
Theorem requests_of_a_run (seed_node : string) (node_url : list string) (w : World) :
  match build_report bracketed_host_ok World http_get seed_node node_url w with
  | Ok (scan, w') =>
      build_report bracketed_host_ok (World * list string) (logged http_get)
        seed_node node_url (w, [])
      = Ok (scan, (w', scan_requests (Scan.seed scan) (Scan.node_urls scan)))
  | Raise e =>
      build_report bracketed_host_ok (World * list string) (logged http_get)
        seed_node node_url (w, [])
      = Raise e
  end.
Proof.
  destruct (build_report bracketed_host_ok World http_get seed_node node_url w)
    as [[scan w'] | e] eqn:Hrun.
  - assert (Hslash : rstrip_by (is_char "/") (Scan.seed scan) = Scan.seed scan
                     /\ Forall (fun u => rstrip_by (is_char "/") u = u)
                          (Scan.node_urls scan)).
    { destruct (build_report_stages _ _ _ _ _ _ _ _ Hrun)
        as (np & registry_map & trace & Hseed & _ & Hrec & _).
      split; [exact (normalize_no_trailing_slash _ _ Hseed) |].
      destruct (reconcile_candidates _ _ _ _ _ Hrec) as (Hall & _).
      eapply Forall_impl; [exact Hall |].
      intros u (_ & [raw Hraw] & _). exact (normalize_no_trailing_slash _ _ Hraw). }
    revert Hrun Hslash. unfold build_report.
    destruct (normalize seed_node) as [seed |]; simpl; [| discriminate].
    rewrite fetch_json_logged.
    destruct (fetch_json bracketed_host_ok World http_get seed "/health" w) as [[[sh she] w1] |];
      simpl; [| discriminate].
    rewrite fetch_json_logged.
    destruct (fetch_json bracketed_host_ok World http_get seed "/epoch" w1) as [[[ep epe] w2] |];
      simpl; [| discriminate].
    rewrite fetch_json_logged.
    destruct (fetch_json bracketed_host_ok World http_get seed "/api/nodes" w2) as [[[np npe] w3] |];
      simpl; [| discriminate].
    destruct (_registry_rows_to_map _ np) as [[registry_map registry_rows] |];
      simpl; [| discriminate].
    destruct (reconcile _ _ _ _) as [node_urls |]; simpl; [| discriminate].
    rewrite scan_nodes_logged.
    destruct (scan_nodes _ _ _ _ _ _ _ _ _ _ _) as [[[[rows nm] vm] w4] |];
      simpl; [| discriminate].
    destruct (scanned_keys_of _ _) as [keys |]; simpl; [| discriminate].
    destruct (missing_url_rows _ _ _ _) as [final |]; simpl; [| discriminate].
    destruct (_aggregate_miners nm) as [agg |]; simpl; [| discriminate].
    intros Hok [Hseed Hurls]. injection Hok as <- <-. simpl in Hseed, Hurls |- *.
    assert (Hflat : flat_map (fun u => [rstrip_by (is_char "/") u ++ "/health";
                                        rstrip_by (is_char "/") u ++ "/api/miners"])
                      node_urls
                    = flat_map (fun u => [u ++ "/health"; u ++ "/api/miners"]) node_urls).
    { clear -Hurls. induction Hurls as [| u urls Hu _ IH]; [reflexivity |].
      simpl. rewrite Hu, IH. reflexivity. }
    rewrite Hseed, Hflat. reflexivity.
  - revert Hrun. unfold build_report.
    destruct (normalize seed_node) as [seed |]; simpl; [| intros [= <-]; reflexivity].
    rewrite !fetch_json_logged.
    destruct (fetch_json bracketed_host_ok World http_get seed "/health" w) as [[[sh she] w1] |];
      simpl; [| intros [= <-]; reflexivity].
    rewrite !fetch_json_logged.
    destruct (fetch_json bracketed_host_ok World http_get seed "/epoch" w1) as [[[ep epe] w2] |];
      simpl; [| intros [= <-]; reflexivity].
    rewrite !fetch_json_logged.
    destruct (fetch_json bracketed_host_ok World http_get seed "/api/nodes" w2) as [[[np npe] w3] |];
      simpl; [| intros [= <-]; reflexivity].
    destruct (_registry_rows_to_map _ np) as [[registry_map registry_rows] |];
      simpl; [| intros [= <-]; reflexivity].
    destruct (reconcile _ _ _ _) as [node_urls |]; simpl; [| intros [= <-]; reflexivity].
    rewrite scan_nodes_logged.
    destruct (scan_nodes _ _ _ _ _ _ _ _ _ _ _) as [[[[rows nm] vm] w4] |];
      simpl; [| intros [= <-]; reflexivity].
    destruct (scanned_keys_of _ _) as [keys |]; simpl; [| intros [= <-]; reflexivity].
    destruct (missing_url_rows _ _ _ _) as [final |]; simpl; [| intros [= <-]; reflexivity].
    destruct (_aggregate_miners nm) as [agg |]; simpl; [discriminate | intros [= <-]; reflexivity].
Qed.

End Requests.

(* ===================================================================== *)
(** * Properties of the registry map *)
(* ===================================================================== *)

Section RegistryMap.
Import PyStr.

Variable bracketed_host_ok : string -> bool.

#[local] Abbreviation normalize := (normalize_base_url bracketed_host_ok).
#[local] Abbreviation identity := (node_identity bracketed_host_ok).

(** An identity is never the empty string. *)
Lemma node_identity_truthy (url key : string) :
  identity url = Ok key -> truthy key = true.
Proof.
  unfold node_identity.
  destruct (UrlLib.urlparse _ url) as [parsed |]; simpl; [| discriminate].
  destruct (UrlLib.port parsed) as [port |]; simpl; [| discriminate].
  intros [= <-].
  destruct (UrlLib.hostname parsed) as [[| c h] |];
    [reflexivity | reflexivity |].
  destruct (truthy (UrlLib.netloc parsed)); [destruct (UrlLib.netloc parsed) |];
    [reflexivity | reflexivity |]. destruct url; reflexivity.
Qed.

Lemma registry_map_loop_lookup (rows : list dict) (mapped mapped' : gmap string dict)
    (key : string) :
  registry_map_loop bracketed_host_ok rows mapped = Ok mapped' ->
  mapped' !! key
  = match last (List.filter (has_identity bracketed_host_ok key) rows) with
    | Some row => Some row
    | None => mapped !! key
    end.
Proof.
  revert mapped. induction rows as [| row rows IH]; intros mapped; simpl.
  - intros [= <-]. reflexivity.
  - unfold has_identity at 1, row_identity.
    destruct (normalize _) as [norm |]; simpl; [| discriminate].
    destruct (identity norm) as [k |] eqn:Hk; simpl; [| discriminate].
    rewrite (node_identity_truthy _ _ Hk).
    intros Hloop. rewrite (IH _ Hloop).
    destruct (String.eqb k key) eqn:E.
    + apply String.eqb_eq in E. subst k. rewrite last_cons.
      destruct (last _); [reflexivity |]. apply lookup_insert_eq.
    + apply String.eqb_neq in E.
      destruct (last _); [reflexivity |]. apply lookup_insert_ne. exact E.
Qed.

Lemma registry_rows_to_map_lookup (nodes_payload : JSON)
    (mapped : gmap string dict) (rows : list dict) (key : string) :
  _registry_rows_to_map bracketed_host_ok nodes_payload = Ok (mapped, rows) ->
  rows = registry_rows_of nodes_payload
  /\ mapped !! key = last (List.filter (has_identity bracketed_host_ok key) rows).
Proof.
  unfold _registry_rows_to_map.
  destruct (registry_map_loop _ _ _) as [mapped0 |] eqn:Hloop; simpl; [| discriminate].
  intros [= <- <-]. split; [reflexivity |].
  rewrite (registry_map_loop_lookup _ _ _ key Hloop).
  destruct (last _); [reflexivity | apply lookup_empty].
Qed.

Lemma row_identity_raises (row : dict) (e : exn) :
  row_identity bracketed_host_ok row = Raise e -> e = ValueError.
Proof.
  unfold row_identity.
  destruct (normalize _) as [norm |] eqn:Hn; simpl.
  - apply node_identity_raises.
  - intros [= <-]. eapply normalize_base_url_raises; eassumption.
Qed.

Lemma registry_map_loop_cons (row : dict) (rows : list dict) (mapped : gmap string dict) :
  registry_map_loop bracketed_host_ok (row :: rows) mapped
  = (key ← row_identity bracketed_host_ok row;
     registry_map_loop bracketed_host_ok rows (<[key := row]> mapped)).
Proof.
  simpl. unfold row_identity.
  destruct (normalize _) as [norm |]; simpl; [| reflexivity].
  destruct (identity norm) as [k |] eqn:Hk; simpl; [| reflexivity].
  rewrite (node_identity_truthy _ _ Hk). reflexivity.
Qed.

Lemma registry_map_loop_raises (rows : list dict) (mapped : gmap string dict) (e : exn) :
  registry_map_loop bracketed_host_ok rows mapped = Raise e ->
  e = ValueError
  /\ exists row, row ∈ rows /\ row_identity bracketed_host_ok row = Raise ValueError.
Proof.
  revert mapped. induction rows as [| row rows IH]; intros mapped; [discriminate |].
  rewrite registry_map_loop_cons.
  destruct (row_identity bracketed_host_ok row) as [k |] eqn:Hid; simpl.
  - intros Hloop. destruct (IH _ Hloop) as (-> & row' & Hin & Hrow').
    split; [reflexivity |]. exists row'. split; [right; exact Hin | exact Hrow'].
  - intros [= <-]. pose proof (row_identity_raises _ _ Hid) as ->.
    split; [reflexivity |]. exists row. split; [left | exact Hid].
Qed.

(** The registry map. When [_registry_rows_to_map] returns, its rows are
    the dictionaries of the payload's list, and the map holds under each
    identity the last row filed under it (a later registry row replaces an
    earlier one of the same identity); a row whose URL text normalizes to
    the empty string is filed under the identity [:80]. The function raises
    nothing but [ValueError], and raises it as soon as the URL text of one
    row cannot be normalized and keyed. *)
Theorem registry_map_last_wins (nodes_payload : JSON) :
  match _registry_rows_to_map bracketed_host_ok nodes_payload with
  | Ok (mapped, rows) =>
      rows = registry_rows_of nodes_payload
      /\ (forall key,
            mapped !! key = last (List.filter (has_identity bracketed_host_ok key) rows))
      /\ (forall row,
            row ∈ rows -> blank_url bracketed_host_ok row = true ->
            has_identity bracketed_host_ok ":80" row = true)
      /\ Forall (fun row => exists key, row_identity bracketed_host_ok row = Ok key) rows
  | Raise e =>
      e = ValueError
      /\ exists row,
           row ∈ registry_rows_of nodes_payload
           /\ row_identity bracketed_host_ok row = Raise ValueError
  end.
Proof.
  unfold _registry_rows_to_map.
  destruct (registry_map_loop _ _ _) as [mapped |] eqn:Hloop; simpl.
  - split; [reflexivity |]. split; [| split].
    + intros key. rewrite (registry_map_loop_lookup _ _ _ key Hloop).
      destruct (last _); [reflexivity | apply lookup_empty].
    + intros row _. unfold blank_url, has_identity, row_identity.
      destruct (normalize _) as [[| c u] |]; simpl; [| discriminate | discriminate].
      intros _. reflexivity.
    + apply Forall_forall. intros row Hin.
      destruct (registry_map_loop_ok _ _ _ _ _ Hloop Hin) as (n & k & Hn & Hk).
      exists k. unfold row_identity. rewrite Hn. exact Hk.
  - exact (registry_map_loop_raises _ _ _ Hloop).
Qed.

End RegistryMap.

Section RowMetadata.
Import PyStr.

Variable bracketed_host_ok : string -> bool.

#[local] Abbreviation identity := (node_identity bracketed_host_ok).

Lemma node_row_metadata (seed : string) (network_version : JSON) (registry : dict)
    (key node_url : string) (health_payload : JSON)
    (health_err miners_err : option string) :
  let row := fst (node_row seed network_version registry key node_url
                    health_payload health_err miners_err) in
  NodeRow.node_id row = Py.or (Py.dict_get "node_id" registry JNull) (JStr key)
  /\ NodeRow.name row = Py.or (Py.dict_get "name" registry JNull) (JStr key)
  /\ NodeRow.wallet row = Py.dict_get "wallet" registry JNull
  /\ NodeRow.is_active row
     = Py.truthy (Py.dict_get "is_active" registry (JBool (String.eqb node_url seed))).
Proof.
  cbv zeta. unfold node_row.
  destruct health_payload; simpl;
    destruct (classify_node_host _ _ _ _); repeat split; reflexivity.
Qed.

Variable World : Type.
Variable http_get : string -> World -> Response * World.

(** The registry data of a scanned row. In a report, the node rows are
    the scanned rows followed by the rows for registry rows without URL;
    each scanned row has an identity, and takes its id, name, wallet and
    declared activity from the last registry row filed under that identity:
    id and name fall back to the identity, the wallet to [None], and the
    activity to whether the row's URL is the seed of the run. *)
Theorem scanned_row_metadata (seed_node : string) (node_url : list string)
    (w w' : World) (scan : Scan.t) :
  build_report bracketed_host_ok World http_get seed_node node_url w = Ok (scan, w') ->
  exists scanned,
    Scan.node_rows scan
    = (scanned
       ++ map missing_url_row
            (List.filter (blank_url bracketed_host_ok) (Scan.registry_rows scan)))%list
    /\ Forall (fun r =>
                 exists key,
                   identity (NodeRow.url r) = Ok key
                   /\ let registry :=
                        default []
                          (last (List.filter (has_identity bracketed_host_ok key)
                                   (Scan.registry_rows scan))) in
                      NodeRow.node_id r
                      = Py.or (Py.dict_get "node_id" registry JNull) (JStr key)
                      /\ NodeRow.name r
                         = Py.or (Py.dict_get "name" registry JNull) (JStr key)
                      /\ NodeRow.wallet r = Py.dict_get "wallet" registry JNull
                      /\ NodeRow.is_active r
                         = Py.truthy
                             (Py.dict_get "is_active" registry
                                (JBool (String.eqb (NodeRow.url r) (Scan.seed scan)))))
         scanned.
Proof.
  intros Hrun.
  destruct (build_report_stages _ _ _ _ _ _ _ _ Hrun)
    as (np & registry_map & trace & _ & Hmap & _ & _ & Hobs & Hrows & _).
  eexists. split; [exact Hrows |].
  apply Forall_forall. intros r Hr.
  apply list_elem_of_fmap in Hr. destruct Hr as (o & -> & Ho).
  rewrite Forall_forall in Hobs. destruct (Hobs _ Ho) as (Hkey & _).
  exists (Observation.key o). unfold observed_row.
  destruct (registry_rows_to_map_lookup _ _ _ _ (Observation.key o) Hmap) as [_ ->].
  pose proof (node_row_payout (Scan.seed scan) (Scan.network_version scan)
                (default [] (last (List.filter
                                     (has_identity bracketed_host_ok (Observation.key o))
                                     (Scan.registry_rows scan))))
                (Observation.key o) (Observation.url o) (Observation.health_payload o)
                (Observation.health_err o) (Observation.miners_err o))
    as (_ & _ & Hurl & _).
  cbv zeta in Hurl. rewrite Hurl. split; [exact Hkey |].
  apply node_row_metadata.
Qed.

(** An unregistered candidate is not paid. In a report, a scanned row
    under whose identity the registry files no row carries the identity as
    id and name and no wallet, and counts as active only if its URL is the
    seed of the run; so a candidate given by the operator and unknown to the
    registry gets [inactive_no_payout] whatever its health. *)
Theorem unregistered_candidate_not_paid (seed_node : string) (node_url : list string)
    (w w' : World) (scan : Scan.t) (r : NodeRow.t) (key : string) :
  build_report bracketed_host_ok World http_get seed_node node_url w = Ok (scan, w') ->
  r ∈ Scan.node_rows scan ->
  NodeRow.suggested_action r <> "missing_url_or_redacted" ->
  identity (NodeRow.url r) = Ok key ->
  List.filter (has_identity bracketed_host_ok key) (Scan.registry_rows scan) = [] ->
  NodeRow.node_id r = JStr key
  /\ NodeRow.name r = JStr key
  /\ NodeRow.wallet r = JNull
  /\ NodeRow.is_active r = String.eqb (NodeRow.url r) (Scan.seed scan)
  /\ (NodeRow.url r <> Scan.seed scan ->
      NodeRow.payout_eligible r = false
      /\ NodeRow.suggested_action r = "inactive_no_payout").
Proof.
  intros Hrun Hr Hact Hkey Hnone.
  destruct (build_report_stages _ _ _ _ _ _ _ _ Hrun)
    as (np & registry_map & trace & _ & Hmap & _ & _ & Hobs & Hrows & _).
  rewrite Hrows in Hr. apply elem_of_app in Hr. destruct Hr as [Hr | Hr].
  2: { apply list_elem_of_fmap in Hr. destruct Hr as (row & -> & _).
       exfalso. apply Hact. reflexivity. }
  apply list_elem_of_fmap in Hr. destruct Hr as (o & -> & Ho).
  rewrite Forall_forall in Hobs. destruct (Hobs _ Ho) as (Hko & _).
  unfold observed_row in *.
  destruct (registry_rows_to_map_lookup _ _ _ _ (Observation.key o) Hmap) as [_ Hlook].
  pose proof (node_row_payout (Scan.seed scan) (Scan.network_version scan)
                (default [] (registry_map !! Observation.key o))
                (Observation.key o) (Observation.url o) (Observation.health_payload o)
                (Observation.health_err o) (Observation.miners_err o))
    as (Hpay & Haction & Hurl & _).
  pose proof (node_row_metadata (Scan.seed scan) (Scan.network_version scan)
                (default [] (registry_map !! Observation.key o))
                (Observation.key o) (Observation.url o) (Observation.health_payload o)
                (Observation.health_err o) (Observation.miners_err o))
    as (Hid & Hname & Hwallet & Hactive).
  cbv zeta in Hpay, Haction, Hurl, Hid, Hname, Hwallet, Hactive.
  set (row := fst (node_row _ _ _ _ _ _ _ _)) in *.
  rewrite Hurl in Hkey. rewrite Hko in Hkey. injection Hkey as <-.
  rewrite Hlook, Hnone in Hid, Hname, Hwallet, Hactive. simpl in Hid, Hname, Hwallet, Hactive.
  rewrite Hurl. repeat split; try assumption.
  - rewrite Hpay, Hactive.
    destruct (String.eqb (Observation.url o) (Scan.seed scan)) eqn:E; [| reflexivity].
    apply String.eqb_eq in E. congruence.
  - rewrite Haction, Hactive.
    destruct (String.eqb (Observation.url o) (Scan.seed scan)) eqn:E; [| reflexivity].
    apply String.eqb_eq in E. congruence.
Qed.

End RowMetadata.

Lemma unregistered_candidate_not_paid_witness :
  let http_get := fun (_ : string) (w : unit) =>
    (RJson (JDict [("ok", JBool true); ("version", JStr "2.2.1-rip200")]), w) in
  exists scan r,
    build_report (fun _ => true) unit http_get "https://50.28.86.131"
      ["node.example:8443"] tt = Ok (scan, tt)
    /\ r ∈ Scan.node_rows scan
    /\ NodeRow.url r = "https://node.example:8443"
    /\ NodeRow.online r = true
    /\ NodeRow.node_id r = JStr "node.example:8443"
    /\ NodeRow.payout_eligible r = false
    /\ NodeRow.suggested_action r = "inactive_no_payout".
Proof.
  intros http_get.
  destruct (build_report (fun _ => true) unit http_get "https://50.28.86.131"
              ["node.example:8443"] tt) as [[scan []] | e] eqn:Hrun;
    [| vm_compute in Hrun; discriminate].
  assert (Hscan : exists r0 r,
             Scan.node_rows scan = [r0; r]
             /\ NodeRow.url r = "https://node.example:8443"
             /\ NodeRow.online r = true
             /\ NodeRow.suggested_action r = "inactive_no_payout"
             /\ Scan.seed scan = "https://50.28.86.131"
             /\ Scan.registry_rows scan = []).
  { vm_compute in Hrun. injection Hrun as <-. do 2 eexists. repeat split. }
  destruct Hscan as (r0 & r & Hrows & Hurl & Honline & Haction & Hseed & Hreg).
  exists scan, r.
  assert (Hin : r ∈ Scan.node_rows scan) by (rewrite Hrows; right; left).
  destruct (unregistered_candidate_not_paid (fun _ => true) unit http_get _ _ _ _ _
              r "node.example:8443" Hrun Hin)
    as (Hid & _ & _ & _ & Hpay).
  - rewrite Haction. discriminate.
  - rewrite Hurl. reflexivity.
  - rewrite Hreg. reflexivity.
  - destruct Hpay as [Hpay _]; [rewrite Hurl, Hseed; discriminate |].
    repeat split; assumption.
Defined.

(* ===================================================================== *)
(** * The row of the seed *)
(* ===================================================================== *)

Section SeedRow.
Import PyStr.

Variable bracketed_host_ok : string -> bool.

#[local] Abbreviation normalize := (normalize_base_url bracketed_host_ok).
#[local] Abbreviation identity := (node_identity bracketed_host_ok).

(** The first candidate is the normal form of the seed, unless that is
    empty. *)
Lemma reconcile_head (seed : string) (registry_rows : list dict)
    (node_url node_urls : list string) (n : string) :
  reconcile bracketed_host_ok seed registry_rows node_url = Ok node_urls ->
  normalize seed = Ok n -> n <> "" ->
  exists rest, node_urls = n :: rest.
Proof.
  intros Hrec Hn Hne.
  destruct (reconcile_keyed _ _ _ _ _ Hrec) as (normalized & keyed & Hnorm & Hkeyed & ->).
  simpl in Hnorm. rewrite Hn in Hnorm. simpl in Hnorm.
  destruct (normalize_each _ _) as [ns |]; simpl in Hnorm; [| discriminate].
  injection Hnorm as <-.
  rewrite drop_empties_cons in Hkeyed.
  replace (truthy n) with true in Hkeyed by (destruct n; [congruence | reflexivity]).
  simpl in Hkeyed.
  destruct (identity n) as [k |]; simpl in Hkeyed; [| discriminate].
  destruct (with_identity _ _) as [keyed' |]; simpl in Hkeyed; [| discriminate].
  injection Hkeyed as <-. simpl. eexists. reflexivity.
Qed.

Variable World : Type.
Variable http_get : string -> World -> Response * World.

(** The seed comes first. For a seed argument [scheme://authority],
    followed or not by a path, with a plain authority, the seed of the run
    is the canonical URL, it is the first candidate and the first node row
    is its row; that row is declared active unless the last registry row
    filed under its identity says otherwise. *)
Theorem seed_row_first (s a rest : string) (node_url : list string)
    (w w' : World) (scan : Scan.t) :
  valid_scheme s -> plain_authority a -> after_authority rest ->
  build_report bracketed_host_ok World http_get (s ++ "://" ++ a ++ rest) node_url w
  = Ok (scan, w') ->
  Scan.seed scan = lower s ++ "://" ++ a
  /\ exists key urls r rows,
       identity (Scan.seed scan) = Ok key
       /\ Scan.node_urls scan = Scan.seed scan :: urls
       /\ Scan.node_rows scan = r :: rows
       /\ NodeRow.url r = Scan.seed scan
       /\ NodeRow.is_active r
          = Py.truthy
              (Py.dict_get "is_active"
                 (default []
                    (last (List.filter (has_identity bracketed_host_ok key)
                             (Scan.registry_rows scan))))
                 (JBool true)).
Proof.
  intros Hs Ha Hrest Hrun.
  destruct (build_report_stages _ _ _ _ _ _ _ _ Hrun)
    as (np & registry_map & trace & Hseed & Hmap & Hrec & Hurls & Hobs & Hrows & _).
  rewrite (normalize_with_scheme _ s a rest Hs Ha Hrest) in Hseed.
  injection Hseed as Hseed.
  split; [symmetry; exact Hseed |].
  assert (Hidem : normalize (Scan.seed scan) = Ok (Scan.seed scan)).
  { rewrite <- Hseed.
    pose proof (normalize_with_scheme bracketed_host_ok (lower s) a ""
                  (valid_scheme_lower s Hs) Ha I) as Hn.
    rewrite append_nil_r, lower_idem in Hn. exact Hn. }
  assert (Hne : Scan.seed scan <> "").
  { rewrite <- Hseed. destruct s; [destruct Hs | discriminate]. }
  destruct (reconcile_head _ _ _ _ _ Hrec Hidem Hne) as [urls Hhead].
  rewrite Hhead in Hurls.
  destruct trace as [| o trace]; [discriminate |].
  simpl in Hurls. injection Hurls as Ho Hurls.
  apply Forall_cons in Hobs. destruct Hobs as [(Hkey & _) _].
  exists (Observation.key o), urls. simpl in Hrows. do 2 eexists.
  rewrite <- Ho at 1. split; [exact Hkey |].
  split; [exact Hhead |]. split; [exact Hrows |].
  unfold observed_row.
  destruct (registry_rows_to_map_lookup _ _ _ _ (Observation.key o) Hmap) as [_ Hlook].
  pose proof (node_row_payout (Scan.seed scan) (Scan.network_version scan)
                (default [] (registry_map !! Observation.key o))
                (Observation.key o) (Observation.url o) (Observation.health_payload o)
                (Observation.health_err o) (Observation.miners_err o))
    as (_ & _ & Hurl & _).
  pose proof (node_row_metadata (Scan.seed scan) (Scan.network_version scan)
                (default [] (registry_map !! Observation.key o))
                (Observation.key o) (Observation.url o) (Observation.health_payload o)
                (Observation.health_err o) (Observation.miners_err o))
    as (_ & _ & _ & Hactive).
  cbv zeta in Hurl, Hactive. rewrite Hurl, Hactive, Hlook, Ho.
  rewrite String.eqb_refl. split; reflexivity.
Qed.

End SeedRow.

Lemma seed_row_first_witness :
  let http_get := fun (_ : string) (w : unit) => (RFail "timeout", w) in
  exists scan r rows,
    build_report (fun _ => true) unit http_get "HTTPS://50.28.86.131/" [] tt = Ok (scan, tt)
    /\ Scan.seed scan = "https://50.28.86.131"
    /\ Scan.node_rows scan = r :: rows
    /\ NodeRow.url r = "https://50.28.86.131"
    /\ NodeRow.is_active r = true.
Proof.
  intros http_get.
  destruct (build_report (fun _ => true) unit http_get "HTTPS://50.28.86.131/" [] tt)
    as [[scan []] | e] eqn:Hrun; [| vm_compute in Hrun; discriminate].
  assert (Hs : valid_scheme "HTTPS") by (split; reflexivity).
  assert (Ha : plain_authority "50.28.86.131") by (split; [discriminate | reflexivity]).
  assert (Hrest : after_authority "/") by reflexivity.
  destruct (seed_row_first (fun _ => true) unit http_get "HTTPS" "50.28.86.131" "/"
              [] tt tt scan Hs Ha Hrest Hrun)
    as (Hseed & key & urls & r & rows & _ & _ & Hrows & Hurl & Hactive).
  exists scan, r, rows.
  assert (Hreg : Scan.registry_rows scan = [])
    by (vm_compute in Hrun; injection Hrun as <-; reflexivity).
  rewrite Hreg in Hactive. rewrite Hurl, Hseed.
  repeat split; assumption.
Defined.

(* ===================================================================== *)
(** * Further properties of the normalizer and the identity *)
(* ===================================================================== *)

Section IdentityShape.
Import PyStr UrlLib.

#[local] Arguments String.append : simpl nomatch.

Variable bracketed_host_ok : string -> bool.

#[local] Abbreviation normalize := (normalize_base_url bracketed_host_ok).
#[local] Abbreviation identity := (node_identity bracketed_host_ok).

Lemma digit_val_range (c : ascii) :
  is_ascii_digit c = true ->
  0 <= digit_val c <= 9 /\ is_int_space c = false
  /\ is_char "+" c = false /\ is_char "-" c = false.
Proof.
  destruct c as [[] [] [] [] [] [] [] []]; vm_compute; intros; repeat split;
    congruence.
Qed.

Lemma digits_val_nonneg (ds : string) (acc : Z) :
  all_chars is_ascii_digit ds = true -> 0 <= acc -> 0 <= digits_val acc ds.
Proof.
  revert acc. induction ds as [| c ds IH]; intros acc Hds Hacc; simpl; [exact Hacc |].
  simpl in Hds. apply andb_true_iff in Hds. destruct Hds as [Hc Hds].
  apply IH; [exact Hds |]. destruct (digit_val_range c Hc) as [Hr _]. lia.
Qed.

Lemma int_digits_digits (ds : string) (after_digit : bool) :
  all_chars is_ascii_digit ds = true -> ds <> "" ->
  int_digits after_digit ds = Some ds.
Proof.
  revert after_digit. induction ds as [| c ds IH]; intros after_digit Hds Hne;
    [congruence |].
  simpl in Hds. apply andb_true_iff in Hds. destruct Hds as [Hc Hds].
  simpl. rewrite Hc. destruct ds as [| c' ds'].
  - reflexivity.
  - rewrite (IH true Hds ltac:(discriminate)). reflexivity.
Qed.

(** [int] of a string of digits. *)
Lemma int_of_str_digits (ds : string) :
  all_chars is_ascii_digit ds = true -> ds <> "" ->
  int_of_str ds
  = if Nat.leb (String.length ds) max_str_digits
    then Ok (digits_val 0 ds) else Raise ValueError.
Proof.
  intros Hds Hne. unfold int_of_str.
  assert (Hclean : all_chars (fun c => negb (is_int_space c)) ds = true).
  { eapply all_chars_not; [| exact Hds]. intros c Hc. apply (digit_val_range c Hc). }
  rewrite (rstrip_by_clean is_int_space) by
    (destruct ds as [| c ds']; [congruence |]; simpl in Hclean |- *;
     apply andb_true_iff in Hclean; destruct Hclean as [Hc Hrest];
     apply negb_true_iff in Hc; rewrite Hc; simpl; rewrite Hc, Hrest; reflexivity).
  destruct ds as [| c ds']; [congruence |].
  simpl in Hds, Hclean. apply andb_true_iff in Hds. destruct Hds as [Hc Hds'].
  apply andb_true_iff in Hclean. destruct Hclean as [Hsp _].
  apply negb_true_iff in Hsp. cbn [lstrip_by]. rewrite Hsp.
  destruct (digit_val_range c Hc) as (_ & _ & Hplus & Hminus).
  rewrite Hplus, Hminus.
  rewrite (int_digits_digits (String c ds') false)
    by (simpl; try rewrite Hc, Hds'; try reflexivity; discriminate).
  reflexivity.
Qed.

(** The shape of an identity. Whenever [node_identity] returns, the
    identity is a host text, a colon and a port number between 0 and 65535
    in decimal; it is never empty, and the identity of the empty URL is
    [:80]. *)
Theorem node_identity_shape (url key : string) :
  identity url = Ok key ->
  (exists host port,
     key = host ++ ":" ++ of_Z port /\ 0 <= port <= 65535)
  /\ key <> ""
  /\ identity "" = Ok ":80".
Proof.
  intros Hkey. split; [| split; [| reflexivity]].
  - revert Hkey. unfold node_identity.
    destruct (urlparse _ url) as [parsed |]; simpl; [| discriminate].
    unfold port.
    destruct (snd (_hostinfo (netloc parsed))) as [pt |]; simpl.
    + destruct (all_chars is_ascii_digit pt) eqn:Hds; simpl; [| discriminate].
      destruct pt as [| c pt'] eqn:Hpt.
      * intros H. vm_compute in H. discriminate.
      * rewrite <- Hpt in *.
        rewrite (int_of_str_digits pt Hds ltac:(subst pt; discriminate)).
        destruct (Nat.leb _ _); simpl; [| discriminate].
        destruct (digits_val 0 pt <=? 65535) eqn:Hle; simpl; [| discriminate].
        intros [= <-]. do 2 eexists. split; [reflexivity |].
        apply Z.leb_le in Hle. split; [| exact Hle].
        apply digits_val_nonneg; [exact Hds | lia].
    + intros [= <-]. do 2 eexists. split; [reflexivity |].
      destruct (String.eqb _ _); lia.
  - apply truthy_nonempty. eapply node_identity_truthy. exact Hkey.
Qed.


End IdentityShape.

Lemma node_identity_shape_witness :
  exists host port,
    "50.28.86.131:8099" = (host ++ ":" ++ PyStr.of_Z port)%string /\ 0 <= port <= 65535.
Proof.
  exact (proj1 (node_identity_shape (fun _ => true) "HTTP://50.28.86.131:8099/api"
                  "50.28.86.131:8099" eq_refl)).
Defined.


Section Blanks.
Import PyStr.

Variable bracketed_host_ok : string -> bool.

#[local] Abbreviation normalize := (normalize_base_url bracketed_host_ok).

Lemma lstrip_by_app (p : ascii -> bool) (a b : string) :
  lstrip_by p (a ++ b) = if all_chars p a then lstrip_by p b else lstrip_by p a ++ b.
Proof.
  induction a as [| c a IH]; simpl; [reflexivity |].
  destruct (p c); simpl; [exact IH | reflexivity].
Qed.

Lemma rstrip_by_app_blank (p : ascii -> bool) (a b : string) :
  all_chars p b = true -> rstrip_by p (a ++ b) = rstrip_by p a.
Proof.
  intros Hb. induction a as [| c a IH]; simpl.
  - apply rstrip_by_empty_iff. exact Hb.
  - rewrite IH. reflexivity.
Qed.

Lemma strip_blanks (a raw b : string) :
  all_chars is_space a = true -> all_chars is_space b = true ->
  strip (a ++ raw ++ b) = strip raw.
Proof.
  intros Ha Hb. unfold strip.
  rewrite lstrip_by_app, Ha, lstrip_by_app.
  destruct (all_chars is_space raw) eqn:Hraw.
  - replace (lstrip_by is_space b) with "".
    + symmetry. apply rstrip_by_empty_iff.
      clear -Hraw. induction raw as [| c raw IH]; simpl in *; [reflexivity |].
      apply andb_true_iff in Hraw. destruct Hraw as [Hc Hraw]. rewrite Hc. exact (IH Hraw).
    + clear -Hb. induction b as [| c b IH]; simpl in *; [reflexivity |].
      apply andb_true_iff in Hb. destruct Hb as [Hc Hb]. rewrite Hc. exact (IH Hb).
  - apply rstrip_by_app_blank. exact Hb.
Qed.

(** White space around a URL does not count: the normalizer gives the same
    result, or raises alike, with any white space added before and after
    its argument; in particular it is insensitive to the line end a
    registry or a shell leaves on a URL. *)
Theorem normalize_ignores_blanks (a raw b : string) :
  all_chars is_space a = true -> all_chars is_space b = true ->
  normalize (a ++ raw ++ b) = normalize raw.
Proof.
  intros Ha Hb. unfold normalize_base_url. rewrite (strip_blanks a raw b Ha Hb).
  reflexivity.
Qed.

End Blanks.

Lemma normalize_ignores_blanks_witness :
  normalize_base_url (fun _ => true)
    (String (ascii_of_nat 9) " " ++ "Node.Example:8443/api" ++ String (ascii_of_nat 10) "")
  = Ok "https://Node.Example:8443".
Proof.
  rewrite (normalize_ignores_blanks (fun _ => true) (String (ascii_of_nat 9) " ")
             "Node.Example:8443/api" (String (ascii_of_nat 10) "") eq_refl eq_refl).
  reflexivity.
Defined.

(* ===================================================================== *)
(** * The aggregate in closed form *)
(* ===================================================================== *)

Lemma sightings_of_snoc (m : string) (l : list (string * dict)) (s : string * dict) :
  sightings_of m (l ++ [s])
  = (sightings_of m l
     ++ if String.eqb (row_miner_id (snd s)) m then [s] else [])%list.
Proof. unfold sightings_of. rewrite List.filter_app. reflexivity. Qed.

Lemma positive_timestamps_unsighted (m : string) (l : list (string * dict)) :
  sightings_of m l = [] -> positive_timestamps m l = [].
Proof.
  induction l as [| s l IH]; [reflexivity |].
  unfold sightings_of, positive_timestamps in *. cbn [List.filter].
  change (omap ?f (?x :: ?l0))
    with (match f x with Some y => y :: omap f l0 | None => omap f l0 end).
  unfold positive_timestamp at 1.
  destruct (String.eqb (row_miner_id (snd s)) m); [discriminate | exact IH].
Qed.

Lemma latest_snoc (ts : list Z) (z : Z) :
  latest (ts ++ [z])
  = match latest ts with Some y => Some (Z.max y z) | None => Some z end.
Proof. unfold latest. rewrite foldl_app. reflexivity. Qed.

Lemma latest_positive (ts : list Z) :
  Forall (fun t => 0 < t) ts ->
  match latest ts with Some y => 0 < y | None => ts = [] end.
Proof.
  induction ts as [| t ts IH] using rev_ind; [reflexivity |].
  intros Hall. apply Forall_app in Hall. destruct Hall as [Hts Ht].
  apply Forall_cons in Ht. destruct Ht as [Ht _].
  rewrite latest_snoc. specialize (IH Hts).
  destruct (latest ts); lia.
Qed.

Lemma latest_update (ts : list Z) (z : Z) :
  Forall (fun t => 0 < t) ts ->
  (if (negb (z =? 0) && (last_attest_or_0 (latest ts) <? z))%bool
   then Some z else latest ts)
  = latest (ts ++ if 0 <? z then [z] else [])%list.
Proof.
  intros Hall. pose proof (latest_positive ts Hall) as Hpos.
  destruct (0 <? z) eqn:Hz.
  - apply Z.ltb_lt in Hz. rewrite latest_snoc.
    replace (z =? 0) with false by (symmetry; apply Z.eqb_neq; lia). simpl.
    destruct (latest ts) as [y |]; simpl.
    + destruct (y <? z) eqn:Hy.
      * apply Z.ltb_lt in Hy. f_equal. lia.
      * apply Z.ltb_ge in Hy. f_equal. lia.
    + replace (0 <? z) with true by (symmetry; apply Z.ltb_lt; lia). reflexivity.
  - apply Z.ltb_ge in Hz. rewrite app_nil_r.
    destruct (z =? 0) eqn:Hz0; simpl; [reflexivity |].
    apply Z.eqb_neq in Hz0.
    destruct (latest ts) as [y |]; simpl.
    + replace (y <? z) with false by (symmetry; apply Z.ltb_ge; lia). reflexivity.
    + replace (0 <? z) with false by (symmetry; apply Z.ltb_ge; lia). reflexivity.
Qed.

Lemma first_occurrences_snoc (ns : list string) (n : string) :
  first_occurrences (ns ++ [n])
  = if bool_decide (n ∈ first_occurrences ns) then first_occurrences ns
    else (first_occurrences ns ++ [n])%list.
Proof. unfold first_occurrences. rewrite foldl_app. reflexivity. Qed.

Lemma record_of_step (l : list (string * dict)) (agg agg' : gmap string MinerRecord.t)
    (n : string) (row : dict) :
  (forall m, agg !! m = record_of m l) ->
  aggregate_row n agg row = Ok agg' ->
  forall m, agg' !! m = record_of m (l ++ [(n, row)]).
Proof.
  intros Hinv Hrow m. unfold aggregate_row in Hrow.
  assert (Hother : String.eqb (row_miner_id row) m = false ->
                   record_of m (l ++ [(n, row)]) = record_of m l).
  { intros Hne. unfold record_of.
    rewrite sightings_of_snoc, positive_timestamps_snoc. simpl.
    unfold positive_timestamp. simpl. rewrite Hne, !app_nil_r. reflexivity. }
  destruct (PyStr.truthy (row_miner_id row)) eqn:Hid; simpl in Hrow.
  2: { injection Hrow as <-. rewrite Hinv.
       destruct (String.eqb (row_miner_id row) m) eqn:E; [| symmetry; exact (Hother eq_refl)].
       apply String.eqb_eq in E. subst m. unfold record_of. rewrite Hid. reflexivity. }
  destruct (row_last_attest row) as [z |] eqn:Hz; simpl in Hrow; [| discriminate].
  destruct (String.eqb (row_miner_id row) m) eqn:E.
  2: { rewrite (Hother eq_refl). apply String.eqb_neq in E.
       destruct (agg !! row_miner_id row); injection Hrow as <-;
         rewrite lookup_insert_ne by exact E; apply Hinv. }
  apply String.eqb_eq in E. subst m.
  assert (Hstep : record_of (row_miner_id row) (l ++ [(n, row)])
                  = match sightings_of (row_miner_id row) l with
                    | [] =>
                        Some (MinerRecord.mk (row_miner_id row)
                                (if 0 <? z then Some z else None)
                                (Py.dict_get "first_attest" row JNull)
                                (Py.dict_get "device_family" row JNull)
                                (Py.dict_get "device_arch" row JNull)
                                (Py.dict_get "hardware_type" row JNull)
                                (Py.dict_get "entropy_score" row JNull)
                                (Py.dict_get "antiquity_multiplier" row JNull)
                                [n])
                    | (_, row0) :: _ =>
                        Some (MinerRecord.mk (row_miner_id row)
                                (latest (positive_timestamps (row_miner_id row) l
                                         ++ if 0 <? z then [z] else [])%list)
                                (Py.dict_get "first_attest" row0 JNull)
                                (Py.dict_get "device_family" row0 JNull)
                                (Py.dict_get "device_arch" row0 JNull)
                                (Py.dict_get "hardware_type" row0 JNull)
                                (Py.dict_get "entropy_score" row0 JNull)
                                (Py.dict_get "antiquity_multiplier" row0 JNull)
                                (first_occurrences
                                   (map fst (sightings_of (row_miner_id row) l) ++ [n])))
                    end).
  { unfold record_of. rewrite Hid. cbn [negb].
    rewrite sightings_of_snoc, positive_timestamps_snoc. cbn [snd].
    rewrite String.eqb_refl.
    unfold positive_timestamp. cbn [snd]. rewrite String.eqb_refl, Hz, map_app.
    destruct (sightings_of (row_miner_id row) l) as [| [n0 row0] rest] eqn:Hs.
    - rewrite (positive_timestamps_unsighted _ _ Hs). cbn [app map].
      destruct (0 <? z); reflexivity.
    - cbn [app map fst]. destruct (0 <? z); reflexivity. }
  rewrite Hstep. clear Hstep Hother.
  pose proof (Hinv (row_miner_id row)) as Hrec. unfold record_of in Hrec.
  rewrite Hid in Hrec. cbn [negb] in Hrec.
  destruct (sightings_of (row_miner_id row) l) as [| [n0 row0] rest] eqn:Hs.
  - rewrite Hrec in Hrow. injection Hrow as <-. apply lookup_insert_eq.
  - rewrite Hrec in Hrow. injection Hrow as <-. rewrite lookup_insert_eq. f_equal.
    cbn [MinerRecord.last_attest MinerRecord.nodes_seen].
    rewrite <- (latest_update _ z (positive_timestamps_positive _ _)).
    rewrite first_occurrences_snoc.
    destruct (negb (z =? 0) && _)%bool eqn:Hup;
      unfold MinerRecord.set_last_attest, MinerRecord.append_node;
      cbn [MinerRecord.nodes_seen MinerRecord.last_attest MinerRecord.miner
           MinerRecord.first_attest MinerRecord.device_family MinerRecord.device_arch
           MinerRecord.hardware_type MinerRecord.entropy_score
           MinerRecord.antiquity_multiplier];
      destruct (bool_decide _);
      cbn [MinerRecord.nodes_seen MinerRecord.last_attest MinerRecord.miner
           MinerRecord.first_attest MinerRecord.device_family MinerRecord.device_arch
           MinerRecord.hardware_type MinerRecord.entropy_score
           MinerRecord.antiquity_multiplier];
      reflexivity.
Qed.

Lemma aggregate_sightings_closed (l : list (string * dict))
    (agg : gmap string MinerRecord.t) :
  aggregate_sightings ∅ l = Ok agg -> forall m, agg !! m = record_of m l.
Proof.
  revert agg. induction l as [| [n row] l IH] using rev_ind; intros agg.
  - intros [= <-] m. rewrite lookup_empty. unfold record_of.
    destruct (negb (PyStr.truthy m)); reflexivity.
  - rewrite aggregate_sightings_app.
    destruct (aggregate_sightings ∅ l) as [agg0 |]; simpl; [| discriminate].
    destruct (aggregate_row n agg0 row) as [agg1 |] eqn:Hrow; simpl; [| discriminate].
    intros [= <-]. exact (record_of_step l agg0 agg1 n row (IH agg0 eq_refl) Hrow).
Qed.

(** The aggregate in closed form. When [_aggregate_miners] returns, the
    aggregate holds a record exactly for the non-empty miner ids sighted,
    and the record of a miner is a function of the sightings in fold order:
    its descriptive fields are those of the miner's first sighting, its
    [last_attest] is the largest positive timestamp among its sightings
    (absent when there is none), and its [nodes_seen] lists the nodes that
    reported it, each once, in the order in which they first did. *)
Theorem aggregate_closed_form (node_miners : list (string * list dict))
    (aggregate : gmap string MinerRecord.t) (m : string) :
  _aggregate_miners node_miners = Ok aggregate ->
  aggregate !! m = record_of m (sightings node_miners).
Proof.
  unfold _aggregate_miners. rewrite aggregate_nodes_sightings.
  intros Hagg. exact (aggregate_sightings_closed _ _ Hagg m).
Qed.

Lemma aggregate_closed_form_witness :
  exists aggregate,
    _aggregate_miners
      [("https://a", [[("miner", JStr "m1"); ("last_attest", JInt 100);
                       ("device_family", JStr "x86")]]);
       ("https://b", [[("miner", JStr " m1"); ("last_attest", JStr "200");
                       ("device_family", JStr "arm")];
                      [("miner", JStr "m2")]]);
       ("https://a", [[("miner", JStr "m1"); ("last_attest", JInt 0)]])]
    = Ok aggregate
    /\ aggregate !! "m1"
       = Some (MinerRecord.mk "m1" (Some 200) JNull (JStr "x86") JNull JNull JNull JNull
                 ["https://a"; "https://b"])
    /\ aggregate !! "m3" = None.
Proof.
  match goal with
  | |- exists a, ?run = Ok a /\ _ =>
      destruct run as [aggregate | e] eqn:Hrun; [| vm_compute in Hrun; discriminate]
  end.
  exists aggregate. split; [reflexivity |].
  rewrite !(aggregate_closed_form _ aggregate _ Hrun).
  split; reflexivity.
Defined.

Lemma aggregate_row_raises (n : string) (agg : gmap string MinerRecord.t) (row : dict)
    (e : exn) :
  aggregate_row n agg row = Raise e
  <-> row_miner_id row <> "" /\ row_last_attest row = Raise e.
Proof.
  unfold aggregate_row.
  destruct (PyStr.truthy (row_miner_id row)) eqn:Hid; simpl.
  - apply truthy_nonempty in Hid.
    destruct (row_last_attest row) as [z | e']; simpl.
    + destruct (agg !! row_miner_id row); split; try discriminate;
        intros [_ H]; discriminate H.
    + split; [intros [= <-]; split; [exact Hid | reflexivity] | intros [_ [= <-]]; reflexivity].
  - apply truthy_empty in Hid. split; [discriminate | intros [H _]; contradiction].
Qed.

(** When the aggregator raises. [_aggregate_miners] raises exactly when
    some sighting with a non-empty miner id has a [last_attest] that [int]
    rejects; the exception is that of the first such sighting in fold
    order, and no aggregate is returned. *)
Theorem aggregate_raises_on_first_bad_sighting (node_miners : list (string * list dict))
    (e : exn) :
  _aggregate_miners node_miners = Raise e
  <-> exists before s after,
        sightings node_miners = (before ++ s :: after)%list
        /\ Forall foldable before
        /\ row_miner_id (snd s) <> ""
        /\ row_last_attest (snd s) = Raise e.
Proof.
  unfold _aggregate_miners. rewrite aggregate_nodes_sightings.
  generalize (sightings node_miners) as l.
  generalize (∅ : gmap string MinerRecord.t) as agg.
  intros agg l. revert agg. induction l as [| [n row] l IH]; intros agg; simpl.
  - split; [discriminate |]. intros (before & s & after & H & _).
    destruct before; discriminate H.
  - destruct (aggregate_row n agg row) as [agg1 | e1] eqn:Hrow; simpl.
    + assert (Hfold : foldable (n, row)).
      { unfold foldable. simpl. unfold aggregate_row in Hrow.
        destruct (PyStr.truthy (row_miner_id row)) eqn:Hid; simpl in Hrow.
        - right. destruct (row_last_attest row) as [z |]; [eauto | discriminate].
        - left. apply truthy_empty. exact Hid. }
      rewrite IH. split.
      * intros (before & s & after & Hl & Hb & Hs).
        exists ((n, row) :: before), s, after. simpl. rewrite Hl.
        split; [reflexivity |]. split; [constructor; assumption | exact Hs].
      * intros (before & s & after & Hl & Hb & Hid & Hs).
        destruct before as [| b before]; simpl in Hl; injection Hl as <- Hl.
        -- exfalso. assert (Hr : aggregate_row n agg row = Raise e)
             by (apply aggregate_row_raises; split; assumption).
           congruence.
        -- apply Forall_cons in Hb. destruct Hb as [_ Hb].
           exists before, s, after. repeat split; assumption.
    + apply aggregate_row_raises in Hrow. destruct Hrow as [Hid He1]. split.
      * intros [= <-]. exists [], (n, row), l. repeat split; try assumption. constructor.
      * intros (before & s & after & Hl & Hb & Hid' & Hs).
        destruct before as [| b before]; simpl in Hl; injection Hl as <- Hl.
        -- simpl in Hs. congruence.
        -- apply Forall_cons in Hb. destruct Hb as [[Hb | [z Hb]] _]; simpl in Hb; congruence.
Qed.

(* ===================================================================== *)
(** * The example run *)
(* ===================================================================== *)

(** The run on the example network returns. *)
Ltac example_run Hrun :=
  match goal with
  | |- exists scan, ?run = Ok (scan, tt) /\ _ =>
      destruct run as [[scan []] | e] eqn:Hrun; [| vm_compute in Hrun; discriminate];
      exists scan; split; [reflexivity |]
  end.

Lemma node_rows_payout_rule_witness :
  exists scan,
    build_report (fun _ => true) unit example_network "https://50.28.86.131" [] tt
    = Ok (scan, tt)
    /\ map NodeRow.suggested_action (Scan.node_rows scan)
       = ["pay_weekly"; "pay_weekly_and_upgrade_node"; "missing_url_or_redacted"]
    /\ Forall (fun r =>
                 NodeRow.payout_eligible r = (NodeRow.is_active r && NodeRow.online r)%bool)
         (Scan.node_rows scan).
Proof.
  example_run Hrun.
  pose proof (node_rows_payout_rule (fun _ => true) unit example_network _ _ _ _ _ Hrun)
    as Hrule.
  split.
  - vm_compute in Hrun. injection Hrun as <-. reflexivity.
  - eapply Forall_impl; [exact Hrule |]. intros r (H & _). exact H.
Defined.

Lemma version_mismatch_rows_witness :
  exists scan,
    build_report (fun _ => true) unit example_network "https://50.28.86.131" [] tt
    = Ok (scan, tt)
    /\ map Mismatch.node_url (Scan.version_mismatch scan) = ["https://50.28.86.153:8099"]
    /\ length (Scan.version_mismatch scan)
       = length (List.filter
                   (fun r => String.eqb (NodeRow.suggested_action r)
                               "pay_weekly_and_upgrade_node")
                   (Scan.node_rows scan)).
Proof.
  example_run Hrun.
  pose proof (version_mismatch_rows (fun _ => true) unit example_network _ _ _ _ _ Hrun)
    as Hrows.
  split.
  - vm_compute in Hrun. injection Hrun as <-. reflexivity.
  - exact (Forall2_length _ _ _ Hrows).
Defined.

Lemma node_miners_by_candidate_witness :
  exists scan,
    build_report (fun _ => true) unit example_network "https://50.28.86.131" [] tt
    = Ok (scan, tt)
    /\ Scan.node_urls scan = ["https://50.28.86.131"; "https://50.28.86.153:8099"]
    /\ map fst (Scan.node_miners scan) = Scan.node_urls scan.
Proof.
  example_run Hrun.
  pose proof (node_miners_by_candidate (fun _ => true) unit example_network _ _ _ _ _ Hrun)
    as (Hkeys & _).
  split; [| exact Hkeys].
  vm_compute in Hrun. injection Hrun as <-. reflexivity.
Defined.

Lemma node_online_iff_json_object_witness :
  exists scan,
    build_report (fun _ => true) unit example_network "https://50.28.86.131" [] tt
    = Ok (scan, tt)
    /\ Scan.node_urls scan = ["https://50.28.86.131"; "https://50.28.86.153:8099"]
    /\ exists row,
         Scan.node_rows scan !! 1%nat = Some row
         /\ NodeRow.url row = "https://50.28.86.153:8099"
         /\ NodeRow.online row = true.
Proof.
  example_run Hrun.
  assert (Hurls : Scan.node_urls scan
                  = ["https://50.28.86.131"; "https://50.28.86.153:8099"]).
  { vm_compute in Hrun. injection Hrun as <-. reflexivity. }
  split; [exact Hurls |].
  destruct (node_online_iff_json_object (fun _ => true) unit example_network _ _ _ _ _ Hrun)
    as (w0 & _ & Hall).
  destruct (Hall 1%nat "https://50.28.86.153:8099" ltac:(rewrite Hurls; reflexivity))
    as (before & w_i & health & w_i' & row & _ & _ & Hrow & Hurl & _ & _ & Honline).
  exists row. split; [exact Hrow |]. split; [exact Hurl |].
  apply Honline. eexists. vm_compute. reflexivity.
Defined.

Lemma scanned_row_metadata_witness :
  exists scan,
    build_report (fun _ => true) unit example_network "https://50.28.86.131" [] tt
    = Ok (scan, tt)
    /\ map NodeRow.node_id (Scan.node_rows scan) = [JStr "n1"; JStr "n2"; JStr "n3"]
    /\ exists scanned,
         Scan.node_rows scan
         = (scanned
            ++ map missing_url_row
                 (List.filter (blank_url (fun _ => true)) (Scan.registry_rows scan)))%list
         /\ Forall (fun r => exists key, node_identity (fun _ => true) (NodeRow.url r) = Ok key)
              scanned.
Proof.
  example_run Hrun.
  pose proof (scanned_row_metadata (fun _ => true) unit example_network _ _ _ _ _ Hrun)
    as (scanned & Hrows & Hall).
  split.
  - vm_compute in Hrun. injection Hrun as <-. reflexivity.
  - exists scanned. split; [exact Hrows |].
    eapply Forall_impl; [exact Hall |]. intros r (key & Hkey & _). exists key. exact Hkey.
Defined.

(* ===================================================================== *)
(** * Properties of the UTC text of a timestamp *)
(* ===================================================================== *)

Section Calendar.
Import DateTime.

Lemma all_below_spec (n : nat) (p : Z -> bool) :
  all_below n p = true -> forall z, 0 <= z < Z.of_nat n -> p z = true.
Proof.
  induction n as [| n IH]; intros Hall z Hz; [lia |].
  simpl in Hall. apply andb_true_iff in Hall. destruct Hall as [Hn Hall].
  destruct (Z.eq_dec z (Z.of_nat n)) as [-> | Hne]; [exact Hn |].
  apply IH; [exact Hall | lia].
Qed.

(** Month and day of a day of the year, checked on every day. *)
Lemma month_day_spec (leapyear : bool) (n : Z) :
  0 <= n < (if leapyear then 366 else 365) ->
  let '(m, d) := month_day leapyear n in
  1 <= m <= 12
  /\ 1 <= d <= (if ((m =? 2) && leapyear)%bool then 29 else index _DAYS_IN_MONTH m)
  /\ index _DAYS_BEFORE_MONTH m + (if ((2 <? m) && leapyear)%bool then 1 else 0) + d
     = n + 1.
Proof.
  intros Hn.
  pose (ok := fun z =>
    let '(m, d) := month_day leapyear z in
    ((1 <=? m) && (m <=? 12) && (1 <=? d)
     && (d <=? (if ((m =? 2) && leapyear)%bool then 29 else index _DAYS_IN_MONTH m))
     && (index _DAYS_BEFORE_MONTH m + (if ((2 <? m) && leapyear)%bool then 1 else 0) + d
         =? z + 1))%bool).
  assert (Hall : all_below (if leapyear then 366 else 365) ok = true)
    by (destruct leapyear; vm_compute; reflexivity).
  pose proof (all_below_spec _ ok Hall n) as Hok.
  assert (Hrange : 0 <= n < Z.of_nat (if leapyear then 366 else 365))
    by (destruct leapyear; lia).
  specialize (Hok Hrange). unfold ok in Hok.
  destruct (month_day leapyear n) as [m d].
  repeat (apply andb_true_iff in Hok; destruct Hok as [Hok ?]).
  repeat split; lia.
Qed.

(** The cycles of 400, 100, 4 and 1 years that precede day [n]. *)
Lemma ord2ymd_unfold (n : Z) :
  let n400 := (n - 1) / _DI400Y in
  let r400 := (n - 1) mod _DI400Y in
  let n100 := r400 / _DI100Y in
  let r100 := r400 mod _DI100Y in
  let n4 := r100 / _DI4Y in
  let r4 := r100 mod _DI4Y in
  let n1 := r4 / 365 in
  let r1 := r4 mod 365 in
  let year := n400 * 400 + 1 + n100 * 100 + n4 * 4 + n1 in
  _ord2ymd n
  = if ((n1 =? 4) || (n100 =? 4))%bool then (year - 1, 12, 31)
    else
      let '(m, d) :=
        month_day ((n1 =? 3) && (negb (n4 =? 24) || (n100 =? 3)))%bool r1 in
      (year, m, d).
Proof.
  cbv zeta. unfold _ord2ymd, month_day. cbv zeta.
  destruct (_ || _)%bool; [reflexivity |].
  destruct (_ <? _); reflexivity.
Qed.

Lemma ord2ymd_spec (n : Z) :
  let '(y, m, d) := _ord2ymd n in
  1 <= m <= 12 /\ 1 <= d <= _days_in_month y m /\ _ymd2ord y m d = n.
Proof.
  rewrite ord2ymd_unfold. cbv zeta.
  unfold _DI400Y, _DI100Y, _DI4Y.
  pose proof (Z.div_mod (n - 1) 146097 ltac:(lia)) as E400.
  pose proof (Z.mod_pos_bound (n - 1) 146097 ltac:(lia)) as B400.
  set (a := (n - 1) / 146097) in *. set (r400 := (n - 1) mod 146097) in *.
  pose proof (Z.div_mod r400 36524 ltac:(lia)) as E100.
  pose proof (Z.mod_pos_bound r400 36524 ltac:(lia)) as B100.
  set (b := r400 / 36524) in *. set (r100 := r400 mod 36524) in *.
  pose proof (Z.div_mod r100 1461 ltac:(lia)) as E4.
  pose proof (Z.mod_pos_bound r100 1461 ltac:(lia)) as B4.
  set (c := r100 / 1461) in *. set (r4 := r100 mod 1461) in *.
  pose proof (Z.div_mod r4 365 ltac:(lia)) as E1.
  pose proof (Z.mod_pos_bound r4 365 ltac:(lia)) as B1.
  set (e := r4 / 365) in *. set (r1 := r4 mod 365) in *.
  clearbody a r400 b r100 c r4 e r1.
  assert (Hb : 0 <= b <= 4) by lia.
  assert (Hc : 0 <= c <= 24) by lia.
  assert (He : 0 <= e <= 4) by lia.
  destruct ((e =? 4) || (b =? 4))%bool eqn:Hspecial.
  - (* the last day of a leap year *)
    assert (Hcase : (e = 4 /\ b <= 3 /\ c <= 23 /\ r1 = 0)
                    \/ (b = 4 /\ c = 0 /\ e = 0 /\ r1 = 0)).
    { apply orb_true_iff in Hspecial. destruct Hspecial as [H | H];
        apply Z.eqb_eq in H; lia. }
    assert (Hleap : _is_leap (a * 400 + 1 + b * 100 + c * 4 + e - 1) = true).
    { unfold _is_leap. apply andb_true_iff. split.
      - apply Z.eqb_eq. Z.to_euclidean_division_equations. lia.
      - apply orb_true_iff. destruct Hcase as [Hcase | Hcase].
        + left. apply negb_true_iff. apply Z.eqb_neq.
          Z.to_euclidean_division_equations. lia.
        + right. apply Z.eqb_eq. Z.to_euclidean_division_equations. lia. }
    assert (Hdim : forall y, _days_in_month y 12 = 31) by reflexivity.
    assert (Hdbm : forall y, _is_leap y = true -> _days_before_month y 12 = 335)
      by (intros y Hy; unfold _days_before_month; rewrite Hy; reflexivity).
    rewrite Hdim. unfold _ymd2ord. rewrite (Hdbm _ Hleap). unfold _days_before_year.
    split; [lia |]. split; [lia |].
    Z.to_euclidean_division_equations. lia.
  - apply orb_false_iff in Hspecial. destruct Hspecial as [He4 Hb4].
    apply Z.eqb_neq in He4. apply Z.eqb_neq in Hb4.
    set (leapyear := ((e =? 3) && (negb (c =? 24) || (b =? 3)))%bool).
    assert (Hleap : _is_leap (a * 400 + 1 + b * 100 + c * 4 + e) = leapyear).
    { unfold _is_leap, leapyear.
      destruct (e =? 3) eqn:He3; [apply Z.eqb_eq in He3 | apply Z.eqb_neq in He3].
      - replace ((a * 400 + 1 + b * 100 + c * 4 + e) mod 4 =? 0) with true
          by (symmetry; apply Z.eqb_eq; Z.to_euclidean_division_equations; lia).
        cbn [andb]. destruct (c =? 24) eqn:Hc24;
          [apply Z.eqb_eq in Hc24 | apply Z.eqb_neq in Hc24].
        + replace ((a * 400 + 1 + b * 100 + c * 4 + e) mod 100 =? 0) with true
            by (symmetry; apply Z.eqb_eq; Z.to_euclidean_division_equations; lia).
          cbn [negb orb]. destruct (b =? 3) eqn:Hb3;
            [apply Z.eqb_eq in Hb3; apply Z.eqb_eq
            | apply Z.eqb_neq in Hb3; apply Z.eqb_neq];
            Z.to_euclidean_division_equations; lia.
        + replace ((a * 400 + 1 + b * 100 + c * 4 + e) mod 100 =? 0) with false
            by (symmetry; apply Z.eqb_neq; Z.to_euclidean_division_equations; lia).
          reflexivity.
      - replace ((a * 400 + 1 + b * 100 + c * 4 + e) mod 4 =? 0) with false
          by (symmetry; apply Z.eqb_neq; Z.to_euclidean_division_equations; lia).
        reflexivity. }
    pose proof (month_day_spec leapyear r1) as Hmd.
    destruct (month_day leapyear r1) as [m d].
    destruct Hmd as (Hm & Hd & Hsum); [destruct leapyear; lia |].
    unfold _days_in_month, _ymd2ord, _days_before_month, _days_before_year.
    rewrite Hleap. split; [exact Hm |]. split; [exact Hd |].
    Z.to_euclidean_division_equations. lia.
Qed.

(** The year of day [n] is in 1 .. 9999 exactly for the days 1 to
    3652059, and grows with [n]. *)
Lemma ord2ymd_year (n : Z) :
  let '(y, _, _) := _ord2ymd n in
  (1 <= y <= 9999 <-> 1 <= n <= 3652059)
  /\ (1000 <= y <-> 364878 <= n).
Proof.
  rewrite ord2ymd_unfold. cbv zeta.
  unfold _DI400Y, _DI100Y, _DI4Y.
  pose proof (Z.div_mod (n - 1) 146097 ltac:(lia)) as E400.
  pose proof (Z.mod_pos_bound (n - 1) 146097 ltac:(lia)) as B400.
  set (a := (n - 1) / 146097) in *. set (r400 := (n - 1) mod 146097) in *.
  pose proof (Z.div_mod r400 36524 ltac:(lia)) as E100.
  pose proof (Z.mod_pos_bound r400 36524 ltac:(lia)) as B100.
  set (b := r400 / 36524) in *. set (r100 := r400 mod 36524) in *.
  pose proof (Z.div_mod r100 1461 ltac:(lia)) as E4.
  pose proof (Z.mod_pos_bound r100 1461 ltac:(lia)) as B4.
  set (c := r100 / 1461) in *. set (r4 := r100 mod 1461) in *.
  pose proof (Z.div_mod r4 365 ltac:(lia)) as E1.
  pose proof (Z.mod_pos_bound r4 365 ltac:(lia)) as B1.
  set (e := r4 / 365) in *. set (r1 := r4 mod 365) in *.
  clearbody a r400 b r100 c r4 e r1.
  destruct ((e =? 4) || (b =? 4))%bool eqn:Hspecial.
  - assert (Hcase : (e = 4 /\ b <= 3 /\ c <= 23 /\ r1 = 0)
                    \/ (b = 4 /\ c = 0 /\ e = 0 /\ r1 = 0)).
    { apply orb_true_iff in Hspecial. destruct Hspecial as [H | H];
        apply Z.eqb_eq in H; lia. }
    lia.
  - apply orb_false_iff in Hspecial. destruct Hspecial as [He4 Hb4].
    apply Z.eqb_neq in He4. apply Z.eqb_neq in Hb4.
    destruct (month_day _ r1) as [m d]. lia.
Qed.

(** [fromtimestamp_utc] accepts the timestamps from [min_timestamp] to
    [max_timestamp], and the fields it returns give the timestamp back. *)
Lemma fromtimestamp_utc_spec (ts : Z) :
  match fromtimestamp_utc ts with
  | Some dt =>
      min_timestamp <= ts <= max_timestamp
      /\ valid_datetime dt
      /\ 1 <= year dt <= 9999
      /\ (1000 <= year dt <-> -30610224000 <= ts)
      /\ timestamp_of dt = ts
  | None => ts < min_timestamp \/ max_timestamp < ts
  end.
Proof.
  unfold fromtimestamp_utc, min_timestamp, max_timestamp, epoch_ordinal.
  pose proof (Z.div_mod ts 86400 ltac:(lia)) as Ed.
  pose proof (Z.mod_pos_bound ts 86400 ltac:(lia)) as Bd.
  set (days := ts / 86400) in *. set (secs := ts mod 86400) in *.
  clearbody days secs.
  pose proof (ord2ymd_spec (719163 + days)) as Hspec.
  pose proof (ord2ymd_year (719163 + days)) as Hyear.
  destruct (_ord2ymd (719163 + days)) as [[y m] d].
  destruct Hspec as (Hm & Hd & Hord). destruct Hyear as [Hy Hy1000].
  destruct ((1 <=? y) && (y <=? 9999))%bool eqn:Hin.
  - apply andb_true_iff in Hin. destruct Hin as [H1 H2].
    apply Z.leb_le in H1. apply Z.leb_le in H2.
    unfold valid_datetime, timestamp_of, epoch_ordinal.
    cbn [year month day hour minute second].
    rewrite Hord. repeat split; try assumption; try lia;
      Z.to_euclidean_division_equations; lia.
  - assert (Hout : ~ (1 <= y <= 9999)).
    { intros [H1 H2]. apply Z.leb_le in H1. apply Z.leb_le in H2.
      rewrite H1, H2 in Hin. discriminate. }
    lia.
Qed.

Lemma two_digits_shape (z : Z) :
  0 <= z <= 99 ->
  exists c1 c2,
    two_digits z = String c1 (String c2 "")
    /\ PyStr.digits_val 0 (String c1 (String c2 "")) = z.
Proof.
  intros Hz.
  pose (ok := fun z =>
    match two_digits z with
    | String c1 (String c2 EmptyString) =>
        PyStr.digits_val 0 (String c1 (String c2 "")) =? z
    | _ => false
    end).
  assert (Hall : all_below 100 ok = true) by (vm_compute; reflexivity).
  pose proof (all_below_spec _ ok Hall z ltac:(lia)) as Hok. unfold ok in Hok.
  clear Hall ok.
  destruct (two_digits z) as [| c1 [| c2 [| c3 rest]]]; try discriminate Hok.
  exists c1, c2. split; [reflexivity |]. apply Z.eqb_eq. exact Hok.
Qed.

Lemma four_digits_shape (y : Z) :
  1000 <= y <= 9999 ->
  exists c1 c2 c3 c4,
    PyStr.of_Z y = String c1 (String c2 (String c3 (String c4 "")))
    /\ PyStr.digits_val 0 (String c1 (String c2 (String c3 (String c4 "")))) = y.
Proof.
  intros Hy.
  pose (ok := fun z =>
    if z <? 1000 then true
    else
      match PyStr.of_Z z with
      | String c1 (String c2 (String c3 (String c4 EmptyString))) =>
          PyStr.digits_val 0 (String c1 (String c2 (String c3 (String c4 "")))) =? z
      | _ => false
      end).
  assert (Hall : all_below (Z.to_nat 10000) ok = true) by (vm_compute; reflexivity).
  pose proof (all_below_spec _ ok Hall y ltac:(lia)) as Hok. unfold ok in Hok.
  clear Hall ok.
  replace (y <? 1000) with false in Hok by (symmetry; apply Z.ltb_ge; lia).
  destruct (PyStr.of_Z y) as [| c1 [| c2 [| c3 [| c4 [| c5 rest]]]]];
    try discriminate Hok.
  exists c1, c2, c3, c4. split; [reflexivity |]. apply Z.eqb_eq. exact Hok.
Qed.

(** Reading the text of a date back gives its fields. *)
Lemma parse_strftime (dt : t) :
  valid_datetime dt -> 1000 <= year dt <= 9999 ->
  parse_utc (strftime_utc dt) = dt
  /\ String.length (strftime_utc dt) = 23%nat.
Proof.
  intros (Hm & Hd & Hh & Hmi & Hs) Hy.
  assert (Hday : 0 <= day dt <= 99).
  { split; [lia |]. destruct Hd as [_ Hd]. unfold _days_in_month in Hd.
    destruct (_ && _)%bool; [lia |].
    assert (Hidx : index _DAYS_IN_MONTH (month dt) <= 31).
    { assert (Hcases : month dt = 1 \/ month dt = 2 \/ month dt = 3 \/ month dt = 4
                       \/ month dt = 5 \/ month dt = 6 \/ month dt = 7 \/ month dt = 8
                       \/ month dt = 9 \/ month dt = 10 \/ month dt = 11 \/ month dt = 12)
        by lia.
      repeat (destruct Hcases as [-> | Hcases]; [vm_compute; discriminate |]).
      rewrite Hcases. vm_compute. discriminate. }
    lia. }
  destruct (four_digits_shape (year dt) Hy) as (y1 & y2 & y3 & y4 & Hyear & Hyv).
  destruct (two_digits_shape (month dt) ltac:(lia)) as (m1 & m2 & Hmonth & Hmv).
  destruct (two_digits_shape (day dt) Hday) as (d1 & d2 & Hdd & Hdv).
  destruct (two_digits_shape (hour dt) ltac:(lia)) as (h1 & h2 & Hhour & Hhv).
  destruct (two_digits_shape (minute dt) ltac:(lia)) as (i1 & i2 & Hmin & Hiv).
  destruct (two_digits_shape (second dt) ltac:(lia)) as (s1 & s2 & Hsec & Hsv).
  unfold strftime_utc. rewrite Hyear, Hmonth, Hdd, Hhour, Hmin, Hsec.
  split; [| reflexivity].
  unfold parse_utc, field.
  cbv [String.append String.substring].
  rewrite Hyv, Hmv, Hdv, Hhv, Hiv, Hsv. destruct dt; reflexivity.
Qed.

End Calendar.

(** The timestamps [ts_to_utc] accepts. [ts_to_utc] returns a dash for
    no timestamp and for the timestamp 0; for any other timestamp it
    returns a text when the timestamp is between 0001-01-01 00:00:00 and
    9999-12-31 23:59:59 UTC, and raises when it is not. *)
Theorem ts_to_utc_range :
  ts_to_utc None = Done "-"
  /\ ts_to_utc (Some 0) = Done "-"
  /\ forall ts,
       ts <> 0 ->
       (min_timestamp <= ts <= max_timestamp ->
        exists text, ts_to_utc (Some ts) = Done text /\ text <> "-")
       /\ (ts < min_timestamp \/ max_timestamp < ts ->
           ts_to_utc (Some ts) = Failed TimestampOutOfRange).
Proof.
  split; [reflexivity |]. split; [reflexivity |].
  intros ts Hts. unfold ts_to_utc.
  replace (ts =? 0) with false by (symmetry; apply Z.eqb_neq; exact Hts).
  pose proof (fromtimestamp_utc_spec ts) as Hspec.
  destruct (DateTime.fromtimestamp_utc ts) as [dt |].
  - destruct Hspec as (Hrange & _). split; [| lia].
    intros _. eexists. split; [reflexivity |].
    unfold DateTime.strftime_utc.
    destruct (PyStr.of_Z (DateTime.year dt)) as [| c [| c' rest]];
      cbn; try discriminate.
    destruct (DateTime.two_digits (DateTime.month dt)); cbn; discriminate.
  - split; [lia | reflexivity].
Qed.

(** Round trip of the UTC text. For a timestamp from the year 1000 on,
    in particular for a positive one, the text of [ts_to_utc] has the 23
    characters of [YYYY-MM-DD HH:MM:SS UTC], its fields are a valid date
    and time of day, and the timestamp of that date and time is the
    timestamp given: no two timestamps have the same text. *)
Theorem ts_to_utc_round_trip (ts : Z) (text : string) :
  -30610224000 <= ts -> ts <> 0 ->
  ts_to_utc (Some ts) = Done text ->
  String.length text = 23%nat
  /\ valid_datetime (parse_utc text)
  /\ timestamp_of (parse_utc text) = ts.
Proof.
  intros Hlow Hts. unfold ts_to_utc.
  replace (ts =? 0) with false by (symmetry; apply Z.eqb_neq; exact Hts).
  pose proof (fromtimestamp_utc_spec ts) as Hspec.
  destruct (DateTime.fromtimestamp_utc ts) as [dt |]; [| discriminate].
  destruct Hspec as (_ & Hvalid & Hyear & Hy1000 & Hback).
  intros [= <-].
  destruct (parse_strftime dt Hvalid ltac:(lia)) as [Hparse Hlen].
  rewrite Hparse. split; [exact Hlen | split; [exact Hvalid | exact Hback]].
Qed.

Lemma ts_to_utc_round_trip_witness :
  ts_to_utc (Some 1700000000) = Done "2023-11-14 22:13:20 UTC"
  /\ timestamp_of (parse_utc "2023-11-14 22:13:20 UTC") = 1700000000.
Proof.
  split; [reflexivity |].
  exact (proj2 (proj2 (ts_to_utc_round_trip 1700000000 "2023-11-14 22:13:20 UTC"
                         ltac:(lia) ltac:(lia) eq_refl))).
Defined.

(* ===================================================================== *)
(** * Properties of the expected miners file *)
(* ===================================================================== *)

Section ExpectedMinersProperties.
Import PyStr PyText.

#[local] Arguments String.append : simpl nomatch.

Lemma id_char_facts (c : ascii) :
  is_id_char c = true ->
  is_space c = false /\ is_char "," c = false /\ is_char "#" c = false
  /\ is_line_break c = false.
Proof.
  destruct c as [[] [] [] [] [] [] [] []]; vm_compute; intros; repeat split;
    congruence.
Qed.

Lemma line_break_is_space (c : ascii) : is_line_break c = true -> is_space c = true.
Proof. destruct c as [[] [] [] [] [] [] [] []]; vm_compute; congruence. Qed.


Lemma strip_clean (w : string) :
  all_chars (fun c => negb (is_space c)) w = true -> strip w = w.
Proof.
  intros Hw. unfold strip.
  replace (lstrip_by is_space w) with w.
  - apply rstrip_by_clean. exact Hw.
  - destruct w as [| c w]; [reflexivity |]. simpl in Hw |- *.
    apply andb_true_iff in Hw. destruct Hw as [Hc _].
    apply negb_true_iff in Hc. rewrite Hc. reflexivity.
Qed.









(** A clean identifier alone on its line. *)
Lemma split_clean (id : string) :
  id <> "" -> all_chars (fun c => negb (is_space c)) id = true -> split id = [id].
Proof.
  induction id as [| c id IH]; [congruence |]. intros _ H.
  simpl in H. apply andb_true_iff in H. destruct H as [Hc Hid].
  apply negb_true_iff in Hc. cbn [split]. rewrite Hc.
  destruct id as [| c' id']; [reflexivity |].
  simpl in Hid. apply andb_true_iff in Hid. destruct Hid as [Hc' Hid'].
  apply negb_true_iff in Hc'. rewrite Hc'.
  rewrite IH; [reflexivity | discriminate |].
  simpl. rewrite Hc', Hid'. reflexivity.
Qed.

Lemma replace_char_clean (a b : ascii) (s : string) :
  all_chars (fun c => negb (is_char a c)) s = true -> replace_char a b s = s.
Proof.
  induction s as [| c s IH]; simpl; [reflexivity |].
  intros H. apply andb_true_iff in H. destruct H as [Hc Hs].
  apply negb_true_iff in Hc. rewrite Hc, (IH Hs). reflexivity.
Qed.

Lemma clean_id_facts (id : string) :
  clean_id id ->
  id <> ""
  /\ all_chars (fun c => negb (is_space c)) id = true
  /\ all_chars (fun c => negb (is_char "," c)) id = true
  /\ all_chars (fun c => negb (is_char "#" c)) id = true
  /\ all_chars (fun c => negb (is_line_break c)) id = true.
Proof.
  intros [Hne Hid]. split; [exact Hne |].
  repeat split; eapply all_chars_impl; try exact Hid; intros c Hc;
    destruct (id_char_facts c Hc) as (H1 & H2 & H3 & H4);
    rewrite ?H1, ?H2, ?H3, ?H4; reflexivity.
Qed.

Lemma line_miners_id (id : string) : clean_id id -> line_miners id = [id].
Proof.
  intros Hid. destruct (clean_id_facts id Hid) as (Hne & Hsp & Hcomma & Hhash & _).
  unfold line_miners. rewrite (strip_clean id Hsp).
  replace (truthy id) with true by (destruct id; [congruence | reflexivity]).
  assert (Hm : mem_char "#" id = false).
  { unfold mem_char. apply has_char_none. exact Hhash. }
  replace (String.prefix "#" id) with false.
  2: { destruct id as [| c id']; [congruence |]. simpl in Hhash.
       apply andb_true_iff in Hhash. destruct Hhash as [Hc _].
       apply negb_true_iff in Hc. unfold is_char in Hc.
       change (String.prefix "#" (String c id'))
         with (if Ascii.ascii_dec "#" c then String.prefix "" id' else false).
       destruct (Ascii.ascii_dec "#" c) as [<- | Hd]; [discriminate Hc | reflexivity]. }
  cbn [negb orb]. rewrite Hm, (replace_char_clean "," " " id Hcomma).
  rewrite (split_clean id Hne Hsp). cbn [map List.filter].
  rewrite (strip_clean id Hsp).
  replace (truthy id) with true by (destruct id; [congruence | reflexivity]).
  reflexivity.
Qed.

Lemma splitlines_line (id rest : string) :
  all_chars (fun c => negb (is_line_break c)) id = true ->
  splitlines_from false (id ++ LF ++ rest) = id :: splitlines_from false rest.
Proof.
  induction id as [| c id IH]; intros Hid.
  - reflexivity.
  - simpl in Hid. apply andb_true_iff in Hid. destruct Hid as [Hc Hid].
    apply negb_true_iff in Hc.
    change (String c id ++ LF ++ rest) with (String c (id ++ LF ++ rest)).
    cbn [splitlines_from andb]. rewrite Hc, (IH Hid). reflexivity.
Qed.

Lemma splitlines_last (id : string) :
  id <> "" -> all_chars (fun c => negb (is_line_break c)) id = true ->
  splitlines_from false id = [id].
Proof.
  induction id as [| c id IH]; [congruence |]. intros _ Hid.
  simpl in Hid. apply andb_true_iff in Hid. destruct Hid as [Hc Hid].
  apply negb_true_iff in Hc. cbn [splitlines_from andb]. rewrite Hc.
  destruct id as [| c' id']; [reflexivity |].
  rewrite IH; [reflexivity | discriminate | exact Hid].
Qed.

Lemma splitlines_join (ids : list string) :
  Forall clean_id ids ->
  splitlines (join LF ids) = ids /\ splitlines (join LF ids ++ LF) = match ids with
                                                                      | [] => [""]
                                                                      | _ => ids
                                                                      end.
Proof.
  unfold splitlines. induction 1 as [| id ids Hid Hids [IH1 IH2]]; [split; reflexivity |].
  destruct (clean_id_facts id Hid) as (Hne & _ & _ & _ & Hbr).
  destruct ids as [| id' ids'].
  - simpl. split; [exact (splitlines_last id Hne Hbr) |].
    rewrite <- (append_nil_r LF) at 1. rewrite (splitlines_line id "" Hbr). reflexivity.
  - change (join LF (id :: id' :: ids')) with (id ++ LF ++ join LF (id' :: ids')).
    split.
    + rewrite (splitlines_line id _ Hbr), IH1. reflexivity.
    + rewrite !append_assoc, (splitlines_line id _ Hbr), IH2. reflexivity.
Qed.

Lemma flat_map_line_miners (ids : list string) :
  Forall clean_id ids -> flat_map line_miners ids = ids.
Proof.
  induction 1 as [| id ids Hid _ IH]; [reflexivity |].
  simpl. rewrite (line_miners_id id Hid), IH. reflexivity.
Qed.

End ExpectedMinersProperties.

Section LoadExpectedMiners.

Variable path_exists : string -> bool.
Variable read_text : string -> outcome string.


(** Round trip of the file. A file that lists clean identifiers one to a
    line, with or without a line feed after the last, loads as the set of
    these identifiers. *)
Theorem expected_ids_round_trip (path : string) (ids : list string) (text : string) :
  Forall clean_id ids ->
  path <> "" -> path_exists path = true -> read_text path = Done text ->
  text = join LF ids \/ text = join LF ids ++ LF ->
  load_expected_miners path_exists read_text path = Done (list_to_set ids).
Proof.
  intros Hids Hne Hex Hread Htext. unfold load_expected_miners.
  apply truthy_nonempty in Hne. rewrite Hne, Hex, Hread. simpl. f_equal.
  unfold text_miners. destruct (splitlines_join ids Hids) as [H1 H2].
  destruct Htext as [-> | ->].
  - rewrite H1, (flat_map_line_miners ids Hids). reflexivity.
  - rewrite H2. destruct ids as [| id ids']; [reflexivity |].
    rewrite (flat_map_line_miners _ Hids). reflexivity.
Qed.

End LoadExpectedMiners.

Section Comments.
Import PyStr PyText.

#[local] Arguments String.append : simpl nomatch.

Lemma rstrip_by_app_kept (p : ascii -> bool) (a b : string) :
  rstrip_by p b <> "" -> rstrip_by p (a ++ b) = a ++ rstrip_by p b.
Proof.
  intros Hb. induction a as [| c a IH]; [reflexivity |].
  change (String c a ++ b) with (String c (a ++ b)). cbn [rstrip_by]. rewrite IH.
  change (String c a ++ rstrip_by p b) with (String c (a ++ rstrip_by p b)).
  destruct (a ++ rstrip_by p b) eqn:E; [| reflexivity].
  exfalso. exact (append_nonempty_r a _ Hb E).
Qed.

Lemma rstrip_by_head (p : ascii -> bool) (c : ascii) (s : string) :
  p c = false -> exists r, rstrip_by p (String c s) = String c r.
Proof.
  intros Hc. cbn [rstrip_by]. destruct (rstrip_by p s); rewrite ?Hc; eauto.
Qed.

Lemma lstrip_by_shape (p : ascii -> bool) (s : string) :
  (all_chars p s = true /\ lstrip_by p s = "")
  \/ (all_chars p s = false
      /\ exists c t, lstrip_by p s = String c t /\ p c = false).
Proof.
  induction s as [| c s IH]; simpl; [left; split; reflexivity |].
  destruct (p c) eqn:Hc; simpl; [exact IH |]. right. split; [reflexivity |]. eauto.
Qed.

Lemma mem_char_lstrip (a : ascii) (p : ascii -> bool) (s : string) :
  mem_char a s = false -> mem_char a (lstrip_by p s) = false.
Proof.
  intros H. destruct (mem_char a (lstrip_by p s)) eqn:E; [| reflexivity].
  apply has_char_lstrip in E. unfold mem_char in H. congruence.
Qed.

Lemma mem_char_rstrip (a : ascii) (p : ascii -> bool) (s : string) :
  mem_char a s = false -> mem_char a (rstrip_by p s) = false.
Proof.
  intros H. destruct (mem_char a (rstrip_by p s)) eqn:E; [| reflexivity].
  apply has_char_rstrip in E. unfold mem_char in H. congruence.
Qed.

Lemma mem_char_all (a : ascii) (s : string) :
  mem_char a s = false -> all_chars (fun c => negb (is_char a c)) s = true.
Proof.
  unfold mem_char. induction s as [| c s IH]; simpl; [reflexivity |].
  intros H. apply orb_false_iff in H. destruct H as [-> H]. exact (IH H).
Qed.

Lemma prefix_head (a c : ascii) (s : string) :
  String.prefix (String a "") (String c s) = is_char a c.
Proof.
  change (String.prefix (String a "") (String c s))
    with (if Ascii.ascii_dec a c then String.prefix "" s else false).
  unfold is_char. destruct (Ascii.ascii_dec a c) as [<- | Hne].
  - rewrite Ascii.eqb_refl. destruct s; reflexivity.
  - symmetry. apply Ascii.eqb_neq. congruence.
Qed.

(** Comments of the file. A number sign and what follows it on the line
    are ignored: a line gives the same identifiers with a comment appended,
    and a line that, white space apart, starts with a number sign gives
    none. *)
Theorem inline_comment_ignored (line comment : string) :
  mem_char "#" line = false ->
  line_miners (line ++ "#" ++ comment) = line_miners line
  /\ (all_chars is_space line = true -> line_miners (line ++ "#" ++ comment) = []).
Proof.
  intros Hline.
  assert (Hhash : is_space "#" = false) by reflexivity.
  destruct (rstrip_by_head is_space "#" comment Hhash) as [tail Htail].
  assert (Hkept : rstrip_by is_space ("#" ++ comment) <> "").
  { change ("#" ++ comment) with (String "#" comment). rewrite Htail. discriminate. }
  destruct (lstrip_by_shape is_space line) as [[Hall Hl] | [Hall (c0 & t & Hl & Hc0)]].
  - (* a blank line *)
    assert (Hmine : line_miners (line ++ "#" ++ comment) = []).
    { unfold line_miners, strip. rewrite lstrip_by_app, Hall.
      change ("#" ++ comment) with (String "#" comment).
      rewrite (lstrip_by_head is_space "#" comment Hhash), Htail.
      rewrite prefix_head. reflexivity. }
    split; [| intros _; exact Hmine].
    rewrite Hmine. unfold line_miners, strip. rewrite Hl. reflexivity.
  - split; [| congruence].
    assert (Hstrip : strip (line ++ "#" ++ comment)
                     = lstrip_by is_space line ++ String "#" tail).
    { unfold strip. rewrite lstrip_by_app, Hall.
      rewrite (rstrip_by_app_kept is_space _ _ Hkept).
      change ("#" ++ comment) with (String "#" comment). rewrite Htail. reflexivity. }
    assert (Hclean : mem_char "#" (lstrip_by is_space line) = false)
      by (apply mem_char_lstrip; exact Hline).
    assert (Hc0hash : is_char "#" c0 = false).
    { rewrite Hl in Hclean. unfold mem_char in Hclean. simpl in Hclean.
      apply orb_false_iff in Hclean. apply Hclean. }
    destruct (rstrip_by_head is_space c0 t Hc0) as [r Hr].
    unfold line_miners. rewrite Hstrip.
    assert (Hstripline : strip line = String c0 r).
    { unfold strip. rewrite Hl. exact Hr. }
    rewrite Hstripline. rewrite Hl.
    change (String c0 t ++ String "#" tail) with (String c0 (t ++ String "#" tail)).
    rewrite !prefix_head, Hc0hash. cbn [truthy negb orb].
    replace (mem_char "#" (String c0 (t ++ String "#" tail))) with true.
    2: { unfold mem_char. simpl. rewrite has_char_app. simpl.
         rewrite !orb_true_r. reflexivity. }
    replace (mem_char "#" (String c0 r)) with false.
    2: { rewrite <- Hstripline. symmetry. unfold strip.
         apply mem_char_rstrip, mem_char_lstrip. exact Hline. }
    unfold before_first.
    change (String c0 (t ++ String "#" tail)) with (String c0 t ++ String "#" tail).
    rewrite (break_at (is_char "#") (String c0 t) "#" tail);
      [| rewrite <- Hl; apply mem_char_all; exact Hclean | reflexivity].
    cbn [fst].
    replace (strip (String c0 t)) with (String c0 r).
    2: { unfold strip. rewrite (lstrip_by_head is_space c0 t Hc0). symmetry. exact Hr. }
    reflexivity.
Qed.

End Comments.


Lemma expected_ids_round_trip_witness :
  load_expected_miners (fun _ => true)
    (fun _ => Done ("alpha-miner" ++ LF ++ "beta-miner" ++ LF))
    "expected.txt"
  = Done (list_to_set ["alpha-miner"; "beta-miner"]).
Proof.
  apply (expected_ids_round_trip (fun _ => true)
           (fun _ => Done ("alpha-miner" ++ LF ++ "beta-miner" ++ LF))
           "expected.txt" ["alpha-miner"; "beta-miner"]
           ("alpha-miner" ++ LF ++ "beta-miner" ++ LF)).
  - repeat constructor; discriminate.
  - discriminate.
  - reflexivity.
  - reflexivity.
  - right. reflexivity.
Defined.

Lemma inline_comment_ignored_witness :
  line_miners "beta-miner, gamma-miner # both on node 2" = ["beta-miner"; "gamma-miner"].
Proof.
  exact (eq_trans
           (proj1 (inline_comment_ignored "beta-miner, gamma-miner " " both on node 2"
                     eq_refl))
           eq_refl).
Defined.

(** The file of the test suite: a comment line, one identifier, two
    identifiers with a comma, an empty line and an identifier with an
    inline comment. *)
Example load_expected_miners_test :
  load_expected_miners (fun _ => true)
    (fun _ => Done ("# known miners" ++ LF ++ "alpha-miner" ++ LF
                    ++ "beta-miner, gamma-miner" ++ LF ++ LF
                    ++ "delta-miner # inline comment" ++ LF))
    "expected_miners.txt"
  = Done {["alpha-miner"; "beta-miner"; "gamma-miner"; "delta-miner"]}.
Proof.
  vm_compute. reflexivity.
Qed.

(* ===================================================================== *)
(** * Properties of the sort *)
(* ===================================================================== *)

Section SortProperties.

Context {A : Type} (lt : A -> A -> bool).

Lemma insert_sorted_Permutation (x : A) (l : list A) :
  insert_sorted lt x l ≡ₚ x :: l.
Proof.
  induction l as [| y l IH]; simpl; [reflexivity |].
  destruct (lt y x); [| reflexivity].
  rewrite IH. apply Permutation_swap.
Qed.

Lemma sort_by_Permutation (l : list A) : sort_by lt l ≡ₚ l.
Proof.
  induction l as [| x l IH]; simpl; [reflexivity |].
  rewrite insert_sorted_Permutation, IH. reflexivity.
Qed.

(** The elements sorted are those that satisfy [P], on which [lt] is a
    strict weak order. *)
Variable P : A -> Prop.
Hypothesis lt_asym : forall a b, P a -> P b -> lt a b = true -> lt b a = false.
Hypothesis lt_negtrans :
  forall a b c, P a -> P b -> P c -> lt a b = false -> lt b c = false -> lt a c = false.

Lemma insert_sorted_sorted (x : A) (l : list A) :
  P x -> Forall P l ->
  StronglySorted (fun a b => lt b a = false) l ->
  StronglySorted (fun a b => lt b a = false) (insert_sorted lt x l).
Proof.
  intros Hx Hl Hs. induction Hs as [| y l Hs IH Hy]; simpl.
  - constructor; constructor.
  - apply Forall_cons in Hl. destruct Hl as [Hpy Hl].
    destruct (lt y x) eqn:Hyx.
    + constructor; [exact (IH Hl) |].
      rewrite insert_sorted_Permutation. constructor; [| exact Hy].
      exact (lt_asym y x Hpy Hx Hyx).
    + constructor; [constructor; assumption |].
      constructor; [exact Hyx |].
      rewrite Forall_forall in Hy, Hl. apply Forall_forall. intros z Hz.
      exact (lt_negtrans z y x (Hl z Hz) Hpy Hx (Hy z Hz) Hyx).
Qed.

Lemma sort_by_sorted (l : list A) :
  Forall P l -> StronglySorted (fun a b => lt b a = false) (sort_by lt l).
Proof.
  induction l as [| x l IH]; intros Hl; simpl; [constructor |].
  apply Forall_cons in Hl. destruct Hl as [Hx Hl].
  apply insert_sorted_sorted; [exact Hx | | exact (IH Hl)].
  rewrite sort_by_Permutation. exact Hl.
Qed.

End SortProperties.

(** In a strongly sorted list an earlier element is related to a later
    one. *)
Lemma StronglySorted_lookup {A : Type} (R : A -> A -> Prop) (l : list A)
    (i j : nat) (a b : A) :
  StronglySorted R l -> (i < j)%nat -> l !! i = Some a -> l !! j = Some b -> R a b.
Proof.
  intros Hs. revert i j. induction Hs as [| x l Hs IH Hx]; intros i j Hij Hi Hj.
  - rewrite lookup_nil in Hi. discriminate.
  - destruct j as [| j]; [lia |]. simpl in Hj.
    destruct i as [| i]; simpl in Hi.
    + injection Hi as <-. rewrite Forall_forall in Hx. apply Hx.
      eapply list_elem_of_lookup_2. exact Hj.
    + apply (IH i j); [lia | assumption | assumption].
Qed.

(* ===================================================================== *)
(** * The order of strings and of floats *)
(* ===================================================================== *)

Lemma string_ltb_lt (a b : string) : String.ltb a b = true <-> String.compare a b = Lt.
Proof. unfold String.ltb. destruct (String.compare a b); split; congruence. Qed.

Lemma string_ltb_irrefl (a : string) : String.ltb a a = false.
Proof.
  unfold String.ltb. pose proof (String.compare_antisym a a) as H.
  destruct (String.compare a a); simpl in H; congruence.
Qed.

Lemma string_ltb_asym (a b : string) : String.ltb a b = true -> String.ltb b a = false.
Proof.
  unfold String.ltb. rewrite (String.compare_antisym a b).
  destruct (String.compare b a); simpl; congruence.
Qed.

Lemma string_ltb_total (a b : string) :
  String.ltb a b = false -> String.ltb b a = false -> a = b.
Proof.
  unfold String.ltb. rewrite (String.compare_antisym a b).
  destruct (String.compare b a) eqn:E; simpl; try congruence.
  intros _ _. symmetry. apply String.compare_eq_iff. exact E.
Qed.

Lemma string_ltb_negtrans (a b c : string) :
  String.ltb a b = false -> String.ltb b c = false -> String.ltb a c = false.
Proof.
  unfold String.ltb. intros Hab Hbc.
  assert (Hba : String.compare b a <> Gt).
  { rewrite (String.compare_antisym b a). destruct (String.compare a b); simpl;
      congruence. }
  assert (Hcb : String.compare c b <> Gt).
  { rewrite (String.compare_antisym c b). destruct (String.compare b c); simpl;
      congruence. }
  pose proof (string_compare_trans_le c b a Hcb Hba) as Hca.
  rewrite (String.compare_antisym c a) in Hca.
  destruct (String.compare a c); simpl in Hca; congruence || reflexivity.
Qed.

Lemma rank_lt_compare (x y : spec_float) :
  Float64.is_nan x = false -> Float64.is_nan y = false ->
  (SFltb x y = true <-> rank_lt (float_rank x) (float_rank y))
  /\ (SFeqb x y = true <-> float_rank x = float_rank y).
Proof.
  intros Hx Hy. unfold SFltb, SFeqb, SFcompare.
  destruct x as [sx | sx | | sx mx ex], y as [sy | sy | | sy my ey];
    try discriminate; clear Hx Hy.
  9: {
    change (Pos.compare_cont Eq mx my) with (Pos.compare mx my).
    destruct sx, sy; simpl;
      destruct (Z.compare_spec ex ey) as [E | L | G];
      destruct (Pos.compare_spec mx my) as [E' | L' | G']; simpl;
      (split; split; [intros H | intros H | intros H | intros H]);
      try discriminate; try reflexivity; try lia; try congruence;
      try (exfalso; injection H; intros; lia). }
  all: try destruct sx; try destruct sy; simpl;
    (split; split; intros H); try discriminate; try reflexivity; try lia.
Qed.

(* ===================================================================== *)
(** * Properties of the miner rows *)
(* ===================================================================== *)

Section RowOrder.

Lemma float_trichotomy (x y : spec_float) :
  Float64.is_nan x = false -> Float64.is_nan y = false ->
  (SFltb x y = true /\ SFeqb x y = false /\ SFeqb y x = false /\ SFltb y x = false)
  \/ (SFltb x y = false /\ SFeqb x y = true /\ SFeqb y x = true /\ SFltb y x = false)
  \/ (SFltb x y = false /\ SFeqb x y = false /\ SFeqb y x = false /\ SFltb y x = true).
Proof.
  intros Hx Hy.
  destruct (rank_lt_compare x y Hx Hy) as [Hlt Heq].
  destruct (rank_lt_compare y x Hy Hx) as [Hgt Heq'].
  destruct (float_rank x) as [[x1 x2] x3], (float_rank y) as [[y1 y2] y3].
  unfold rank_lt in Hlt, Hgt. rewrite !pair_equal_spec in Heq, Heq'.
  destruct (SFltb x y), (SFeqb x y), (SFltb y x), (SFeqb y x);
    try (left; repeat split; reflexivity);
    try (right; left; repeat split; reflexivity);
    try (right; right; repeat split; reflexivity);
    exfalso;
    repeat match goal with
           | H : true = true <-> _ |- _ => pose proof (proj1 H eq_refl); clear H
           | H : false = true <-> ?Q |- _ =>
               assert (~ Q) by (intros HQ; apply H in HQ; discriminate); clear H
           end; lia.
Qed.

Lemma float_lt_trans (x y z : spec_float) :
  Float64.is_nan x = false -> Float64.is_nan y = false -> Float64.is_nan z = false ->
  (SFltb x y = true -> SFltb y z = true -> SFltb x z = true)
  /\ (SFltb x y = true -> SFeqb y z = true -> SFltb x z = true)
  /\ (SFeqb x y = true -> SFltb y z = true -> SFltb x z = true)
  /\ (SFeqb x y = true -> SFeqb y z = true -> SFeqb x z = true).
Proof.
  intros Hx Hy Hz.
  destruct (rank_lt_compare x y Hx Hy) as [Hxy Exy].
  destruct (rank_lt_compare y z Hy Hz) as [Hyz Eyz].
  destruct (rank_lt_compare x z Hx Hz) as [Hxz Exz].
  rewrite Hxy, Hyz, Hxz, Exy, Eyz, Exz.
  destruct (float_rank x) as [[x1 x2] x3], (float_rank y) as [[y1 y2] y3],
    (float_rank z) as [[z1 z2] z3].
  unfold rank_lt. rewrite !pair_equal_spec. repeat split; lia.
Qed.

(** On rows whose ages are numbers, [row_lt] decides [row_before]. *)
Lemma row_lt_before (a b : MinerRow.t) :
  age_is_number a -> age_is_number b ->
  (row_lt a b = true <-> row_before a b).
Proof.
  unfold age_is_number, row_lt, sort_key, key_lt, row_before.
  destruct (MinerRow.age_h a) as [x |], (MinerRow.age_h b) as [y |]; simpl; intros Hx Hy.
  - destruct (float_trichotomy x y Hx Hy)
      as [(H1 & H2 & H3 & H4) | [(H1 & H2 & H3 & H4) | (H1 & H2 & H3 & H4)]];
      rewrite ?H1, ?H2; simpl; intuition congruence.
  - tauto.
  - split; [discriminate | tauto].
  - reflexivity.
Qed.

Lemma row_before_asym (a b : MinerRow.t) :
  age_is_number a -> age_is_number b -> row_before a b -> ~ row_before b a.
Proof.
  unfold age_is_number, row_before.
  destruct (MinerRow.age_h a) as [x |], (MinerRow.age_h b) as [y |]; simpl;
    intros Hx Hy; try tauto.
  - destruct (float_trichotomy x y Hx Hy)
      as [(H1 & H2 & H3 & H4) | [(H1 & H2 & H3 & H4) | (H1 & H2 & H3 & H4)]];
      intros [H | [H H']] [G | [G G']]; try congruence.
    all: apply string_ltb_asym in H'; congruence.
  - intros H G. apply string_ltb_asym in H. congruence.
Qed.

Lemma row_before_negtrans (a b c : MinerRow.t) :
  age_is_number a -> age_is_number b -> age_is_number c ->
  ~ row_before a b -> ~ row_before b c -> ~ row_before a c.
Proof.
  unfold age_is_number, row_before.
  pose proof (string_ltb_negtrans (MinerRow.miner a) (MinerRow.miner b)
                (MinerRow.miner c)) as Hs.
  destruct (MinerRow.age_h a) as [x |], (MinerRow.age_h b) as [y |],
    (MinerRow.age_h c) as [z |]; simpl; intros Hx Hy Hz; try tauto.
  - destruct (rank_lt_compare x y Hx Hy) as [Hxy Exy].
    destruct (rank_lt_compare y z Hy Hz) as [Hyz Eyz].
    destruct (rank_lt_compare x z Hx Hz) as [Hxz Exz].
    rewrite Hxy, Hyz, Hxz, Exy, Eyz, Exz. clear Hxy Hyz Hxz Exy Eyz Exz.
    destruct (float_rank x) as [[x1 x2] x3], (float_rank y) as [[y1 y2] y3],
      (float_rank z) as [[z1 z2] z3].
    unfold rank_lt. rewrite !pair_equal_spec.
    destruct (String.ltb (MinerRow.miner a) (MinerRow.miner b)),
      (String.ltb (MinerRow.miner b) (MinerRow.miner c)),
      (String.ltb (MinerRow.miner a) (MinerRow.miner c));
      try specialize (Hs eq_refl eq_refl); try discriminate;
      intros Hab Hbc Hac;
      assert (Htrue : true = true) by reflexivity;
      assert (Hfalse : false = true -> False) by discriminate;
      (apply Hab || apply Hbc); lia || (exfalso; lia) || idtac.
  - intros Hab Hbc Hac.
    destruct (String.ltb (MinerRow.miner a) (MinerRow.miner b)) eqn:E1; [tauto |].
    destruct (String.ltb (MinerRow.miner b) (MinerRow.miner c)) eqn:E2; [tauto |].
    specialize (Hs eq_refl eq_refl). congruence.
Qed.

Lemma row_before_total (a b : MinerRow.t) :
  age_is_number a -> age_is_number b ->
  MinerRow.miner a <> MinerRow.miner b ->
  ~ row_before b a -> row_before a b.
Proof.
  unfold age_is_number, row_before.
  destruct (MinerRow.age_h a) as [x |], (MinerRow.age_h b) as [y |]; simpl;
    intros Hx Hy Hne; try tauto.
  - intros Hba.
    destruct (float_trichotomy x y Hx Hy)
      as [(H1 & H2 & H3 & H4) | [(H1 & H2 & H3 & H4) | (H1 & H2 & H3 & H4)]].
    + left. exact H1.
    + right. split; [exact H2 |].
      destruct (String.ltb (MinerRow.miner a) (MinerRow.miner b)) eqn:E1; [reflexivity |].
      destruct (String.ltb (MinerRow.miner b) (MinerRow.miner a)) eqn:E2; [tauto |].
      exfalso. apply Hne. apply string_ltb_total; assumption.
    + tauto.
  - intros Hba.
    destruct (String.ltb (MinerRow.miner a) (MinerRow.miner b)) eqn:E1; [reflexivity |].
    destruct (String.ltb (MinerRow.miner b) (MinerRow.miner a)) eqn:E2; [tauto |].
    exfalso. apply Hne. apply string_ltb_total; assumption.
Qed.

Lemma row_lt_false (a b : MinerRow.t) :
  age_is_number a -> age_is_number b ->
  (row_lt a b = false <-> ~ row_before a b).
Proof.
  intros Ha Hb. pose proof (row_lt_before a b Ha Hb) as H.
  destruct (row_lt a b); split; intros G.
  - discriminate.
  - exfalso. apply G. apply H. reflexivity.
  - intros Hb'. apply H in Hb'. discriminate.
  - reflexivity.
Qed.

(** Sorted rows with numbers for ages and distinct miner ids are in the
    order [row_before], each before all that follow. *)
Lemma sorted_rows_before (rows : list MinerRow.t) :
  Forall age_is_number rows ->
  NoDup (map MinerRow.miner rows) ->
  let sorted := sort_by row_lt rows in
  sorted ≡ₚ rows
  /\ forall i j a b, (i < j)%nat -> sorted !! i = Some a -> sorted !! j = Some b ->
       row_before a b.
Proof.
  intros Hnum Hnd sorted. split; [apply sort_by_Permutation |].
  assert (Hsorted : StronglySorted (fun a b => row_lt b a = false) sorted).
  { apply (sort_by_sorted row_lt age_is_number); [| | exact Hnum].
    - intros a b Ha Hb H. apply (row_lt_false b a Hb Ha).
      apply row_before_asym; [exact Ha | exact Hb |]. apply row_lt_before; assumption.
    - intros a b c Ha Hb Hc H1 H2. apply (row_lt_false a c Ha Hc).
      apply (row_before_negtrans a b c Ha Hb Hc).
      + apply row_lt_false; assumption.
      + apply row_lt_false; assumption. }
  assert (Hnum' : Forall age_is_number sorted).
  { unfold sorted. rewrite sort_by_Permutation. exact Hnum. }
  assert (Hnd' : NoDup (map MinerRow.miner sorted)).
  { unfold sorted. rewrite sort_by_Permutation. exact Hnd. }
  intros i j a b Hij Hi Hj.
  rewrite Forall_forall in Hnum'.
  assert (Ha : age_is_number a) by (apply Hnum'; eapply list_elem_of_lookup_2; exact Hi).
  assert (Hb : age_is_number b) by (apply Hnum'; eapply list_elem_of_lookup_2; exact Hj).
  apply (row_before_total a b Ha Hb).
  - intros Heq.
    assert (i = j); [| lia].
    apply (NoDup_lookup _ i j (MinerRow.miner a) Hnd').
    + rewrite list_lookup_fmap, Hi. reflexivity.
    + rewrite list_lookup_fmap, Hj, Heq. reflexivity.
  - apply (row_lt_false b a Hb Ha).
    exact (StronglySorted_lookup _ sorted i j a b Hsorted Hij Hi Hj).
Qed.

End RowOrder.

Section MinerRows.

Lemma first_occurrences_spec (ns : list string) :
  NoDup (first_occurrences ns) /\ forall n, n ∈ first_occurrences ns <-> n ∈ ns.
Proof.
  induction ns as [| x ns [IHnd IH]] using rev_ind.
  - split; [constructor | reflexivity].
  - rewrite first_occurrences_snoc.
    destruct (bool_decide (x ∈ first_occurrences ns)) eqn:Hx.
    + apply bool_decide_eq_true in Hx. split; [exact IHnd |].
      intros n. rewrite elem_of_app, list_elem_of_singleton, IH.
      split; [auto |]. intros [H | ->]; [exact H | apply IH; exact Hx].
    + apply bool_decide_eq_false in Hx. split.
      * apply NoDup_app. split; [exact IHnd |]. split; [| apply NoDup_singleton].
        intros n Hn Hn'. apply list_elem_of_singleton in Hn'. subst n. exact (Hx Hn).
      * intros n. rewrite !elem_of_app, IH. reflexivity.
Qed.

Lemma aggregate_record_of (node_miners : list (string * list dict))
    (aggregate : gmap string MinerRecord.t) (m : string) :
  _aggregate_miners node_miners = Ok aggregate ->
  aggregate !! m = record_of m (sightings node_miners).
Proof.
  unfold _aggregate_miners. rewrite aggregate_nodes_sightings.
  intros Hagg. exact (aggregate_sightings_closed _ _ Hagg m).
Qed.

Lemma sightings_of_nonempty (m : string) (l : list (string * dict)) :
  sightings_of m l <> [] <-> m ∈ map (fun s => row_miner_id (snd s)) l.
Proof.
  unfold sightings_of. rewrite list_elem_of_fmap. split.
  - intros Hne. destruct (List.filter _ l) as [| s rest] eqn:E; [congruence |].
    assert (Hs : In s (List.filter (fun s => String.eqb (row_miner_id (snd s)) m) l))
      by (rewrite E; left; reflexivity).
    apply List.filter_In in Hs. destruct Hs as [Hin Heq].
    apply String.eqb_eq in Heq. exists s. split; [symmetry; exact Heq |].
    apply list_elem_of_In. exact Hin.
  - intros (s & -> & Hin) E.
    assert (Hs : In s (List.filter
                         (fun s' => String.eqb (row_miner_id (snd s')) (row_miner_id (snd s))) l)).
    { apply List.filter_In. split; [apply list_elem_of_In; exact Hin |].
      apply String.eqb_refl. }
    rewrite E in Hs. destruct Hs.
Qed.

Lemma record_of_listed (m : string) (node_miners : list (string * list dict)) :
  is_Some (record_of m (sightings node_miners)) <-> m ∈ miner_ids_in_order node_miners.
Proof.
  unfold miner_ids_in_order.
  rewrite (proj2 (first_occurrences_spec _) m).
  rewrite list_elem_of_In, List.filter_In, <- list_elem_of_In, <- sightings_of_nonempty.
  unfold record_of. destruct (PyStr.truthy m); simpl.
  - destruct (sightings_of m (sightings node_miners)) as [| [n row] rest].
    + split; [intros [x Hx]; discriminate | intros [H _]; congruence].
    + split; [intros _; split; [discriminate | reflexivity] | intros _; eexists; reflexivity].
  - split; [intros [x Hx]; discriminate | intros [_ H]; discriminate].
Qed.

(** The items of the aggregate: one for each record, without repetition
    of a miner. *)
Lemma aggregate_items_spec (node_miners : list (string * list dict))
    (aggregate : gmap string MinerRecord.t) :
  _aggregate_miners node_miners = Ok aggregate ->
  NoDup (map fst (aggregate_items node_miners aggregate))
  /\ forall m d, (m, d) ∈ aggregate_items node_miners aggregate <-> aggregate !! m = Some d.
Proof.
  intros Hagg. unfold aggregate_items. split.
  - pose proof (proj1 (first_occurrences_spec
                         (List.filter PyStr.truthy
                            (map (fun s => row_miner_id (snd s)) (sightings node_miners)))))
      as Hnd.
    fold (miner_ids_in_order node_miners) in Hnd.
    induction Hnd as [| m ids Hm Hnd IH]; [constructor |].
    change (omap ?f (?x :: ?l))
      with (match f x with Some y => y :: omap f l | None => omap f l end).
    cbv beta. destruct (aggregate !! m) as [d |]; cbn [fmap option_fmap option_map];
      [| exact IH].
    cbn [map fst]. constructor; [| exact IH].
    intros Hin. apply Hm. apply list_elem_of_fmap in Hin.
    destruct Hin as ([m' d'] & Heq & Hin). simpl in Heq. subst m'.
    apply list_elem_of_omap in Hin. destruct Hin as (m'' & Hin & Hsome).
    destruct (aggregate !! m''); [| discriminate]. simpl in Hsome.
    injection Hsome as -> _. exact Hin.
  - intros m d. rewrite list_elem_of_omap. split.
    + intros (m' & _ & Hsome). destruct (aggregate !! m') eqn:E; [| discriminate].
      simpl in Hsome. injection Hsome as -> ->. exact E.
    + intros Hm. exists m. split; [| rewrite Hm; reflexivity].
      apply record_of_listed. rewrite <- (aggregate_record_of _ _ m Hagg), Hm.
      eexists; reflexivity.
Qed.

Lemma miner_rows_of_Forall2 (now_ts : Z) (aw ww : spec_float)
    (items : list (string * MinerRecord.t)) (rows : list MinerRow.t) :
  miner_rows_of now_ts aw ww items = Done rows ->
  Forall2 (fun it row => miner_row now_ts aw ww (fst it) (snd it) = Done row) items rows.
Proof.
  revert rows. induction items as [| [m d] items IH]; intros rows; simpl.
  - intros [= <-]. constructor.
  - destruct (miner_row now_ts aw ww m d) as [row |] eqn:Hrow; [| discriminate].
    simpl. destruct (miner_rows_of now_ts aw ww items) as [rows' |]; [| discriminate].
    intros [= <-]. constructor; [exact Hrow | exact (IH rows' eq_refl)].
Qed.

Lemma miner_rows_of_failed (now_ts : Z) (aw ww : spec_float)
    (items : list (string * MinerRecord.t)) (f : failure) :
  miner_rows_of now_ts aw ww items = Failed f ->
  exists m d, (m, d) ∈ items /\ miner_row now_ts aw ww m d = Failed f.
Proof.
  induction items as [| [m d] items IH]; simpl; [discriminate |].
  destruct (miner_row now_ts aw ww m d) as [row | f'] eqn:Hrow; simpl.
  - destruct (miner_rows_of now_ts aw ww items) as [rows' | f'']; [discriminate |].
    intros [= <-]. destruct (IH eq_refl) as (m' & d' & Hin & Hf).
    exists m', d'. split; [right; exact Hin | exact Hf].
  - intros [= <-]. exists m, d. split; [left | exact Hrow].
Qed.

Lemma miner_rows_of_done (now_ts : Z) (aw ww : spec_float)
    (items : list (string * MinerRecord.t)) :
  Forall (fun it => exists row, miner_row now_ts aw ww (fst it) (snd it) = Done row) items ->
  exists rows, miner_rows_of now_ts aw ww items = Done rows.
Proof.
  induction 1 as [| [m d] items (row & Hrow) _ (rows & IH)]; simpl.
  - eexists; reflexivity.
  - simpl in Hrow. rewrite Hrow, IH. eexists; reflexivity.
Qed.

(** A positive timestamp: its text, if any, has 23 characters and reads
    back as the timestamp; there is one up to the end of the year 9999. *)
Lemma ts_to_utc_positive (ts : Z) :
  0 < ts ->
  match ts_to_utc (Some ts) with
  | Done text =>
      ts <= max_timestamp /\ String.length text = 23%nat
      /\ timestamp_of (parse_utc text) = ts
  | Failed f => max_timestamp < ts /\ f = TimestampOutOfRange
  end.
Proof.
  intros Hts. unfold ts_to_utc.
  replace (ts =? 0) with false by (symmetry; apply Z.eqb_neq; lia).
  pose proof (fromtimestamp_utc_spec ts) as Hspec.
  destruct (DateTime.fromtimestamp_utc ts) as [dt |].
  - destruct Hspec as (Hrange & Hvalid & Hyear & Hy1000 & Hback).
    destruct (parse_strftime dt Hvalid ltac:(lia)) as [Hparse Hlen].
    rewrite Hparse. split; [lia | split; [exact Hlen | exact Hback]].
  - unfold min_timestamp in Hspec. split; [lia | reflexivity].
Qed.

Lemma sort_strings (l : list string) :
  NoDup l ->
  sort_by String.ltb l ≡ₚ l /\ strictly_ascending (sort_by String.ltb l).
Proof.
  intros Hnd. split; [apply sort_by_Permutation |].
  assert (Hsorted : StronglySorted (fun a b => String.ltb b a = false)
                      (sort_by String.ltb l)).
  { apply (sort_by_sorted String.ltb (fun _ => True)).
    - intros a b _ _. apply string_ltb_asym.
    - intros a b c _ _ _. apply string_ltb_negtrans.
    - apply Forall_forall. intros; exact I. }
  assert (Hnd' : NoDup (sort_by String.ltb l)) by (rewrite sort_by_Permutation; exact Hnd).
  intros i j a b Hij Hi Hj.
  pose proof (StronglySorted_lookup _ _ i j a b Hsorted Hij Hi Hj) as Hba.
  cbv beta in Hba.
  destruct (String.ltb a b) eqn:Hab; [reflexivity |].
  exfalso. assert (a = b) by (apply string_ltb_total; assumption). subst b.
  assert (i = j) by (apply (NoDup_lookup _ i j a Hnd'); assumption). lia.
Qed.

(** The age [classify_miner_age] gives is a number that is not negative. *)
Lemma miner_age_number (ts now_ts : Z) (a : spec_float) :
  miner_age_h ts now_ts = Ok a ->
  Float64.is_nan a = false /\ SFltb a Float64.zero = false.
Proof.
  unfold miner_age_h. destruct (Float64.of_int (now_ts - ts)) as [d |]; [| discriminate].
  simpl. intros [= <-]. split; [apply max_zero_not_nan |].
  unfold Float64.max. destruct (Float64.ltb Float64.zero _) eqn:E; [| reflexivity].
  pose proof (ltb_not_nan _ _ E) as Hn.
  destruct (float_trichotomy Float64.zero _ eq_refl Hn)
    as [(H1 & H2 & H3 & H4) | [(H1 & H2 & H3 & H4) | (H1 & H2 & H3 & H4)]];
    unfold Float64.ltb in E; congruence.
Qed.

Lemma miner_row_unfold (now_ts : Z) (aw ww : spec_float) (m : string)
    (d : MinerRecord.t) :
  miner_row now_ts aw ww m d
  = match classify_miner_age (MinerRecord.last_attest d) now_ts aw ww with
    | Ok c =>
        match ts_to_utc (MinerRecord.last_attest d) with
        | Done text =>
            Done (MinerRow.mk m (MinerRecord.last_attest d) text
                    (Classification.age_h c) (Classification.state c)
                    (Classification.weekly_eligible c)
                    (Classification.suggested_action c)
                    (MinerRecord.device_family d) (MinerRecord.device_arch d)
                    (MinerRecord.antiquity_multiplier d)
                    (sort_by String.ltb (MinerRecord.nodes_seen d))
                    (Z.of_nat (length (MinerRecord.nodes_seen d))))
        | Failed f => Failed f
        end
    | Raise e => Failed (Builtin e)
    end.
Proof.
  unfold miner_row. destruct (classify_miner_age _ _ _ _); [| reflexivity].
  simpl. destruct (ts_to_utc _); reflexivity.
Qed.

Lemma classify_miner_age_timed (ts now_ts : Z) (aw ww : spec_float) :
  ts <> 0 ->
  match classify_miner_age (Some ts) now_ts aw ww with
  | Ok c =>
      exists a, miner_age_h ts now_ts = Ok a
        /\ Classification.age_h c = Some a
        /\ Classification.state c ∈ timed_states
        /\ (Classification.weekly_eligible c = true
            <-> Classification.state c <> "inactive")
  | Raise e => miner_age_h ts now_ts = Raise e
  end.
Proof.
  intros Hts. unfold classify_miner_age.
  replace (ts =? 0) with false by (symmetry; apply Z.eqb_neq; exact Hts).
  destruct (miner_age_h ts now_ts) as [a |]; simpl; [| reflexivity].
  destruct (Float64.leb a aw); [| destruct (Float64.leb a ww)];
    exists a; simpl; (split; [reflexivity |]); (split; [reflexivity |]);
    (split; [unfold timed_states; set_solver |]);
    split; intros H; try reflexivity; try discriminate; congruence.
Qed.

(** What a miner row holds, for a record with a positive timestamp or
    none and with its nodes listed once. *)
Lemma miner_row_spec (now_ts : Z) (aw ww : spec_float) (m : string)
    (d : MinerRecord.t) (row : MinerRow.t) :
  match MinerRecord.last_attest d with Some ts => 0 < ts | None => True end ->
  NoDup (MinerRecord.nodes_seen d) ->
  miner_row now_ts aw ww m d = Done row ->
  MinerRow.miner row = m
  /\ MinerRow.last_attest row = MinerRecord.last_attest d
  /\ match MinerRow.last_attest row with
     | None =>
         MinerRow.age_h row = None /\ MinerRow.state row = "unknown"
         /\ MinerRow.last_attest_utc row = "-" /\ MinerRow.weekly_eligible row = false
     | Some ts =>
         0 < ts <= max_timestamp
         /\ (exists a, MinerRow.age_h row = Some a /\ Float64.is_nan a = false
                       /\ SFltb a Float64.zero = false)
         /\ MinerRow.state row ∈ timed_states
         /\ (MinerRow.weekly_eligible row = true <-> MinerRow.state row <> "inactive")
         /\ String.length (MinerRow.last_attest_utc row) = 23%nat
         /\ timestamp_of (parse_utc (MinerRow.last_attest_utc row)) = ts
     end
  /\ MinerRow.nodes_seen row ≡ₚ MinerRecord.nodes_seen d
  /\ strictly_ascending (MinerRow.nodes_seen row)
  /\ MinerRow.node_count row = Z.of_nat (length (MinerRow.nodes_seen row)).
Proof.
  intros Hpos Hnd. rewrite miner_row_unfold.
  destruct (sort_strings _ Hnd) as [Hperm Hasc].
  assert (Hlength : Z.of_nat (length (MinerRecord.nodes_seen d))
                    = Z.of_nat (length (sort_by String.ltb (MinerRecord.nodes_seen d))))
    by (rewrite Hperm; reflexivity).
  destruct (MinerRecord.last_attest d) as [ts |] eqn:Hts.
  - pose proof (ts_to_utc_positive ts Hpos) as Htext.
    pose proof (classify_miner_age_timed ts now_ts aw ww ltac:(lia)) as Hclass.
    destruct (classify_miner_age (Some ts) now_ts aw ww) as [c |]; [| discriminate].
    destruct Hclass as (a & Hage & Hc & Hstate & Hweekly).
    destruct (miner_age_number ts now_ts a Hage) as [Hnan Hnonneg].
    destruct (ts_to_utc (Some ts)) as [text |]; [| discriminate].
    destruct Htext as (Hmax & Hlen & Hback).
    intros [= <-]. cbn.
    split; [reflexivity |]. split; [reflexivity |].
    split; [| split; [exact Hperm | split; [exact Hasc | exact Hlength]]].
    split; [lia |]. split; [exists a; auto |].
    split; [exact Hstate |]. split; [exact Hweekly |].
    split; [exact Hlen | exact Hback].
  - simpl. intros [= <-]. cbn.
    split; [reflexivity |]. split; [reflexivity |].
    split; [repeat split |]. split; [exact Hperm |]. split; [exact Hasc |].
    exact Hlength.
Qed.

(** What a record of the aggregate satisfies. *)
Lemma aggregate_record_shape (node_miners : list (string * list dict))
    (aggregate : gmap string MinerRecord.t) (m : string) (d : MinerRecord.t) :
  _aggregate_miners node_miners = Ok aggregate ->
  aggregate !! m = Some d ->
  match MinerRecord.last_attest d with Some ts => 0 < ts | None => True end
  /\ NoDup (MinerRecord.nodes_seen d)
  /\ MinerRecord.nodes_seen d <> [].
Proof.
  intros Hagg Hm. rewrite (aggregate_record_of _ _ m Hagg) in Hm.
  unfold record_of in Hm. destruct (negb (PyStr.truthy m)); [discriminate |].
  destruct (sightings_of m (sightings node_miners)) as [| [n row] rest] eqn:Hs;
    [discriminate |].
  injection Hm as <-. simpl. split; [| split].
  - pose proof (latest_positive _ (positive_timestamps_positive m (sightings node_miners)))
      as Hpos.
    destruct (latest _); [exact Hpos | exact I].
  - apply first_occurrences_spec.
  - intros Hnil.
    assert (Hin : n ∈ first_occurrences (n :: map fst rest))
      by (apply first_occurrences_spec; left).
    rewrite Hnil in Hin. inversion Hin.
Qed.

End MinerRows.

Section ReportMiners.

Variable path_exists : string -> bool.
Variable read_text : string -> outcome string.

(** The stages of [compile_report] when it returns. *)
Lemma compile_report_stages (now_ts : Z) (generated_at : string)
    (aw ww : spec_float) (expected_miner : list string) (expected_miners_file : string)
    (seed_health : JSON) (seed_health_err : option string)
    (epoch_payload : JSON) (epoch_err nodes_err : option string)
    (scan : Scan.t) (report : Report.t) :
  compile_report path_exists read_text now_ts generated_at aw ww expected_miner
    expected_miners_file seed_health seed_health_err epoch_payload epoch_err nodes_err scan
  = Done report ->
  exists (rows : list MinerRow.t) (expected : gset string),
    miner_rows_of now_ts aw ww
      (aggregate_items (Scan.node_miners scan) (Scan.aggregate scan)) = Done rows
    /\ expected_miners path_exists read_text expected_miner expected_miners_file
       = Done expected
    /\ Report.miners report = sort_by row_lt rows
    /\ Report.nodes report = Scan.node_rows scan
    /\ Report.version_mismatch_nodes report = Scan.version_mismatch scan
    /\ Report.expected_miners_missing_rows report
       = missing_expected_rows
           (missing_expected expected
              (list_to_set (map MinerRow.miner (sort_by row_lt rows))))
    /\ Report.summary report
       = Summary.mk
           (Z.of_nat (length (Scan.node_rows scan)))
           (count (fun n => (NodeRow.is_active n && NodeRow.online n)%bool)
              (Scan.node_rows scan))
           (count (fun n => (NodeRow.is_active n && negb (NodeRow.online n))%bool)
              (Scan.node_rows scan))
           (count NodeRow.payout_eligible (Scan.node_rows scan))
           (Z.of_nat (length (sort_by row_lt rows)))
           (count MinerRow.weekly_eligible (sort_by row_lt rows))
           (Z.of_nat (length (Report.expected_miners_missing_rows report)))
           (Z.of_nat (length (Scan.version_mismatch scan))).
Proof.
  unfold compile_report.
  destruct (miner_rows_of _ _ _ _) as [rows |]; [| discriminate]. simpl.
  destruct (expected_miners _ _ _ _) as [expected |]; [| discriminate]. simpl.
  intros [= <-]. exists rows, expected. simpl. repeat split; reflexivity.
Qed.

(** The rows before the sort, one for each record of the aggregate. *)
Lemma miner_rows_of_aggregate (now_ts : Z) (aw ww : spec_float)
    (node_miners : list (string * list dict)) (aggregate : gmap string MinerRecord.t)
    (rows : list MinerRow.t) :
  _aggregate_miners node_miners = Ok aggregate ->
  miner_rows_of now_ts aw ww (aggregate_items node_miners aggregate) = Done rows ->
  NoDup (map MinerRow.miner rows)
  /\ (forall m, m ∈ map MinerRow.miner rows <-> is_Some (aggregate !! m))
  /\ Forall (fun row => exists d,
               aggregate !! MinerRow.miner row = Some d
               /\ miner_row now_ts aw ww (MinerRow.miner row) d = Done row) rows.
Proof.
  intros Hagg Hrows. apply miner_rows_of_Forall2 in Hrows.
  destruct (aggregate_items_spec _ _ Hagg) as [Hnd Hitems].
  set (items := aggregate_items node_miners aggregate) in *. clearbody items.
  assert (Hrow : Forall2 (fun it row => MinerRow.miner row = fst it
                                       /\ aggregate !! fst it = Some (snd it)
                                       /\ miner_row now_ts aw ww (fst it) (snd it) = Done row)
                   items rows).
  { assert (Hin : forall it, it ∈ items -> aggregate !! fst it = Some (snd it)).
    { intros [m d] Hit. apply Hitems. exact Hit. }
    clear Hitems Hnd. induction Hrows as [| [m d] row items' rows' Hrow Hrows IH];
      constructor.
    - split; [| split; [apply (Hin (m, d)); left | exact Hrow]].
      simpl in Hrow. rewrite miner_row_unfold in Hrow.
      destruct (classify_miner_age _ _ _ _); [| discriminate].
      destruct (ts_to_utc _); [| discriminate]. injection Hrow as <-. reflexivity.
    - apply IH. intros it Hit. apply Hin. right. exact Hit. }
  assert (Hids : map MinerRow.miner rows = map fst items).
  { clear -Hrow. induction Hrow as [| it row items' rows' (Hm & _) _ IH]; [reflexivity |].
    simpl. rewrite Hm, IH. reflexivity. }
  split; [rewrite Hids; exact Hnd |]. split.
  - intros m. rewrite Hids, list_elem_of_fmap. split.
    + intros ([m' d] & -> & Hin). apply Hitems in Hin. simpl. rewrite Hin.
      eexists; reflexivity.
    + intros [d Hd]. exists (m, d). split; [reflexivity | apply Hitems; exact Hd].
  - clear -Hrow. induction Hrow as [| [m d] row items' rows' (Hm & Hd & Hr) _ IH];
      constructor; [| exact IH].
    simpl in Hm, Hd, Hr. exists d. rewrite Hm. split; assumption.
Qed.

Lemma miner_rows_numbers (now_ts : Z) (aw ww : spec_float)
    (node_miners : list (string * list dict)) (aggregate : gmap string MinerRecord.t)
    (rows : list MinerRow.t) :
  _aggregate_miners node_miners = Ok aggregate ->
  miner_rows_of now_ts aw ww (aggregate_items node_miners aggregate) = Done rows ->
  Forall age_is_number rows.
Proof.
  intros Hagg Hrows.
  destruct (miner_rows_of_aggregate _ _ _ _ _ _ Hagg Hrows) as (_ & _ & Hall).
  eapply Forall_impl; [exact Hall |].
  intros row (d & Hd & Hrow).
  destruct (aggregate_record_shape _ _ _ _ Hagg Hd) as (Hpos & Hnd & _).
  destruct (miner_row_spec _ _ _ _ _ _ Hpos Hnd Hrow) as (_ & _ & Hage & _).
  unfold age_is_number.
  destruct (MinerRow.last_attest row).
  - destruct Hage as (_ & (a & -> & Hnan & _) & _). exact Hnan.
  - destruct Hage as (-> & _). exact I.
Qed.

(** Order of the miner rows. A report has exactly one miner row for each
    miner of the aggregate, and lists them in the order of the sort key:
    the miners with a timestamp first, by ascending age and, at equal age,
    by miner id; after them the miners without timestamp, by miner id. *)
Theorem miner_rows_sorted (now_ts : Z) (generated_at : string)
    (aw ww : spec_float) (expected_miner : list string) (expected_miners_file : string)
    (seed_health : JSON) (seed_health_err : option string)
    (epoch_payload : JSON) (epoch_err nodes_err : option string)
    (scan : Scan.t) (report : Report.t) :
  _aggregate_miners (Scan.node_miners scan) = Ok (Scan.aggregate scan) ->
  compile_report path_exists read_text now_ts generated_at aw ww expected_miner
    expected_miners_file seed_health seed_health_err epoch_payload epoch_err nodes_err scan
  = Done report ->
  let rows := Report.miners report in
  NoDup (map MinerRow.miner rows)
  /\ (forall m, m ∈ map MinerRow.miner rows <-> is_Some (Scan.aggregate scan !! m))
  /\ forall i j a b, (i < j)%nat -> rows !! i = Some a -> rows !! j = Some b ->
       row_before a b.
Proof.
  intros Hagg Hrun.
  destruct (compile_report_stages _ _ _ _ _ _ _ _ _ _ _ _ _ Hrun)
    as (rows0 & expected & Hrows & _ & Hminers & _).
  cbv zeta. rewrite Hminers.
  destruct (miner_rows_of_aggregate _ _ _ _ _ _ Hagg Hrows) as (Hnd & Hdom & _).
  pose proof (miner_rows_numbers _ _ _ _ _ _ Hagg Hrows) as Hnum.
  destruct (sorted_rows_before rows0 Hnum Hnd) as [Hperm Hord].
  split; [rewrite Hperm; exact Hnd |]. split; [| exact Hord].
  intros m. rewrite Hperm. apply Hdom.
Qed.

(** What every miner row of a report holds. The row shows the record of
    its miner in the aggregate. Without a timestamp the row has no age, the
    state [unknown], a dash for the date and no weekly eligibility. With a
    timestamp, which is positive and not after the year 9999, the age is a
    number that is not negative, the state is one of [active],
    [stale_but_weekly_eligible] and [inactive], the miner is weekly
    eligible exactly when it is not [inactive], and the date has 23
    characters and reads back as the timestamp. The nodes seen are those of
    the record in strictly ascending order, and [node_count] is their
    number, which is positive. *)
Theorem miner_row_invariants (now_ts : Z) (generated_at : string)
    (aw ww : spec_float) (expected_miner : list string) (expected_miners_file : string)
    (seed_health : JSON) (seed_health_err : option string)
    (epoch_payload : JSON) (epoch_err nodes_err : option string)
    (scan : Scan.t) (report : Report.t) :
  _aggregate_miners (Scan.node_miners scan) = Ok (Scan.aggregate scan) ->
  compile_report path_exists read_text now_ts generated_at aw ww expected_miner
    expected_miners_file seed_health seed_health_err epoch_payload epoch_err nodes_err scan
  = Done report ->
  Forall (fun row =>
            exists d,
              Scan.aggregate scan !! MinerRow.miner row = Some d
              /\ MinerRow.last_attest row = MinerRecord.last_attest d
              /\ match MinerRow.last_attest row with
                 | None =>
                     MinerRow.age_h row = None /\ MinerRow.state row = "unknown"
                     /\ MinerRow.last_attest_utc row = "-"
                     /\ MinerRow.weekly_eligible row = false
                 | Some ts =>
                     0 < ts <= max_timestamp
                     /\ (exists a, MinerRow.age_h row = Some a
                                   /\ Float64.is_nan a = false
                                   /\ SFltb a Float64.zero = false)
                     /\ MinerRow.state row ∈ timed_states
                     /\ (MinerRow.weekly_eligible row = true
                         <-> MinerRow.state row <> "inactive")
                     /\ String.length (MinerRow.last_attest_utc row) = 23%nat
                     /\ timestamp_of (parse_utc (MinerRow.last_attest_utc row)) = ts
                 end
              /\ MinerRow.nodes_seen row ≡ₚ MinerRecord.nodes_seen d
              /\ strictly_ascending (MinerRow.nodes_seen row)
              /\ MinerRow.node_count row = Z.of_nat (length (MinerRow.nodes_seen row))
              /\ 0 < MinerRow.node_count row)
    (Report.miners report).
Proof.
  intros Hagg Hrun.
  destruct (compile_report_stages _ _ _ _ _ _ _ _ _ _ _ _ _ Hrun)
    as (rows0 & expected & Hrows & _ & Hminers & _).
  rewrite Hminers, sort_by_Permutation.
  destruct (miner_rows_of_aggregate _ _ _ _ _ _ Hagg Hrows) as (_ & _ & Hall).
  eapply Forall_impl; [exact Hall |].
  intros row (d & Hd & Hrow). exists d. split; [exact Hd |].
  destruct (aggregate_record_shape _ _ _ _ Hagg Hd) as (Hpos & Hnd & Hne).
  destruct (miner_row_spec _ _ _ _ _ _ Hpos Hnd Hrow)
    as (_ & Hlast & Hts & Hperm & Hasc & Hcount).
  split; [exact Hlast |]. split; [exact Hts |]. split; [exact Hperm |].
  split; [exact Hasc |]. split; [exact Hcount |].
  rewrite Hcount, Hperm. destruct (MinerRecord.nodes_seen d); [congruence | simpl; lia].
Qed.

Lemma latest_ge (ts : list Z) (z : Z) :
  z ∈ ts -> exists y, latest ts = Some y /\ z <= y.
Proof.
  induction ts as [| t ts IH] using rev_ind; [intros H; inversion H |].
  rewrite elem_of_app, list_elem_of_singleton, latest_snoc. intros [Hin | ->].
  - destruct (IH Hin) as (y & -> & Hy). eexists. split; [reflexivity | lia].
  - destruct (latest ts); eexists; (split; [reflexivity | lia]).
Qed.

Lemma miner_row_failures (now_ts : Z) (aw ww : spec_float) (m : string)
    (d : MinerRecord.t) (f : failure) :
  miner_row now_ts aw ww m d = Failed f ->
  f = TimestampOutOfRange \/ f = Builtin OverflowError.
Proof.
  rewrite miner_row_unfold.
  destruct (classify_miner_age _ _ _ _) as [c | e] eqn:Hclass.
  - destruct (MinerRecord.last_attest d) as [ts |]; simpl; [| discriminate].
    destruct (ts =? 0); [discriminate |].
    destruct (DateTime.fromtimestamp_utc ts); [discriminate |].
    intros [= <-]. left. reflexivity.
  - intros [= <-]. right. f_equal.
    unfold classify_miner_age in Hclass.
    destruct (MinerRecord.last_attest d) as [ts |]; [| discriminate].
    destruct (ts =? 0); [discriminate |].
    unfold miner_age_h, Float64.of_int in Hclass.
    destruct (Float64.nearest (now_ts - ts)); simpl in Hclass;
      try (destruct (Float64.leb _ aw); [| destruct (Float64.leb _ ww)]; discriminate).
    congruence.
Qed.

(** A timestamp after the year 9999 fails the report. When the
    aggregation of the miner lists has returned, and a node lists a miner,
    under a non-empty id, with a [last_attest] after 9999-12-31 23:59:59
    UTC, as a timestamp in milliseconds is, no report is made: the run ends
    with the exception of [datetime.fromtimestamp] or, when the age does
    not fit a float, with [OverflowError]. *)
Theorem far_timestamp_fails_report (now_ts : Z) (generated_at : string)
    (aw ww : spec_float) (expected_miner : list string) (expected_miners_file : string)
    (seed_health : JSON) (seed_health_err : option string)
    (epoch_payload : JSON) (epoch_err nodes_err : option string)
    (scan : Scan.t) (node : string) (row : dict) (ts : Z) :
  _aggregate_miners (Scan.node_miners scan) = Ok (Scan.aggregate scan) ->
  (node, row) ∈ sightings (Scan.node_miners scan) ->
  row_miner_id row <> "" ->
  row_last_attest row = Ok ts ->
  max_timestamp < ts ->
  compile_report path_exists read_text now_ts generated_at aw ww expected_miner
    expected_miners_file seed_health seed_health_err epoch_payload epoch_err nodes_err scan
  = Failed TimestampOutOfRange
  \/ compile_report path_exists read_text now_ts generated_at aw ww expected_miner
       expected_miners_file seed_health seed_health_err epoch_payload epoch_err nodes_err
       scan
     = Failed (Builtin OverflowError).
Proof.
  intros Hagg Hin Hid Hrow Hfar.
  set (m := row_miner_id row).
  set (l := sightings (Scan.node_miners scan)) in *.
  assert (Hts : ts ∈ positive_timestamps m l).
  { apply list_elem_of_omap. exists (node, row). split; [exact Hin |].
    unfold positive_timestamp. simpl. fold m. rewrite String.eqb_refl, Hrow.
    replace (0 <? ts) with true; [reflexivity |].
    symmetry. apply Z.ltb_lt. unfold max_timestamp in Hfar. lia. }
  destruct (latest_ge _ _ Hts) as (y & Hlatest & Hy).
  assert (Hrec : exists d, Scan.aggregate scan !! m = Some d
                           /\ MinerRecord.last_attest d = Some y).
  { rewrite (aggregate_record_of _ _ m Hagg). fold l. unfold record_of.
    replace (PyStr.truthy m) with true by (symmetry; apply truthy_nonempty; exact Hid).
    simpl.
    destruct (sightings_of m l) as [| [n0 row0] rest] eqn:Hs.
    - rewrite (positive_timestamps_unsighted m l Hs) in Hts. inversion Hts.
    - eexists. split; [reflexivity |]. exact Hlatest. }
  destruct Hrec as (d & Hd & Hlast).
  assert (Hfail : exists f, miner_row now_ts aw ww m d = Failed f).
  { rewrite miner_row_unfold, Hlast.
    destruct (classify_miner_age _ _ _ _); [| eexists; reflexivity].
    pose proof (ts_to_utc_positive y ltac:(unfold max_timestamp in Hfar; lia)) as Htext.
    destruct (ts_to_utc (Some y)); [lia | eexists; reflexivity]. }
  destruct Hfail as (f0 & Hf0).
  unfold compile_report.
  destruct (miner_rows_of now_ts aw ww _) as [rows | f] eqn:Hrows.
  - exfalso.
    destruct (miner_rows_of_aggregate _ _ _ _ _ _ Hagg Hrows) as (_ & Hdom & Hall).
    assert (Hm : m ∈ map MinerRow.miner rows) by (apply Hdom; rewrite Hd; eexists; reflexivity).
    apply list_elem_of_fmap in Hm. destruct Hm as (r & Hr & Hrin).
    rewrite Forall_forall in Hall. destruct (Hall r Hrin) as (d' & Hd' & Hdone).
    rewrite <- Hr in Hd'. rewrite Hd in Hd'. injection Hd' as <-.
    rewrite <- Hr in Hdone. congruence.
  - simpl. apply miner_rows_of_failed in Hrows.
    destruct Hrows as (m' & d' & _ & Hf).
    destruct (miner_row_failures _ _ _ _ _ _ Hf) as [-> | ->]; [left | right]; reflexivity.
Qed.

End ReportMiners.

Lemma scan_of_miners_aggregate (node_miners : list (string * list dict)) :
  (exists aggregate, _aggregate_miners node_miners = Ok aggregate) ->
  _aggregate_miners (Scan.node_miners (scan_of_miners node_miners))
  = Ok (Scan.aggregate (scan_of_miners node_miners)).
Proof.
  intros [aggregate Hagg]. unfold scan_of_miners. simpl. rewrite Hagg. reflexivity.
Qed.

Lemma example_node_miners_aggregate :
  exists aggregate, _aggregate_miners example_node_miners = Ok aggregate.
Proof.
  destruct (_aggregate_miners example_node_miners) as [aggregate | e] eqn:Hagg;
    [exists aggregate; reflexivity | vm_compute in Hagg; discriminate].
Qed.

Lemma miner_rows_sorted_witness :
  exists report,
    report_of_miners example_node_miners = Done report
    /\ map MinerRow.miner (Report.miners report) = ["early"; "late"; "calm"; "quiet"]
    /\ forall i j a b, (i < j)%nat ->
         Report.miners report !! i = Some a -> Report.miners report !! j = Some b ->
         row_before a b.
Proof.
  destruct (report_of_miners example_node_miners) as [report | f] eqn:Hrun;
    [| vm_compute in Hrun; discriminate].
  exists report. split; [reflexivity |]. split.
  - vm_compute in Hrun. injection Hrun as <-. reflexivity.
  - exact (proj2 (proj2 (miner_rows_sorted _ _ _ _ _ _ _ _ _ _ _ _ _ _ _
                           (scan_of_miners_aggregate _ example_node_miners_aggregate)
                           Hrun))).
Defined.

Lemma miner_row_invariants_witness :
  exists report,
    report_of_miners example_node_miners = Done report
    /\ map MinerRow.last_attest_utc (Report.miners report)
       = ["2023-11-14 22:10:20 UTC"; "2023-11-14 21:13:20 UTC"; "-"; "-"]
    /\ Forall (fun row => 0 < MinerRow.node_count row) (Report.miners report).
Proof.
  destruct (report_of_miners example_node_miners) as [report | f] eqn:Hrun;
    [| vm_compute in Hrun; discriminate].
  exists report. split; [reflexivity |]. split.
  - vm_compute in Hrun. injection Hrun as <-. reflexivity.
  - eapply Forall_impl;
      [exact (miner_row_invariants _ _ _ _ _ _ _ _ _ _ _ _ _ _ _
                (scan_of_miners_aggregate _ example_node_miners_aggregate) Hrun) |].
    intros row (d & _ & _ & _ & _ & _ & _ & Hcount). exact Hcount.
Defined.

Lemma far_timestamp_fails_report_witness :
  report_of_miners millisecond_node_miners = Failed TimestampOutOfRange.
Proof.
  assert (Hagg : exists aggregate, _aggregate_miners millisecond_node_miners = Ok aggregate).
  { destruct (_aggregate_miners millisecond_node_miners) as [aggregate | e] eqn:Hagg;
      [exists aggregate; reflexivity | vm_compute in Hagg; discriminate]. }
  destruct (far_timestamp_fails_report (fun _ => false) (fun _ => Failed FileNotFoundError)
              1700000000 "2023-11-14T22:13:20Z" (Float64.nearest 2) (Float64.nearest 168)
              [] "" JNull None JNull None None
              (scan_of_miners millisecond_node_miners)
              "https://n1" (example_miner "ms" (JInt 1700000000000)) 1700000000000
              (scan_of_miners_aggregate _ Hagg))
    as [H | H].
  - simpl. right. left.
  - vm_compute. discriminate.
  - reflexivity.
  - reflexivity.
  - exact H.
  - vm_compute in H. discriminate H.
Defined.

(* ===================================================================== *)
(** * Properties of the summary *)
(* ===================================================================== *)

Section Counters.

Lemma count_app {A : Type} (p : A -> bool) (l1 l2 : list A) :
  count p (l1 ++ l2) = count p l1 + count p l2.
Proof. unfold count. rewrite List.filter_app, length_app. lia. Qed.

Lemma count_le {A : Type} (p q : A -> bool) (l : list A) :
  (forall x, x ∈ l -> p x = true -> q x = true) -> count p l <= count q l.
Proof.
  unfold count. induction l as [| x l IH]; intros H; simpl; [lia |].
  assert (IH' : Z.of_nat (length (List.filter p l)) <= Z.of_nat (length (List.filter q l))).
  { apply IH. intros y Hy. apply H. right. exact Hy. }
  destruct (p x) eqn:Hp.
  - rewrite (H x ltac:(left) Hp). simpl. lia.
  - destruct (q x); simpl; lia.
Qed.

Lemma count_bounds {A : Type} (p : A -> bool) (l : list A) :
  0 <= count p l <= Z.of_nat (length l).
Proof.
  unfold count. induction l as [| x l IH]; simpl; [lia |].
  destruct (p x); simpl; lia.
Qed.

Lemma count_none {A : Type} (p : A -> bool) (l : list A) :
  (forall x, x ∈ l -> p x = false) -> count p l = 0.
Proof.
  unfold count. induction l as [| x l IH]; intros H; simpl; [reflexivity |].
  rewrite (H x ltac:(left)). apply IH. intros y Hy. apply H. right. exact Hy.
Qed.

Lemma count_map {A B : Type} (f : A -> B) (p : B -> bool) (l : list A) :
  count p (map f l) = count (fun x => p (f x)) l.
Proof.
  unfold count. induction l as [| x l IH]; simpl; [reflexivity |].
  destruct (p (f x)); simpl; lia.
Qed.

Lemma length_omap_count {A B : Type} (f : A -> option B) (l : list A) :
  Z.of_nat (length (omap f l)) = count (fun x => bool_decide (is_Some (f x))) l.
Proof.
  unfold count. induction l as [| x l IH]; [reflexivity |].
  change (omap f (x :: l))
    with (match f x with Some y => y :: omap f l | None => omap f l end).
  cbn [List.filter].
  destruct (f x) as [y |] eqn:Hfx.
  - rewrite (bool_decide_eq_true_2 (is_Some (Some y))) by (eexists; reflexivity).
    cbn [length]. lia.
  - rewrite (bool_decide_eq_false_2 (is_Some None)) by (intros [y Hy]; discriminate).
    exact IH.
Qed.

Variable bracketed_host_ok : string -> bool.
Variable World : Type.
Variable http_get : string -> World -> Response * World.
Variable path_exists : string -> bool.
Variable read_text : string -> outcome string.

(** The counters of the summary. In a report, the nodes scanned are the
    candidates and the registry rows without URL; the count of node hosts
    eligible for the weekly payout is the count of active nodes online,
    which is at most the number of candidates; active nodes online and
    offline together are the rows declared active; the version-mismatch
    count is the length of the mismatch list and at most the payout
    count; the miners observed are the records of the aggregate, of which
    the weekly eligible ones are a part; and the expected miners missing
    are the expected miners without record. *)
Theorem summary_counters (seed_node : string) (node_url : list string) (w w' : World)
    (now_ts : Z) (generated_at : string)
    (aw ww : spec_float) (expected_miner : list string) (expected_miners_file : string)
    (seed_health : JSON) (seed_health_err : option string)
    (epoch_payload : JSON) (epoch_err nodes_err : option string)
    (scan : Scan.t) (report : Report.t) :
  build_report bracketed_host_ok World http_get seed_node node_url w = Ok (scan, w') ->
  compile_report path_exists read_text now_ts generated_at aw ww expected_miner
    expected_miners_file seed_health seed_health_err epoch_payload epoch_err nodes_err scan
  = Done report ->
  let s := Report.summary report in
  Summary.nodes_scanned s = Z.of_nat (length (Report.nodes report))
  /\ Summary.nodes_scanned s
     = Z.of_nat (length (Scan.node_urls scan))
       + count (blank_url bracketed_host_ok) (Scan.registry_rows scan)
  /\ Summary.node_hosts_weekly_payout_eligible s = Summary.active_nodes_online s
  /\ Summary.active_nodes_online s <= Z.of_nat (length (Scan.node_urls scan))
  /\ Summary.active_nodes_online s + Summary.active_nodes_offline s
     = count NodeRow.is_active (Report.nodes report)
  /\ Summary.version_mismatch_nodes s
     = Z.of_nat (length (Report.version_mismatch_nodes report))
  /\ Summary.version_mismatch_nodes s <= Summary.node_hosts_weekly_payout_eligible s
  /\ Summary.miners_observed s = Z.of_nat (size (dom (Scan.aggregate scan)))
  /\ Summary.miners_observed s = Z.of_nat (length (Report.miners report))
  /\ 0 <= Summary.miners_weekly_payout_eligible s <= Summary.miners_observed s
  /\ Summary.expected_miners_missing s
     = Z.of_nat (length (Report.expected_miners_missing_rows report))
  /\ forall expected,
       expected_miners path_exists read_text expected_miner expected_miners_file
       = Done expected ->
       Summary.expected_miners_missing s
       = Z.of_nat (size (expected ∖ dom (Scan.aggregate scan))).
Proof.
  intros Hbuild Hrun.
  destruct (build_report_stages _ _ _ _ _ _ _ _ Hbuild)
    as (np & registry_map & trace & _ & _ & _ & Hurls & _ & Hrows & Hvm & _ & Hagg).
  destruct (compile_report_stages _ _ _ _ _ _ _ _ _ _ _ _ _ _ _ Hrun)
    as (rows0 & expected0 & Hminers0 & Hexp & Hminers & Hnodes & Hmismatch & Hmissing & Hsum).
  destruct (miner_rows_of_aggregate _ _ _ _ _ _ Hagg Hminers0) as (Hnd & Hdom & _).
  cbv zeta. rewrite Hsum, Hnodes, Hmismatch, Hminers.
  cbn [Summary.nodes_scanned Summary.active_nodes_online Summary.active_nodes_offline
       Summary.node_hosts_weekly_payout_eligible Summary.miners_observed
       Summary.miners_weekly_payout_eligible Summary.expected_miners_missing
       Summary.version_mismatch_nodes].
  set (row_of := fun o => fst (observed_row (Scan.seed scan) (Scan.network_version scan)
                                 registry_map o)) in *.
  set (blank := List.filter (blank_url bracketed_host_ok) (Scan.registry_rows scan)) in *.
  assert (Hscanned : forall o,
             NodeRow.payout_eligible (row_of o)
             = (NodeRow.is_active (row_of o) && NodeRow.online (row_of o))%bool
             /\ (is_Some (snd (observed_row (Scan.seed scan) (Scan.network_version scan)
                                 registry_map o))
                 -> NodeRow.payout_eligible (row_of o) = true)).
  { intros o. unfold row_of, observed_row.
    destruct (node_row_payout (Scan.seed scan) (Scan.network_version scan)
                (default [] (registry_map !! Observation.key o)) (Observation.key o)
                (Observation.url o) (Observation.health_payload o)
                (Observation.health_err o) (Observation.miners_err o))
      as (Hpay & Hact & _).
    cbv zeta in Hpay, Hact. split; [exact Hpay |].
    rewrite node_row_mismatch. cbv zeta. rewrite Hpay, Hact.
    destruct (NodeRow.is_active _), (NodeRow.online _); simpl;
      try (intros [x Hx]; discriminate); reflexivity. }
  assert (Hmissing_rows : forall r, r ∈ map missing_url_row blank ->
             NodeRow.online r = false /\ NodeRow.payout_eligible r = false).
  { intros r Hr. apply list_elem_of_fmap in Hr. destruct Hr as (x & -> & _).
    split; reflexivity. }
  assert (Hpayout : count NodeRow.payout_eligible (Scan.node_rows scan)
                    = count (fun n => (NodeRow.is_active n && NodeRow.online n)%bool)
                        (Scan.node_rows scan)).
  { apply Z.le_antisymm; apply count_le; intros r Hr; rewrite Hrows in Hr;
      apply elem_of_app in Hr; destruct Hr as [Hr | Hr];
      try (apply list_elem_of_fmap in Hr; destruct Hr as (o & -> & _);
           rewrite (proj1 (Hscanned o)); tauto);
      destruct (Hmissing_rows r Hr) as [Hon Hpay]; rewrite Hon, Hpay, ?andb_false_r;
      discriminate. }
  assert (Hlen : length (map row_of trace) = length (Scan.node_urls scan)).
  { rewrite <- Hurls, !length_map. reflexivity. }
  split; [reflexivity |].
  split.
  { rewrite Hrows, length_app, Nat2Z.inj_add, Hlen. unfold count, blank.
    rewrite length_map. reflexivity. }
  split; [exact Hpayout |].
  split.
  { rewrite Hrows, count_app.
    rewrite (count_none _ (map missing_url_row blank)).
    - pose proof (count_bounds (fun n => (NodeRow.is_active n && NodeRow.online n)%bool)
                    (map row_of trace)) as Hb.
      rewrite Hlen in Hb. lia.
    - intros r Hr. destruct (Hmissing_rows r Hr) as [-> _]. apply andb_false_r. }
  split.
  { unfold count. generalize (Scan.node_rows scan). intros l.
    induction l as [| r l IH]; simpl; [reflexivity |].
    destruct (NodeRow.is_active r), (NodeRow.online r); simpl; lia. }
  split; [reflexivity |].
  split.
  { rewrite Hvm, length_omap_count, Hrows, count_app.
    pose proof (count_bounds NodeRow.payout_eligible (map missing_url_row blank)) as Hb.
    rewrite count_map.
    assert (Hle : count (fun o => bool_decide
                                    (is_Some (snd (observed_row (Scan.seed scan)
                                                     (Scan.network_version scan)
                                                     registry_map o)))) trace
                  <= count (fun o => NodeRow.payout_eligible (row_of o)) trace).
    { apply count_le. intros o _ Ho. apply bool_decide_eq_true in Ho.
      exact (proj2 (Hscanned o) Ho). }
    lia. }
  assert (Hobserved : (list_to_set (map MinerRow.miner (sort_by row_lt rows0)) : gset string)
                      = dom (Scan.aggregate scan)).
  { apply set_eq. intros m. rewrite elem_of_list_to_set, elem_of_dom, sort_by_Permutation.
    apply Hdom. }
  assert (Hsize : Z.of_nat (length (sort_by row_lt rows0))
                  = Z.of_nat (size (dom (Scan.aggregate scan)))).
  { rewrite <- Hobserved, size_list_to_set, length_map; [reflexivity |].
    rewrite sort_by_Permutation. exact Hnd. }
  split; [exact Hsize |].
  split; [reflexivity |].
  split; [apply count_bounds |].
  split; [reflexivity |].
  intros expected Hexpected. rewrite Hexp in Hexpected. injection Hexpected as <-.
  rewrite Hmissing, Hobserved. unfold missing_expected_rows, missing_expected.
  rewrite length_map, merge_sort_Permutation. reflexivity.
Qed.

End Counters.

Lemma summary_counters_witness :
  exists scan report,
    build_report (fun _ => true) unit example_network "https://50.28.86.131" [] tt
    = Ok (scan, tt)
    /\ compile_report (fun _ => false) (fun _ => Failed FileNotFoundError)
         1700000000 "2023-11-14T22:13:20Z" (Float64.nearest 2) (Float64.nearest 168)
         ["m1"; "m9"] "" JNull None JNull None None scan
       = Done report
    /\ Report.summary report = Summary.mk 3 2 1 2 2 1 1 1
    /\ Summary.node_hosts_weekly_payout_eligible (Report.summary report)
       = Summary.active_nodes_online (Report.summary report).
Proof.
  destruct (build_report (fun _ => true) unit example_network "https://50.28.86.131" [] tt)
    as [[scan []] | e] eqn:Hrun; [| vm_compute in Hrun; discriminate].
  pose proof Hrun as Hscan. vm_compute in Hscan. injection Hscan as Hscan.
  destruct (compile_report (fun _ => false) (fun _ => Failed FileNotFoundError)
              1700000000 "2023-11-14T22:13:20Z" (Float64.nearest 2) (Float64.nearest 168)
              ["m1"; "m9"] "" JNull None JNull None None scan)
    as [report | f] eqn:Hrep;
    [| rewrite <- Hscan in Hrep; vm_compute in Hrep; discriminate].
  exists scan, report. split; [reflexivity |]. split; [exact Hrep |].
  pose proof (summary_counters (fun _ => true) unit example_network (fun _ => false)
                (fun _ => Failed FileNotFoundError) _ _ _ _ _ _ _ _ _ _ _ _ _ _ _ _ _
                Hrun Hrep) as Hsum.
  split; [| exact (proj1 (proj2 (proj2 Hsum)))].
  rewrite <- Hscan in Hrep. vm_compute in Hrep. injection Hrep as <-. reflexivity.
Defined.
